(** * wetzel: lib/generateMarkdown.js

    A shallow embedding of the documentation generator of wetzel
    (lib/generateMarkdown.js) and the properties of it that the
    specification states.

    Conventions of the embedding.
    - A JavaScript value read from a schema is a [value]: the JSON values
      plus [VUndef].  Numbers are the integers ([Z]); they are printed in
      decimal, which is what JavaScript prints for integers below 10^21.
    - Strings are byte strings; [toLowerCase] lowers the ASCII letters.
    - Objects are association lists in the enumeration order of their keys,
      each key at most once.  Schemas are trees: no object is reachable
      under two paths.
    - A computation that can throw returns a [result].  Recursion that the
      source does not bound takes a [fuel] argument and yields
      [Throw OutOfFuel] when it is used up.
    - The modules the source requires and that are not part of
      generateMarkdown.js ([style], the two resolvers, [sortObject],
      [defined], [defaultValue], [enums]) are either parameters ([Style],
      [StyleModule], [Resolvers]) or small definitions marked
      "Modelled from the spec". *)

From Stdlib Require Import ZArith List String Ascii Bool Lia.
From Stdlib Require Import Numbers.DecimalString.
From Stdlib Require Import Sorting.Sorted Sorting.Permutation.
Import ListNotations.
Set Warnings "-register-all".
Open Scope list_scope.
Open Scope string_scope.
Open Scope Z_scope.

(* ------------------------------------------------------------------ *)
(** ** Results of computations that can throw *)

Inductive error : Type :=
| TypeError      (* property read of undefined or null, call of a non-function, ... *)
| ResolverError  (* whatever a resolver may raise *)
| OutOfFuel.     (* the fuel of the model is used up *)

Inductive result (A : Type) : Type :=
| Ok (a : A)
| Throw (e : error).
Arguments Ok {A} a.
Arguments Throw {A} e.

Definition bind {A B : Type} (m : result A) (k : A -> result B) : result B :=
  match m with
  | Ok a => k a
  | Throw e => Throw e
  end.

Declare Scope js_scope.
Delimit Scope js_scope with js.
Notation "x <- m ;; k" := (bind m (fun x => k))
  (at level 100, m at next level, right associativity) : js_scope.
Notation "' p <- m ;; k" := (bind m (fun p => k))
  (at level 100, p pattern, m at next level, right associativity) : js_scope.
Open Scope js_scope.

(* ------------------------------------------------------------------ *)
(** ** Strings *)

Definition nl : string := String (ascii_of_nat 10) "".

Definition lowerAscii (c : ascii) : ascii :=
  let n := nat_of_ascii c in
  if (Nat.leb 65 n && Nat.leb n 90)%bool then ascii_of_nat (n + 32) else c.

(** [s.toLowerCase()] *)
Fixpoint toLowerCase (s : string) : string :=
  match s with
  | EmptyString => EmptyString
  | String c r => String (lowerAscii c) (toLowerCase r)
  end.

(** [s.replace(/c/g, by)] for a one-character pattern *)
Fixpoint replaceAllChar (c : ascii) (by_ : string) (s : string) : string :=
  match s with
  | EmptyString => EmptyString
  | String d r =>
      (if Ascii.eqb c d then by_ else String d "") ++ replaceAllChar c by_ r
  end.

Fixpoint dropN (n : nat) (s : string) : string :=
  match n, s with
  | O, _ => s
  | S n', String _ r => dropN n' r
  | S _, EmptyString => EmptyString
  end.

(** [s.replace(pat, by)] for a string pattern: the first occurrence only,
    wherever it is; [by_] holds no [$]. *)
Fixpoint replaceFirst (pat by_ s : string) : string :=
  if String.prefix pat s then by_ ++ dropN (String.length pat) s
  else match s with
       | EmptyString => EmptyString
       | String c r => String c (replaceFirst pat by_ r)
       end.

(** [s.includes(pat)] *)
Fixpoint includes (pat s : string) : bool :=
  if String.prefix pat s then true
  else match s with
       | EmptyString => false
       | String _ r => includes pat r
       end.

(** [s.endsWith(c)] for a one-character [c] *)
Fixpoint endsWithChar (c : ascii) (s : string) : bool :=
  match s with
  | EmptyString => false
  | String d EmptyString => Ascii.eqb c d
  | String _ r => endsWithChar c r
  end.

Definition numToString (n : Z) : string :=
  NilEmpty.string_of_int (Z.to_int n).

Definition natToString (n : nat) : string :=
  NilEmpty.string_of_uint (Nat.to_uint n).

(* ------------------------------------------------------------------ *)
(** ** JavaScript values *)

Inductive value : Type :=
| VUndef
| VNull
| VBool (b : bool)
| VNum (n : Z)
| VStr (s : string)
| VArr (l : list value)
| VObj (fields : list (string * value)).

(** Modelled from the spec: lib/defined.js is not part of the source; the
    spec has "every optional access is guarded and absent fields simply
    produce absent output".  A value is defined when it is neither
    [undefined] nor [null]. *)
Definition defined (v : value) : bool :=
  match v with
  | VUndef | VNull => false
  | _ => true
  end.

(** Modelled from the spec: lib/defaultValue.js is not part of the source;
    "default [['']]" for [searchPath]: the first argument when it is
    defined, the second otherwise. *)
Definition defaultValue (a b : value) : value :=
  if defined a then a else b.

(** Truthiness, as [if (v)] and [v && ...] take it. *)
Definition truthy (v : value) : bool :=
  match v with
  | VUndef | VNull => false
  | VBool b => b
  | VNum n => negb (n =? 0)
  | VStr s => negb (String.eqb s "")
  | VArr _ | VObj _ => true
  end.

(** [a === b] for two values read from different places of a tree: two
    objects or arrays are different references. *)
Definition strictEq (a b : value) : bool :=
  match a, b with
  | VUndef, VUndef => true
  | VNull, VNull => true
  | VBool x, VBool y => Bool.eqb x y
  | VNum x, VNum y => x =? y
  | VStr x, VStr y => String.eqb x y
  | _, _ => false
  end.

Definition isNumber (v : value) : bool :=
  match v with VNum _ => true | _ => false end.

Definition isArray (v : value) : bool :=
  match v with VArr _ => true | _ => false end.

(** [typeof v === 'object'] *)
Definition isObjectType (v : value) : bool :=
  match v with VNull | VArr _ | VObj _ => true | _ => false end.

Fixpoint assoc (k : string) (fs : list (string * value)) : value :=
  match fs with
  | [] => VUndef
  | (k', v) :: r => if String.eqb k k' then v else assoc k r
  end.

(** [o.k = v]: an existing key keeps its place, a new key goes last. *)
Fixpoint assocSet (k : string) (v : value) (fs : list (string * value))
  : list (string * value) :=
  match fs with
  | [] => [(k, v)]
  | (k', v') :: r =>
      if String.eqb k k' then (k', v) :: r else (k', v') :: assocSet k v r
  end.

Definition chars (s : string) : list value :=
  map (fun c => VStr (String c "")) (list_ascii_of_string s).

(** [v.k] for a key [k] that is a plain name (none of the names the source
    reads is on a prototype, but for [length]). *)
Definition get (v : value) (k : string) : result value :=
  match v with
  | VUndef | VNull => Throw TypeError
  | VObj fs => Ok (assoc k fs)
  | VArr l =>
      Ok (if String.eqb k "length" then VNum (Z.of_nat (List.length l)) else VUndef)
  | VStr s =>
      Ok (if String.eqb k "length" then VNum (Z.of_nat (String.length s)) else VUndef)
  | VBool _ | VNum _ => Ok VUndef
  end.

(** [v[0]], ..., [v[v.length - 1]] as a loop [for (i = 0; i < v.length; ++i)]
    reads them.  Of an object only a numeric [length] is followed. *)
Definition elements (v : value) : list value :=
  match v with
  | VArr l => l
  | VStr s => chars s
  | VObj fs =>
      match assoc "length" fs with
      | VNum n => map (fun i => assoc (natToString i) fs) (seq 0 (Z.to_nat n))
      | _ => []
      end
  | _ => []
  end.

(** [v[i]] for a defined [v] *)
Definition getIndex (v : value) (i : nat) : value :=
  match v with
  | VArr l => nth i l VUndef
  | VStr s => nth i (chars s) VUndef
  | VObj fs => assoc (natToString i) fs
  | _ => VUndef
  end.

(** The own enumerable properties, as [for (name in v)] visits them. *)
Definition ownEntries (v : value) : list (string * value) :=
  match v with
  | VObj fs => fs
  | VArr l => combine (map natToString (seq 0 (List.length l))) l
  | VStr s => combine (map natToString (seq 0 (String.length s))) (chars s)
  | _ => []
  end.

(** [Object.keys(v).length] *)
Definition keysLength (v : value) : result nat :=
  match v with
  | VUndef | VNull => Throw TypeError
  | _ => Ok (List.length (ownEntries v))
  end.

(** [v.hasOwnProperty(name)] for a [name] that [for (name in v)] yields:
    an own property called [hasOwnProperty] hides the method, and a JSON
    value cannot be called. *)
Definition hasOwnProperty (v : value) (name : string) : result bool :=
  match v with
  | VObj fs => match assoc "hasOwnProperty" fs with
               | VUndef => Ok true
               | _ => Throw TypeError
               end
  | _ => Ok true
  end.

(** The values [for (x of v)] yields; a number, a boolean or an object is
    not iterable. *)
Definition iterate (v : value) : result (list value) :=
  match v with
  | VArr l => Ok l
  | VStr s => Ok (chars s)
  | _ => Throw TypeError
  end.

Definition joinWith (sep : string) (l : list string) : string :=
  String.concat sep l.

(** [String(v)], the conversion of template literals and of [+] with a
    string. *)
Fixpoint toStr (v : value) : string :=
  match v with
  | VUndef => "undefined"
  | VNull => "null"
  | VBool true => "true"
  | VBool false => "false"
  | VNum n => numToString n
  | VStr s => s
  | VArr l =>
      joinWith "," (map (fun x => match x with
                                  | VUndef | VNull => ""
                                  | _ => toStr x
                                  end) l)
  | VObj _ => "[object Object]"
  end.

(** [s.toLowerCase()] as a method call on a value *)
Definition callToLowerCase (v : value) : result string :=
  match v with
  | VStr s => Ok (toLowerCase s)
  | _ => Throw TypeError
  end.

(* ------------------------------------------------------------------ *)
(** ** JSON.stringify *)

Definition hexDigit (n : nat) : ascii :=
  ascii_of_nat (if Nat.ltb n 10 then 48 + n else 87 + n).

Definition escapeChar (c : ascii) : string :=
  let n := nat_of_ascii c in
  if Nat.eqb n 34 then "\" ++ String c ""
  else if Nat.eqb n 92 then "\\"
  else if Nat.eqb n 8 then "\b"
  else if Nat.eqb n 9 then "\t"
  else if Nat.eqb n 10 then "\n"
  else if Nat.eqb n 12 then "\f"
  else if Nat.eqb n 13 then "\r"
  else if Nat.ltb n 32 then
    "\u00" ++ String (hexDigit (Nat.div n 16)) (String (hexDigit (Nat.modulo n 16)) "")
  else String c "".

Fixpoint escapeString (s : string) : string :=
  match s with
  | EmptyString => EmptyString
  | String c r => escapeChar c ++ escapeString r
  end.

Definition quote (s : string) : string :=
  String (ascii_of_nat 34) (escapeString s) ++ String (ascii_of_nat 34) "".

(** [JSON.stringify(v)]; [None] stands for [undefined]. *)
Fixpoint stringify (v : value) : option string :=
  match v with
  | VUndef => None
  | VNull => Some "null"
  | VBool true => Some "true"
  | VBool false => Some "false"
  | VNum n => Some (numToString n)
  | VStr s => Some (quote s)
  | VArr l =>
      Some ("[" ++ joinWith "," (map (fun x => match stringify x with
                                               | Some s => s
                                               | None => "null"
                                               end) l) ++ "]")
  | VObj fs =>
      Some ("{" ++ joinWith ","
              (flat_map (fun kv => match stringify (snd kv) with
                                   | Some s => [quote (fst kv) ++ ":" ++ s]
                                   | None => []
                                   end) fs) ++ "}")
  end.

Definition JSON_stringify (v : value) : value :=
  match stringify v with
  | Some s => VStr s
  | None => VUndef
  end.


(* ------------------------------------------------------------------ *)
(** ** The collaborators of generateMarkdown.js *)

Inductive StyleMode : Type := Markdown | AsciiDoctor.

(** Modelled from the spec: lib/enums.js is not part of the source; the
    option [embedMode] is "writeIncludeStatements",
    "referenceIncludeDocument" or full expansion. *)
Inductive EmbedMode : Type :=
| fullExpansion
| writeIncludeStatements
| referenceIncludeDocument.

Definition EmbedMode_eqb (a b : EmbedMode) : bool :=
  match a, b with
  | fullExpansion, fullExpansion => true
  | writeIncludeStatements, writeIncludeStatements => true
  | referenceIncludeDocument, referenceIncludeDocument => true
  | _, _ => false
  end.

(** The functions and the two properties of lib/style.js that the source
    uses, at one state of the style configuration.  A function whose result
    the source only concatenates to a string yields a [string]; an omitted
    trailing argument is [None]. *)
Record Style : Type := {
  getHeaderMarkdown : Z -> string;
  getTOCLink : string -> value -> string;
  bulletItem : string -> option Z -> string;
  getSectionMarkdown : value -> Z -> bool -> EmbedMode -> string;
  embedJsonSchema : value -> option string -> string;
  propertyGltfWebGL : string -> string;
  bold : string -> string;
  getSchemaEmbedLink : value -> value -> string;
  getLinkMarkdown : value -> string -> string;
  beginTable : list string -> string;
  addTableRow : list value -> string;
  endTable : string;
  propertyNameSummary : string -> string;
  requiredIcon : string;
  mustKeyword : string;
  styleDefaultValue : value -> value -> string;   (* style.defaultValue *)
  propertyDetails : string -> string;
  minMax : value -> string;
  typeValue : value -> string;
  linkType : value -> value -> value -> value;
  enumElement : value -> value -> string
}.

(** One entry of the type graph the resolver returns. *)
Record TypeEntry : Type := {
  schema : value;
  fileName : value;
  parents : list string;
  children : list string
}.

Definition TypeGraph : Type := list (string * TypeEntry).

(** [orderedTypes[title]] *)
Fixpoint lookupType (title : string) (g : TypeGraph) : result TypeEntry :=
  match g with
  | [] => Throw TypeError   (* a member of undefined is read next *)
  | (t, e) :: r => if String.eqb title t then Ok e else lookupType title r
  end.

(** The derived descriptor of one property. *)
Record PropertySummary : Type := {
  s_type : value;
  s_formattedType : value;
  s_description : value;
  s_required : string
}.

(* ------------------------------------------------------------------ *)
(** ** Property descriptors and enumerations *)

(** The loop of [getPropertyType]: the [type] of the first branch that
    defines one, else what the last branch read. *)
Fixpoint anyOfType (branches : list value) (type : value) : result value :=
  match branches with
  | [] => Ok type
  | b :: r =>
      t <- get b "type" ;;
      if defined t then Ok t else anyOfType r t
  end.

Definition getPropertyType (schema : value) : result value :=
  typeName <- get schema "typeName" ;;
  if defined typeName then Ok typeName else
  type <- get schema "type" ;;
  if defined type then Ok type else
  propertyAnyOf <- get schema "anyOf" ;;
  if negb (defined propertyAnyOf) then Ok VUndef else
  anyOfType (elements propertyAnyOf) type.

Section Rendering.

Variable style : Style.
Variable knownTypes : list string.   (* the keys of orderedTypesDescending *)
Variable autoLink : value.

Definition autoLinkDescription (description : value) : value :=
  fold_left (fun d type => linkType style d (VStr type) autoLink)
            knownTypes description.

(** The loop of [getAnyOfEnumString]. *)
Fixpoint anyOfEnumLoop (branches : list value) (type : value) (depth : Z)
  : result string :=
  match branches with
  | [] => Ok ""
  | element :: r =>
      constValue <- get element "const" ;;
      enumValue <- get element "enum" ;;
      enumDescription <- get element "description" ;;
      if defined constValue then
        let enumString :=
          enumElement style constValue type ++
          (if defined enumDescription then " " ++ toStr enumDescription else "") in
        rest <- anyOfEnumLoop r type depth ;;
        Ok (bulletItem style enumString (Some depth) ++ rest)
      else
        match enumValue with
        | VArr (first :: _) =>
            let enumString :=
              enumElement style first type ++
              (if defined enumDescription then " " ++ toStr enumDescription else "") in
            rest <- anyOfEnumLoop r type depth ;;
            Ok (bulletItem style enumString (Some depth) ++ rest)
        | _ => anyOfEnumLoop r type depth   (* continue *)
        end
  end.

(** [None] stands for [undefined]. *)
Definition getAnyOfEnumString (schema type : value) (depth : Z)
  : result (option string) :=
  propertyAnyOf <- get schema "anyOf" ;;
  if negb (defined propertyAnyOf) then Ok None else
  allowedValues <- anyOfEnumLoop (elements propertyAnyOf) type depth ;;
  Ok (Some allowedValues).

(** The loop of [getEnumString], from index [i] on. *)
Fixpoint enumLoop (values : list value) (i : nat) (propertyEnumNames type : value)
  (depth : Z) : string :=
  match values with
  | [] => ""
  | v :: r =>
      let element :=
        enumElement style v type ++
        (if defined propertyEnumNames
         then " " ++ toStr (getIndex propertyEnumNames i) else "") in
      bulletItem style element (Some depth)
        ++ enumLoop r (S i) propertyEnumNames type depth
  end.

Definition getEnumString (schema type : value) (depth : Z)
  : result (option string) :=
  propertyEnum <- get schema "enum" ;;
  if negb (defined propertyEnum) then getAnyOfEnumString schema type depth else
  propertyEnumNames <- get schema "gltf_enumNames" ;;
  Ok (Some (enumLoop (elements propertyEnum) 0 propertyEnumNames type depth)).

(** Lines 471-486 of [getPropertySummary]: the bracketed cardinality. *)
Definition arrayInfo (property : value) : result string :=
  minItems <- get property "minItems" ;;
  maxItems <- get property "maxItems" ;;
  let insideBrackets :=
    if (defined minItems && strictEq minItems maxItems)%bool then
      toStr minItems
    else if (defined minItems && defined maxItems)%bool then
      toStr minItems ++ "-" ++ toStr maxItems
    else if defined minItems then
      toStr minItems ++ "-*"
    else if defined maxItems then
      "*-" ++ toStr maxItems
    else "" in
  Ok ("[" ++ insideBrackets ++ "]").

(** Lines 510-529 of [getPropertySummary]. *)
Definition requiredString (property type : value) : result string :=
  required <- get property "required" ;;
  if (defined required && truthy required)%bool then
    Ok (requiredIcon style ++ "Yes")
  else
    propertyDefault <- get property "default" ;;
    if defined propertyDefault then
      let defaultString :=
        if isArray propertyDefault then
          VStr ("[" ++ toStr propertyDefault ++ "]")
        else if isObjectType propertyDefault then
          JSON_stringify propertyDefault
        else propertyDefault in
      Ok ("No, default: " ++ styleDefaultValue style defaultString type)
    else Ok "No".

Definition getPropertySummary (property : value) : result PropertySummary :=
  t <- getPropertyType property ;;
  let type := defaultValue t (VStr "any") in
  let formattedType := linkType style (VStr (typeValue style type)) type autoLink in
  '(type, formattedType) <-
    (if strictEq type (VStr "array") then
       arrayInfo <- arrayInfo property ;;
       items <- get property "items" ;;
       itemsType <- (if defined items then get items "type" else Ok VUndef) ;;
       if (defined items && defined itemsType)%bool then
         if strictEq itemsType (VStr "object") then
           type <- getPropertyType items ;;
           let type := VStr (toStr type ++ arrayInfo) in
           Ok (type, VStr (typeValue style type))
         else
           let type := VStr (toStr itemsType ++ arrayInfo) in
           Ok (type, VStr (typeValue style type))
       else
         let type := VStr (toStr type ++ arrayInfo) in
         Ok (type, VStr (typeValue style type))
     else Ok (type, formattedType)) ;;
  propertyDescription <- get property "description" ;;
  let description := autoLinkDescription propertyDescription in
  required <- requiredString property type ;;
  Ok {| s_type := type;
        s_formattedType := formattedType;
        s_description := description;
        s_required := required |}.

(* ------------------------------------------------------------------ *)
(** ** The details of one property *)

Definition setProp (k : string) (v : value) (o : value) : value :=
  match o with
  | VObj fs => VObj (assocSet k v fs)
  | _ => o
  end.

(** Lines 325-334, "Downgrade newer schemas": a numeric [exclusiveKey] of
    [items] is moved to [boundKey] and replaced by [true], in the object
    itself. *)
Definition downgrade (exclusiveKey boundKey : string) (items : value)
  : result value :=
  exclusive <- get items exclusiveKey ;;
  if (defined exclusive && isNumber exclusive)%bool then
    Ok (setProp exclusiveKey (VBool true) (setProp boundKey exclusive items))
  else Ok items.

Definition eachElementInTheArrayMust : string :=
  "Each element in the array" ++ mustKeyword style.

(** Lines 336-349: the range of the elements, read from the downgraded
    [items]. *)
Definition itemsRange (items : value) : result string :=
  exclusiveMinimum <- get items "exclusiveMinimum" ;;
  let minString :=
    if (defined exclusiveMinimum && truthy exclusiveMinimum)%bool
    then "greater than" else "greater than or equal to" in
  exclusiveMaximum <- get items "exclusiveMaximum" ;;
  let maxString :=
    if (defined exclusiveMaximum && truthy exclusiveMaximum)%bool
    then "less than" else "less than or equal to" in
  minimum <- get items "minimum" ;;
  maximum <- get items "maximum" ;;
  if (defined minimum && defined maximum)%bool then
    Ok (bulletItem style
          (eachElementInTheArrayMust ++ "be " ++ minString ++ " " ++
           minMax style minimum ++ " and " ++ maxString ++ " " ++
           minMax style maximum ++ ".") (Some 1))
  else if defined minimum then
    Ok (bulletItem style
          (eachElementInTheArrayMust ++ "be " ++ minString ++ " " ++
           minMax style minimum ++ ".") (Some 1))
  else if defined maximum then
    Ok (bulletItem style
          (eachElementInTheArrayMust ++ "be " ++ maxString ++ " " ++
           minMax style maximum ++ ".") (Some 1))
  else Ok "".

(** Lines 351-358: the length of the elements. *)
Definition itemsLength (items : value) : result string :=
  minLength <- get items "minLength" ;;
  maxLength <- get items "maxLength" ;;
  if (defined minLength && defined maxLength)%bool then
    Ok (bulletItem style
          (eachElementInTheArrayMust ++ "have length between " ++
           minMax style minLength ++ " and " ++ minMax style maxLength ++ ".")
          (Some 1))
  else if defined minLength then
    Ok (bulletItem style
          (eachElementInTheArrayMust ++ "have length greater than or equal to " ++
           minMax style minLength ++ ".") (Some 1))
  else if defined maxLength then
    Ok (bulletItem style
          (eachElementInTheArrayMust ++ "have length less than or equal to " ++
           minMax style maxLength ++ ".") (Some 1))
  else Ok "".

(** Lines 322-364: what [items] contributes, and [items] as the pass
    leaves it. *)
Definition itemsDetails (items type : value) : result (string * value) :=
  if negb (defined items) then Ok ("", items) else
  items <- downgrade "exclusiveMinimum" "minimum" items ;;
  items <- downgrade "exclusiveMaximum" "maximum" items ;;
  range <- itemsRange items ;;
  len <- itemsLength items ;;
  itemsString <- getEnumString items type 2 ;;
  let enum :=
    match itemsString with
    | Some s =>
        bulletItem style
          (eachElementInTheArrayMust ++ "be one of the following values:")
          (Some 1) ++ s
    | None => ""
    end in
  Ok (range ++ len ++ enum, items).

(** Lines 368-377. *)
Definition minimumBullet (property : value) : result string :=
  propertyExclusiveMinimum <- get property "exclusiveMinimum" ;;
  if (defined propertyExclusiveMinimum && isNumber propertyExclusiveMinimum)%bool
  then
    Ok (bulletItem style
          (propertyDetails style "Minimum" ++ ": " ++
           minMax style (VStr (" > " ++ toStr propertyExclusiveMinimum)))
          (Some 0))
  else
    minimum <- get property "minimum" ;;
    if defined minimum then
      let exclusiveMinimum :=
        (defined propertyExclusiveMinimum && truthy propertyExclusiveMinimum)%bool in
      Ok (bulletItem style
            (propertyDetails style "Minimum" ++ ": " ++
             minMax style
               (VStr ((if exclusiveMinimum then " > " else " >= ") ++ toStr minimum)))
            (Some 0))
    else Ok "".

(** Lines 379-388. *)
Definition maximumBullet (property : value) : result string :=
  propertyExclusiveMaximum <- get property "exclusiveMaximum" ;;
  if (defined propertyExclusiveMaximum && isNumber propertyExclusiveMaximum)%bool
  then
    Ok (bulletItem style
          (propertyDetails style "Maximum" ++ ": " ++
           minMax style (VStr (" < " ++ toStr propertyExclusiveMaximum)))
          (Some 0))
  else
    maximum <- get property "maximum" ;;
    if defined maximum then
      let exclusiveMaximum :=
        (defined propertyExclusiveMaximum && truthy propertyExclusiveMaximum)%bool in
      Ok (bulletItem style
            (propertyDetails style "Maximum" ++ ": " ++
             minMax style
               (VStr ((if exclusiveMaximum then " < " else " <= ") ++ toStr maximum)))
            (Some 0))
    else Ok "".

(** Lines 390-408: format, pattern and the two lengths. *)
Definition scalarBullets (property : value) : result string :=
  format <- get property "format" ;;
  pattern <- get property "pattern" ;;
  minLength <- get property "minLength" ;;
  maxLength <- get property "maxLength" ;;
  Ok ((if defined format then
         bulletItem style (propertyDetails style "Format" ++ ": " ++ toStr format)
                    (Some 0)
       else "") ++
      (if defined pattern then
         bulletItem style (propertyDetails style "Pattern" ++ ": " ++
                           minMax style pattern) (Some 0)
       else "") ++
      (if defined minLength then
         bulletItem style (propertyDetails style "Minimum Length" ++
                           minMax style (VStr (": >= " ++ toStr minLength))) (Some 0)
       else "") ++
      (if defined maxLength then
         bulletItem style (propertyDetails style "Maximum Length" ++
                           minMax style (VStr (": <= " ++ toStr maxLength))) (Some 0)
       else "")).

(** The loop of lines 421-427. *)
Fixpoint propertyTypesAllowed (propTypes : list value) : result string :=
  match propTypes with
  | [] => Ok ""
  | propType :: r =>
      propTypeName <- getPropertyType propType ;;
      rest <- propertyTypesAllowed r ;;
      Ok ((if defined propTypeName
           then bulletItem style (toStr propTypeName) (Some 1) else "") ++ rest)
  end.

(** Lines 415-442. *)
Definition additionalPropertiesBullets (property : value) : result string :=
  additionalProperties <- get property "additionalProperties" ;;
  if (defined additionalProperties && isObjectType additionalProperties)%bool then
    anyOf <- get additionalProperties "anyOf" ;;
    if defined anyOf then
      propTypes <- iterate anyOf ;;
      allowed <- propertyTypesAllowed propTypes ;;
      Ok (bulletItem style (propertyDetails style "Property types allowed" ++ ":")
                     (Some 0) ++ allowed)
    else
      additionalPropertiesType <- getPropertyType additionalProperties ;;
      if defined additionalPropertiesType then
        apType <- get additionalProperties "type" ;;
        title <- get property "title" ;;
        let formattedType :=
          if (strictEq apType (VStr "object") && defined title)%bool
          then toStr (linkType style title title autoLink)
          else typeValue style additionalPropertiesType in
        Ok (bulletItem style
              (propertyDetails style "Type of each property" ++ ": " ++ formattedType)
              (Some 0))
      else Ok ""
  else Ok "".

(** Lines 444-450. *)
Definition examplesBullets (property type : value) : result string :=
  examples <- get property "examples" ;;
  if defined examples then
    l <- iterate examples ;;
    Ok (bulletItem style (propertyDetails style "Examples" ++ ":") None ++
        String.concat ""
          (map (fun example =>
                  bulletItem style (styleDefaultValue style example type) (Some 1)) l))
  else Ok "".

(** The body of the loop of [createPropertiesDetails], lines 293-458: the
    text for the property [name] and the property as the pass leaves it. *)
Definition propertyDetailsBody (schema : value) (headerMd name : string)
  (property : value) : result (string * value) :=
  summary <- getPropertySummary property ;;
  let type := s_type summary in
  variableTitle <- get schema "typeName" ;;
  let md := headerMd ++ " " ++ name ++ nl ++ nl in
  gltf_detailedDescription <- get property "gltf_detailedDescription" ;;
  let detailedDescription := autoLinkDescription gltf_detailedDescription in
  let md := md ++
    (if defined detailedDescription then toStr detailedDescription ++ nl ++ nl
     else if defined (s_description summary)
          then toStr (s_description summary) ++ nl ++ nl
          else "") in
  let md := md ++
    bulletItem style (propertyDetails style "Type" ++ ": " ++
                      toStr (s_formattedType summary)) (Some 0) in
  uniqueItems <- get property "uniqueItems" ;;
  let md := md ++
    (if (defined uniqueItems && truthy uniqueItems)%bool
     then bulletItem style (eachElementInTheArrayMust ++ "be unique.") (Some 1)
     else "") in
  items <- get property "items" ;;
  '(itemsMd, items') <- itemsDetails items type ;;
  let property' := if defined items then setProp "items" items' property
                   else property in
  let md := md ++ itemsMd in
  let md := md ++
    bulletItem style (propertyDetails style "Required" ++ ": " ++
                      s_required summary) (Some 0) in
  minimum <- minimumBullet property' ;;
  maximum <- maximumBullet property' ;;
  scalars <- scalarBullets property' ;;
  enumString <- getEnumString property' type 1 ;;
  let md := md ++ minimum ++ maximum ++ scalars ++
    match enumString with
    | Some s => bulletItem style (propertyDetails style "Allowed values" ++ ":")
                           (Some 0) ++ s
    | None => ""
    end in
  additional <- additionalPropertiesBullets property' ;;
  examples <- examplesBullets property' type ;;
  webgl <- get property' "gltf_webgl" ;;
  let md := md ++ additional ++ examples ++
    (if defined webgl
     then bulletItem style (propertyGltfWebGL style "Related WebGL functions" ++
                            ": " ++ toStr webgl) (Some 0)
     else "") in
  Ok (md ++ nl, property').

(* ------------------------------------------------------------------ *)
(** ** The document of one type *)

(** [properties] with its own entries replaced by [entries]. *)
Definition withEntries (properties : value) (entries : list (string * value))
  : value :=
  match properties with
  | VObj _ => VObj entries
  | VArr _ => VArr (map snd entries)
  | _ => properties
  end.

(** The loop of [createPropertiesDetails] over the entries of
    [properties]. *)
Fixpoint detailsLoop (schema properties : value) (headerMd : string)
  (entries : list (string * value)) : result (string * list (string * value)) :=
  match entries with
  | [] => Ok ("", [])
  | (name, property) :: r =>
      own <- hasOwnProperty properties name ;;
      '(md, property') <-
        (if own : bool then propertyDetailsBody schema headerMd name property
         else Ok ("", property)) ;;
      '(rest, r') <- detailsLoop schema properties headerMd r ;;
      Ok (md ++ rest, (name, property') :: r')
  end.

(** [createPropertiesDetails]: the text, and [schema] as the pass leaves
    it. *)
Definition createPropertiesDetails (schema : value) (title : value)
  (headerLevel : Z) : result (string * value) :=
  let headerMd := getHeaderMarkdown style headerLevel in
  properties <- get schema "properties" ;;
  '(md, entries') <- detailsLoop schema properties headerMd (ownEntries properties) ;;
  let schema' :=
    match properties with
    | VObj _ | VArr _ => setProp "properties" (withEntries properties entries') schema
    | _ => schema
    end in
  Ok ("## Properties" ++ nl ++ md ++ nl, schema').

(** Line 265: the cell of the column "Required". *)
Definition requiredColumn (summary : PropertySummary) : string :=
  (if String.eqb (s_required summary) "Yes" then requiredIcon style else "")
  ++ s_required summary.

(** The loop of [createPropertiesSummary]. *)
Fixpoint summaryLoop (properties : value) (entries : list (string * value))
  : result string :=
  match entries with
  | [] => Ok ""
  | (name, property) :: r =>
      own <- hasOwnProperty properties name ;;
      row <-
        (if own : bool then
           summary <- getPropertySummary property ;;
           Ok (addTableRow style
                 [ VStr (propertyNameSummary style name);
                   s_formattedType summary;
                   defaultValue (s_description summary) (VStr "");
                   VStr (requiredColumn summary) ])
         else Ok "") ;;
      rest <- summaryLoop properties r ;;
      Ok (row ++ rest)
  end.

Definition createPropertiesSummary (schema : value) : result string :=
  properties <- get schema "properties" ;;
  match properties with
  | VUndef => Ok ""
  | _ =>
      n <- keysLength properties ;;
      if Nat.ltb 0 n then
        rows <- summaryLoop properties (ownEntries properties) ;;
        Ok (beginTable style ["Property"; "Type"; "Description"; "Required"] ++
            rows ++ endTable style)
      else Ok ""
  end.

Definition createExamples (schema : value) (headerLevel : Z) : result string :=
  examples <- get schema "examples" ;;
  if negb (defined examples) then Ok "" else
  l <- iterate examples ;;
  type <- get schema "type" ;;
  Ok (getHeaderMarkdown style headerLevel ++ " Examples" ++ nl ++ nl ++
      String.concat ""
        (map (fun example =>
                bulletItem style (styleDefaultValue style example type) (Some 0)) l)).

(** [s.replace(/\\/g, '/')] *)
Definition slashes (s : string) : string :=
  replaceAllChar (ascii_of_nat 92) "/" s.

(** [getSchemaMarkdown]: the text, and [schema] as the pass leaves it. *)
Definition getSchemaMarkdown (schema fileName : value) (headerLevel : Z)
  (suppressWarnings : bool) (schemaRelativeBasePath : option string)
  (embedMode : EmbedMode) : result (string * value) :=
  match schema with
  | VUndef => Ok ("", schema)
  | _ =>
  let md := getSectionMarkdown style schema headerLevel suppressWarnings embedMode in
  if EmbedMode_eqb embedMode writeIncludeStatements then
    Ok (md ++ embedJsonSchema style fileName schemaRelativeBasePath, schema)
  else
    description <- get schema "description" ;;
    let value := autoLinkDescription description in
    let md := md ++ (if defined value then toStr value ++ nl ++ nl else "") in
    extendedDescription <- get schema "gltf_sectionDescription" ;;
    let md := md ++
      (if defined extendedDescription
       then toStr (autoLinkDescription extendedDescription) ++ nl ++ nl else "") in
    schemaType <- get schema "type" ;;
    webgl <- get schema "gltf_webgl" ;;
    let md := md ++
      (if defined webgl
       then propertyGltfWebGL style "Related WebGL functions" ++ ": " ++
            toStr webgl ++ nl ++ nl
       else "") in
    if strictEq schemaType (VStr "object") then
      summary <- createPropertiesSummary schema ;;
      let md := md ++ summary in
      value <- get schema "additionalProperties" ;;
      let md := md ++
        (if (defined value && negb (truthy value))%bool
         then "Additional properties are not allowed." ++ nl ++ nl
         else "Additional properties are allowed." ++ nl ++ nl) in
      let md := md ++
        (if EmbedMode_eqb embedMode referenceIncludeDocument then
           bulletItem style (bold style "JSON schema" ++ ": " ++
                             getSchemaEmbedLink style fileName schema) None ++ nl
         else
           match schemaRelativeBasePath with
           | Some base =>
               let base := if endsWithChar "/" base then base else base ++ "/" in
               bulletItem style
                 (bold style "JSON schema" ++ ": " ++
                  getLinkMarkdown style fileName (slashes base ++ toStr fileName))
                 None ++ nl
           | None => ""
           end) in
      schemaTitle <- get schema "title" ;;
      let title :=
        defaultValue schemaTitle
          (VStr (if suppressWarnings then ""
                 else "WETZEL_WARNING: title not defined")) in
      '(details, schema') <- createPropertiesDetails schema title (headerLevel + 1) ;;
      examples <- createExamples schema' headerLevel ;;
      Ok (md ++ details ++ examples, schema')
    else Ok (md, schema)
  end.

(* ------------------------------------------------------------------ *)
(** ** The table of contents *)

(** The document identifier of a type: its [typeName], else its title in
    lower case with dots for spaces. *)
Definition tocTypeName (title : string) (entry : TypeEntry) : result value :=
  typeName <- get (schema entry) "typeName" ;;
  if negb (defined typeName)
  then Ok (VStr (replaceAllChar " " "." (toLowerCase title)))
  else Ok typeName.

(** The loop of [getRecursiveTOC] over the children of [parentTitle];
    [recur] is the recursive call. *)
Fixpoint recursiveTOCLoop (recur : string -> Z -> result string)
  (orderedTypes : TypeGraph) (parentTitle : string) (depth : Z)
  (titles : list string) : result string :=
  match titles with
  | [] => Ok ""
  | currentTitle :: r =>
      currentType <- lookupType currentTitle orderedTypes ;;
      if Nat.eqb (List.length (parents currentType)) 1 then
        typeName <- tocTypeName currentTitle currentType ;;
        let item :=
          getTOCLink style
            (replaceFirst (parentTitle ++ " ") "" currentTitle) typeName in
        sub <- recur currentTitle (depth + 1) ;;
        rest <- recursiveTOCLoop recur orderedTypes parentTitle depth r ;;
        Ok (bulletItem style item (Some depth) ++ sub ++ rest)
      else recursiveTOCLoop recur orderedTypes parentTitle depth r
  end.

Fixpoint getRecursiveTOC (fuel : nat) (orderedTypes : TypeGraph)
  (parentTitle : string) (depth : Z) : result string :=
  match fuel with
  | O => Throw OutOfFuel
  | S fuel' =>
      parent <- lookupType parentTitle orderedTypes ;;
      recursiveTOCLoop (getRecursiveTOC fuel' orderedTypes) orderedTypes
        parentTitle depth (children parent)
  end.

(** [a === s] for a string [a] *)
Definition isString (a : string) (s : value) : bool := strictEq (VStr a) s.

(** [parents.indexOf(v) !== -1] *)
Definition indexOfFound (l : list string) (v : value) : bool :=
  existsb (fun p => isString p v) l.

(** The loop of [getTableOfContentsMarkdown] over the keys of
    [orderedTypes]. *)
Fixpoint tocLoop (fuel : nat) (schema : value) (orderedTypes : TypeGraph)
  (titles : list string) : result string :=
  match titles with
  | [] => Ok ""
  | title :: r =>
      currentType <- lookupType title orderedTypes ;;
      schemaTitle <- get schema "title" ;;
      entry <-
        (if (isString title schemaTitle
             || Nat.ltb 1 (List.length (parents currentType))
             || indexOfFound (parents currentType) schemaTitle)%bool
         then
           typeName <- tocTypeName title currentType ;;
           let item :=
             getTOCLink style title typeName ++
             (if isString title schemaTitle then " (root object)" else "") in
           sub <-
             (if negb (isString title schemaTitle)
              then getRecursiveTOC fuel orderedTypes title 1
              else Ok "") ;;
           Ok (bulletItem style item None ++ sub)
         else Ok "") ;;
      rest <- tocLoop fuel schema orderedTypes r ;;
      Ok (entry ++ rest)
  end.

Definition getTableOfContentsMarkdown (fuel : nat) (schema : value)
  (orderedTypes : TypeGraph) (headerLevel : Z) : result string :=
  toc <- tocLoop fuel schema orderedTypes (map fst orderedTypes) ;;
  Ok (getHeaderMarkdown style headerLevel ++ " Objects" ++ nl ++ toc).

End Rendering.

(* ------------------------------------------------------------------ *)
(** ** Ordering the type graph *)

Fixpoint insertSorted (s : string) (l : list string) : list string :=
  match l with
  | [] => [s]
  | x :: r => if String.leb s x then s :: l else x :: insertSorted s r
  end.

(** [l.sort()] on an array of strings: ascending in the order of the
    character codes. *)
Definition sortStrings (l : list string) : list string :=
  fold_right insertSorted [] l.

Fixpoint insertByTitle (kv : string * TypeEntry) (g : TypeGraph) : TypeGraph :=
  match g with
  | [] => [kv]
  | x :: r => if String.leb (fst kv) (fst x) then kv :: g
              else x :: insertByTitle kv r
  end.

(** Modelled from the spec: lib/sortObject.js is not part of the source.
    It gives the "ascending (alphabetical by title)" view of the graph and,
    on [false], the descending view, "the exact reverse of the ascending
    ordering"; the entries themselves are shared with the argument. *)
Definition sortObject (g : TypeGraph) (ascending : bool) : TypeGraph :=
  let sorted := fold_right insertByTitle [] g in
  if ascending then sorted else rev sorted.

(** Lines 57-59: the children of every entry are sorted in place. *)
Definition sortChildren (g : TypeGraph) : TypeGraph :=
  map (fun kv =>
         (fst kv, {| schema := schema (snd kv);
                     fileName := fileName (snd kv);
                     parents := parents (snd kv);
                     children := sortStrings (children (snd kv)) |})) g.

(** Modelled from the spec: the resolvers are not part of the source; an
    entry of the graph is "{schema, fileName, parents, children}", which is
    the order [JSON.stringify] is given here. *)
Definition entryToValue (e : TypeEntry) : value :=
  VObj [ ("schema", schema e);
         ("fileName", fileName e);
         ("parents", VArr (map VStr (parents e)));
         ("children", VArr (map VStr (children e))) ].

Definition graphToValue (g : TypeGraph) : value :=
  VObj (map (fun kv => (fst kv, entryToValue (snd kv))) g).

(** The entry of [title] with its schema replaced: what an assignment
    inside [orderedTypes[title].schema] leaves in the graph. *)
Fixpoint setSchema (title : string) (s : value) (g : TypeGraph) : TypeGraph :=
  match g with
  | [] => []
  | (t, e) :: r =>
      if String.eqb title t
      then (t, {| schema := s; fileName := fileName e;
                  parents := parents e; children := children e |}) :: r
      else (t, e) :: setSchema title s r
  end.

(* ------------------------------------------------------------------ *)
(** ** generateMarkdown *)

Record Options : Type := {
  opt_schema : value;
  opt_fileName : value;
  opt_searchPath : value;
  opt_styleMode : value;
  opt_checkmark : value;
  opt_mustKeyword : value;
  opt_writeTOC : bool;
  opt_headerLevel : Z;
  opt_suppressWarnings : bool;
  opt_schemaRelativeBasePath : option string;
  opt_autoLink : value;
  opt_embedMode : EmbedMode;
  opt_ignorableTypes : value;
  opt_debug : value
}.

Record Resolved : Type := {
  resolvedSchema : value;
  referencedSchemas : TypeGraph
}.

(** [schema3.resolve] and [schema4.resolve], called with the schema, the
    file name, the search path, the ignorable types and the debug flag. *)
Record Resolvers : Type := {
  schema3_resolve : value -> value -> value -> value -> value -> result Resolved;
  schema4_resolve : value -> value -> value -> value -> value -> result Resolved
}.

(** The process-wide configuration of lib/style.js: its setters, and the
    functions it exposes at a given state. *)
Record StyleModule : Type := {
  StyleState : Type;
  setStyleMode : StyleMode -> StyleState -> StyleState;
  setCheckmark : value -> StyleState -> StyleState;
  setMustKeyword : value -> StyleState -> StyleState;
  styleAt : StyleState -> Style
}.

(** One call of [fs.writeFile]: the path and the data. *)
Definition FileWrite : Type := (string * string)%type.

Definition draft03 : string := "http://json-schema.org/draft-03/schema".
Definition draft04 : string := "http://json-schema.org/draft-04/schema".
Definition draft07 : string := "http://json-schema.org/draft-07/schema".
Definition draft2020 : string := "https://json-schema.org/draft/2020-12/schema".

Definition unrecognizedWarning : string :=
  "> WETZEL_WARNING: Unrecognized JSON Schema." ++ nl ++ nl.

Section Generate.

Variable M : StyleModule.
Variable R : Resolvers.

(** Lines 19-35: the style configuration after the three setters. *)
Definition configureStyle (options : Options) (s : StyleState M) : StyleState M :=
  let mode :=
    if (defined (opt_styleMode options)
        && strictEq (opt_styleMode options) (VStr "AsciiDoctor"))%bool
    then AsciiDoctor else Markdown in
  let s := setStyleMode M mode s in
  let s := if defined (opt_checkmark options)
           then setCheckmark M (opt_checkmark options) s else s in
  if defined (opt_mustKeyword options)
  then setMustKeyword M (opt_mustKeyword options) s else s.

(** Lines 37-55: the resolution, and the text [md] holds after it.
    [None] stands for [resolved === null]. *)
Definition resolveSchema (options : Options) : result (option Resolved * string) :=
  let schema := opt_schema options in
  let searchPath := defaultValue (opt_searchPath options) (VArr [VStr ""]) in
  schemaRef <- get schema "$schema" ;;
  if defined schemaRef then
    if strictEq schemaRef (VStr draft03) then
      resolved <- schema3_resolve R schema (opt_fileName options) searchPath
                    (opt_ignorableTypes options) (opt_debug options) ;;
      Ok (Some resolved, "")
    else
      resolved <- schema4_resolve R schema (opt_fileName options) searchPath
                    (opt_ignorableTypes options) (opt_debug options) ;;
      if (negb (opt_suppressWarnings options)
          && (negb (strictEq schemaRef (VStr draft04))
              && negb (strictEq schemaRef (VStr draft07))
              && negb (strictEq schemaRef (VStr draft2020))))%bool
      then Ok (Some resolved, unrecognizedWarning)
      else Ok (Some resolved, "")
  else Ok (None, "").

(** The loop of lines 73-97 over the keys of [orderedTypes]: the files
    written, and the graph as the pass leaves it. *)
Fixpoint renderLoop (style : Style) (options : Options)
  (orderedTypesDescending : TypeGraph) (titles : list string)
  (orderedTypes : TypeGraph) : result (list FileWrite * TypeGraph) :=
  match titles with
  | [] => Ok ([], orderedTypes)
  | title :: r =>
      entry <- lookupType title orderedTypes ;;
      '(md, schema') <-
        getSchemaMarkdown style (map fst orderedTypesDescending)
          (opt_autoLink options) (schema entry) (fileName entry)
          (opt_headerLevel options + 1) (opt_suppressWarnings options)
          (opt_schemaRelativeBasePath options) (opt_embedMode options) ;;
      let orderedTypes := setSchema title schema' orderedTypes in
      written <-
        (if String.eqb md "" then Ok []
         else
           typeName <- get schema' "typeName" ;;
           filename <-
             (if negb (defined typeName) then
                title <- get schema' "title" ;;
                lower <- callToLowerCase title ;;
                Ok (VStr lower)
              else Ok typeName) ;;
           Ok [("output/" ++ toStr filename ++ ".md", md)]) ;;
      '(rest, orderedTypes) <-
        renderLoop style options orderedTypesDescending r orderedTypes ;;
      Ok ((written ++ rest)%list, orderedTypes)
  end.

(** What a run leaves behind: the files written, in the order of the
    calls, and the value returned.  (The writes issued before a throw are
    not part of a [Throw].) *)
Record Run : Type := {
  writes : list FileWrite;
  returned : string
}.

Definition generateMarkdown (fuel : nat) (options : Options) (s : StyleState M)
  : result Run :=
  let md := "" in
  let style := styleAt M (configureStyle options s) in
  '(resolved, warning) <- resolveSchema options ;;
  let md := md ++ warning in
  match resolved with
  | None => Throw TypeError    (* line 55: resolved.schema with resolved === null *)
  | Some resolved =>
      let schema := resolvedSchema resolved in
      let orderedTypes :=
        sortChildren (sortObject (referencedSchemas resolved) true) in
      let orderedTypesDescending :=
        sortChildren (sortObject (referencedSchemas resolved) false) in
      md <-
        (if opt_writeTOC options then
           toc <- getTableOfContentsMarkdown style fuel schema orderedTypes
                    (opt_headerLevel options) ;;
           Ok (md ++ toc)
         else Ok md) ;;
      md <- match stringify (graphToValue orderedTypes) with
            | Some s => Ok s
            | None => Throw TypeError
            end ;;
      let first := ("output/text.md", md) in
      '(rest, _) <- renderLoop style options orderedTypesDescending
                      (map fst orderedTypes) orderedTypes ;;
      Ok {| writes := first :: rest; returned := "" |}
  end.

End Generate.

(* ------------------------------------------------------------------ *)
(** ** A plain Markdown style *)

Module Plain.

(** The state of the style configuration. *)
Record Config : Type := {
  mode : StyleMode;
  checkmark : string;
  must : string
}.

Fixpoint repeatString (s : string) (n : nat) : string :=
  match n with
  | O => ""
  | S n' => s ++ repeatString s n'
  end.

Definition header (level : Z) : string := repeatString "#" (Z.to_nat level).

Definition bullet (item : string) (depth : option Z) : string :=
  let d := match depth with Some d => d | None => 0 end in
  repeatString "    " (Z.to_nat d) ++ "* " ++ item ++ nl.

Definition row (cells : list string) : string :=
  "|" ++ String.concat "|" cells ++ "|" ++ nl.

Definition sectionTitle (schema : value) (suppressWarnings : bool) : string :=
  match schema with
  | VObj fs =>
      toStr (defaultValue (assoc "title" fs)
               (VStr (if suppressWarnings then ""
                      else "WETZEL_WARNING: title not defined")))
  | _ => ""
  end.

(** Modelled from the spec: lib/style.js is not part of the source.  The
    spec lists what it exposes: "header markup at a given depth, table
    begin/row/end, bulleted list item at a given depth, bold/inline-code
    wrapping, type-name formatting, link construction (type-to-document,
    description-to-document), literal/example-value formatting, and an
    embed/include directive for a given file path".  Here values and type
    names are shown as they are, as in the spec's examples ("0 Zero",
    "No, default: 2"), and descriptions are not linked. *)
Definition style (c : Config) : Style := {|
  getHeaderMarkdown := header;
  getTOCLink := fun displayString type =>
    "[" ++ displayString ++ "](#reference-" ++ toStr type ++ ")";
  bulletItem := bullet;
  getSectionMarkdown := fun schema level suppressWarnings _ =>
    header level ++ " " ++ sectionTitle schema suppressWarnings ++ nl ++ nl;
  embedJsonSchema := fun fileName base =>
    "include::" ++ match base with Some b => b | None => "" end ++
    toStr fileName ++ nl;
  propertyGltfWebGL := fun s => s;
  bold := fun s => "**" ++ s ++ "**";
  getSchemaEmbedLink := fun fileName _ => "<<" ++ toStr fileName ++ ">>";
  getLinkMarkdown := fun text target => "[" ++ toStr text ++ "](" ++ target ++ ")";
  beginTable := fun columns =>
    row columns ++ row (map (fun _ => "---") columns);
  addTableRow := fun cells => row (map toStr cells);
  endTable := nl;
  propertyNameSummary := fun name => name;
  requiredIcon := checkmark c;
  mustKeyword := must c;
  styleDefaultValue := fun v _ => toStr v;
  propertyDetails := fun s => s;
  minMax := toStr;
  typeValue := toStr;
  linkType := fun s _ _ => s;
  enumElement := fun v _ => toStr v
|}.

Definition module : StyleModule := {|
  StyleState := Config;
  setStyleMode := fun m c =>
    {| mode := m; checkmark := checkmark c; must := must c |};
  setCheckmark := fun v c =>
    {| mode := mode c; checkmark := toStr v; must := must c |};
  setMustKeyword := fun v c =>
    {| mode := mode c; checkmark := checkmark c; must := toStr v |};
  styleAt := style
|}.

Definition initial : Config :=
  {| mode := Markdown; checkmark := "+ "; must := " must " |}.

End Plain.

(* ------------------------------------------------------------------ *)
(** ** Example inputs *)

Module Examples.

Definition rootSchema : value :=
  VObj [ ("$schema", VStr draft04); ("title", VStr "Root"); ("type", VStr "object");
         ("properties",
          VObj [ ("child", VObj [ ("typeName", VStr "Root Child") ]) ]) ].

Definition childSchema : value :=
  VObj [ ("title", VStr "Root Child"); ("type", VStr "object");
         ("properties",
          VObj [ ("count", VObj [ ("type", VStr "integer"); ("minimum", VNum 0) ]);
                 ("weights",
                  VObj [ ("type", VStr "array");
                         ("items", VObj [ ("type", VStr "number");
                                          ("exclusiveMinimum", VNum 5) ]);
                         ("minItems", VNum 1); ("maxItems", VNum 4) ]) ]) ].

(** A root type "Root" with one child type "Root Child", whose only parent
    is the root. *)
Definition rootAndChild : TypeGraph :=
  [ ("Root Child", {| schema := childSchema; fileName := VStr "child.schema.json";
                      parents := ["Root"]; children := [] |});
    ("Root", {| schema := rootSchema; fileName := VStr "root.schema.json";
                parents := []; children := ["Root Child"] |}) ].

Definition resolvers : Resolvers := {|
  schema3_resolve := fun s _ _ _ _ =>
    Ok {| resolvedSchema := s; referencedSchemas := rootAndChild |};
  schema4_resolve := fun s _ _ _ _ =>
    Ok {| resolvedSchema := s; referencedSchemas := rootAndChild |}
|}.

Definition options : Options := {|
  opt_schema := rootSchema;
  opt_fileName := VStr "root.schema.json";
  opt_searchPath := VUndef;
  opt_styleMode := VUndef;
  opt_checkmark := VUndef;
  opt_mustKeyword := VUndef;
  opt_writeTOC := true;
  opt_headerLevel := 1;
  opt_suppressWarnings := false;
  opt_schemaRelativeBasePath := None;
  opt_autoLink := VUndef;
  opt_embedMode := fullExpansion;
  opt_ignorableTypes := VUndef;
  opt_debug := VUndef
|}.

End Examples.

(* ------------------------------------------------------------------ *)
(** ** Definitions used to state the properties *)

(** The suffix as the specification words it: the exact count when the two
    bounds are equal, the range when both are present and differ, an open
    range when one is present, empty brackets when none is. *)
Definition cardinalitySuffix (minItems maxItems : option Z) : string :=
  match minItems, maxItems with
  | Some n, Some m =>
      if n =? m then "[" ++ numToString n ++ "]"
      else "[" ++ numToString n ++ "-" ++ numToString m ++ "]"
  | Some n, None => "[" ++ numToString n ++ "-*]"
  | None, Some m => "[*-" ++ numToString m ++ "]"
  | None, None => "[]"
  end.

(** A bound that is a number, or absent. *)
Definition optNum (o : option Z) : value :=
  match o with
  | Some n => VNum n
  | None => VUndef
  end.

(** The schema of the specification's example. *)
Definition zeroOneSchema : value :=
  VObj [ ("anyOf",
          VArr [ VObj [("type", VStr "integer")];
                 VObj [("const", VNum 0); ("description", VStr "Zero")];
                 VObj [("const", VNum 1); ("description", VStr "One")] ]) ].

(** The text appended to the value of a branch whose description is
    [d]. *)
Definition descriptionSuffix (d : value) : string :=
  if defined d then " " ++ toStr d else "".

(** The claim as the specification words it: a branch that declares neither
    [const] nor an [enum] of exactly one element is skipped. *)
Definition skipsAllButSingleValues (style : Style) : Prop :=
  forall (branch : value) (rest : list value) (type : value) (depth : Z)
         (constValue enumValue : value),
    get branch "const" = Ok constValue ->
    get branch "enum" = Ok enumValue ->
    defined constValue = false ->
    (forall x, enumValue <> VArr [x]) ->
    anyOfEnumLoop style (branch :: rest) type depth
    = anyOfEnumLoop style rest type depth.

(** A property is marked required when its [required] is defined and
    truthy. *)
Definition markedRequired (required : value) : bool :=
  (defined required && truthy required)%bool.

(** The default as the descriptor shows it: an array joined inside
    brackets, an object as its JSON text, any other value as it is. *)
Definition defaultString (propertyDefault : value) : value :=
  match propertyDefault with
  | VArr _ => VStr ("[" ++ toStr propertyDefault ++ "]")
  | VObj _ => JSON_stringify propertyDefault
  | _ => propertyDefault
  end.

(** The claim as the specification words it: the descriptor's [required]
    is "Yes", "No" or "No, default: " followed by the value. *)
Definition requiredIsYesNoOrDefault (style : Style) (property : value) : Prop :=
  forall summary,
    getPropertySummary style [] VUndef property = Ok summary ->
    s_required summary = "Yes" \/
    s_required summary = "No" \/
    exists v, s_required summary = "No, default: " ++ v.

Definition boundKeys : list string :=
  ["minimum"; "exclusiveMinimum"; "maximum"; "exclusiveMaximum"].

(** [a] and [b] hold the same value under every key outside [except]. *)
Definition agreeExcept (except : list string) (a b : value) : Prop :=
  forall k, ~ In k except -> get a k = get b k.

(** The text of a rendering that also yields the object it leaves. *)
Definition textOf (r : result (string * value)) : result string :=
  x <- r ;; Ok (fst x).

(** The two encodings of "greater than 5". *)
Definition numericFive : value :=
  VObj [("type", VStr "number"); ("exclusiveMinimum", VNum 5)].

Definition booleanFive : value :=
  VObj [("type", VStr "number"); ("minimum", VNum 5);
        ("exclusiveMinimum", VBool true)].

Definition withWriteTOC (b : bool) (o : Options) : Options :=
  {| opt_schema := opt_schema o;
     opt_fileName := opt_fileName o;
     opt_searchPath := opt_searchPath o;
     opt_styleMode := opt_styleMode o;
     opt_checkmark := opt_checkmark o;
     opt_mustKeyword := opt_mustKeyword o;
     opt_writeTOC := b;
     opt_headerLevel := opt_headerLevel o;
     opt_suppressWarnings := opt_suppressWarnings o;
     opt_schemaRelativeBasePath := opt_schemaRelativeBasePath o;
     opt_autoLink := opt_autoLink o;
     opt_embedMode := opt_embedMode o;
     opt_ignorableTypes := opt_ignorableTypes o;
     opt_debug := opt_debug o |}.

(** The text in a file written by a run, if any holds [text]. *)
Definition writtenSomewhere (text : string) (run : Run) : bool :=
  existsb (fun w => includes text (snd w)) (writes run).

(** One bullet of the table of contents: the type it stands for, the entry
    it is nested under ([None] at the top level), the text and the target of
    its link, the depth given to [bulletItem] ([None] when the argument is
    omitted) and whether it is marked as the root object. *)
Record TocItem : Type := {
  item_title : string;
  item_parent : option string;
  item_label : string;
  item_typeName : value;
  item_depth : option Z;
  item_root : bool
}.

Definition renderItem (style : Style) (it : TocItem) : string :=
  bulletItem style
    (getTOCLink style (item_label it) (item_typeName it) ++
     (if item_root it then " (root object)" else ""))
    (item_depth it).

Definition renderItems (style : Style) (items : list TocItem) : string :=
  fold_right (fun it rest => renderItem style it ++ rest) "" items.

(** The bullets the loop of [getRecursiveTOC] appends, as entries. *)
Fixpoint recursiveItemsLoop (recur : string -> Z -> result (list TocItem))
  (orderedTypes : TypeGraph) (parentTitle : string) (depth : Z)
  (titles : list string) : result (list TocItem) :=
  match titles with
  | [] => Ok []
  | currentTitle :: r =>
      currentType <- lookupType currentTitle orderedTypes ;;
      if Nat.eqb (List.length (parents currentType)) 1 then
        typeName <- tocTypeName currentTitle currentType ;;
        let item :=
          {| item_title := currentTitle;
             item_parent := Some parentTitle;
             item_label := replaceFirst (parentTitle ++ " ") "" currentTitle;
             item_typeName := typeName;
             item_depth := Some depth;
             item_root := false |} in
        sub <- recur currentTitle (depth + 1) ;;
        rest <- recursiveItemsLoop recur orderedTypes parentTitle depth r ;;
        Ok (item :: sub ++ rest)%list
      else recursiveItemsLoop recur orderedTypes parentTitle depth r
  end.

Fixpoint recursiveItems (fuel : nat) (orderedTypes : TypeGraph)
  (parentTitle : string) (depth : Z) : result (list TocItem) :=
  match fuel with
  | O => Throw OutOfFuel
  | S fuel' =>
      parent <- lookupType parentTitle orderedTypes ;;
      recursiveItemsLoop (recursiveItems fuel' orderedTypes) orderedTypes
        parentTitle depth (children parent)
  end.

(** The condition of line 119. *)
Definition listedAtTop (schemaTitle : value) (title : string) (entry : TypeEntry)
  : bool :=
  (isString title schemaTitle
   || Nat.ltb 1 (List.length (parents entry))
   || indexOfFound (parents entry) schemaTitle)%bool.

(** The bullets [getTableOfContentsMarkdown] appends, as entries. *)
Fixpoint tocItemsLoop (fuel : nat) (schema : value) (orderedTypes : TypeGraph)
  (titles : list string) : result (list TocItem) :=
  match titles with
  | [] => Ok []
  | title :: r =>
      currentType <- lookupType title orderedTypes ;;
      schemaTitle <- get schema "title" ;;
      entry <-
        (if listedAtTop schemaTitle title currentType then
           typeName <- tocTypeName title currentType ;;
           let item :=
             {| item_title := title;
                item_parent := None;
                item_label := title;
                item_typeName := typeName;
                item_depth := None;
                item_root := isString title schemaTitle |} in
           sub <-
             (if negb (isString title schemaTitle)
              then recursiveItems fuel orderedTypes title 1
              else Ok []) ;;
           Ok (item :: sub)
         else Ok []) ;;
      rest <- tocItemsLoop fuel schema orderedTypes r ;;
      Ok (entry ++ rest)%list
  end.

Definition tocItems (fuel : nat) (schema : value) (orderedTypes : TypeGraph)
  : result (list TocItem) :=
  tocItemsLoop fuel schema orderedTypes (map fst orderedTypes).

Module RootChild.

Definition root : value := VObj [("title", VStr "Root")].

Definition entryOf (title : string) (ps cs : list string) : TypeEntry :=
  {| schema := VObj [("title", VStr title)];
     fileName := VStr (title ++ ".schema.json");
     parents := ps;
     children := cs |}.

(** The root "Root" and one child type "Root Child", whose only parent is
    the root. *)
Definition graph : TypeGraph :=
  [ ("Root", entryOf "Root" [] ["Root Child"]);
    ("Root Child", entryOf "Root Child" ["Root"] []) ].

(** The same with a type "Root Child Leaf" below the child. *)
Definition deeper : TypeGraph :=
  [ ("Root", entryOf "Root" [] ["Root Child"]);
    ("Root Child", entryOf "Root Child" ["Root"] ["Root Child Leaf"]);
    ("Root Child Leaf", entryOf "Root Child Leaf" ["Root Child"] []) ].

End RootChild.

(** The claim as the specification words it: a bullet for the child, nested
    at depth 1 and labelled "Child". *)
Definition childNestedUnderRoot (items : list TocItem) : Prop :=
  exists it, In it items /\ item_title it = "Root Child" /\
             item_label it = "Child" /\ item_depth it = Some 1.

(** [title] is listed at the top level: it is the title of the root, it has
    more than one parent, or the root is one of its parents. *)
Definition ListedAtTop (schemaTitle : value) (title : string) (entry : TypeEntry)
  : Prop :=
  schemaTitle = VStr title \/
  (1 < List.length (parents entry))%nat \/
  (exists p, In p (parents entry) /\ schemaTitle = VStr p).

Definition TopLevel (items : list TocItem) (title : string) : Prop :=
  exists it, In it items /\ item_title it = title /\ item_parent it = None.

(** In the graph, [c] is a child of [p] and has exactly one parent. *)
Definition SingleParentChild (g : TypeGraph) (p c : string) : Prop :=
  exists e ep,
    lookupType c g = Ok e /\ List.length (parents e) = 1%nat /\
    lookupType p g = Ok ep /\ In c (children ep).

Definition childDepth (depth : option Z) : Z :=
  match depth with
  | None => 1
  | Some d => d + 1
  end.

(** [it] is the bullet of [c] nested under the entry [itp]. *)
Definition NestedBelow (itp it : TocItem) (c : string) : Prop :=
  item_title it = c /\
  item_parent it = Some (item_title itp) /\
  item_depth it = Some (childDepth (item_depth itp)) /\
  item_label it = replaceFirst (item_title itp ++ " ") "" c /\
  item_root it = false.

(** Every child of the entry [itp] that has exactly one parent has its
    bullet in [items], nested under [itp]. *)
Definition ChildrenNested (g : TypeGraph) (items : list TocItem) (itp : TocItem)
  : Prop :=
  forall c, SingleParentChild g (item_title itp) c ->
            exists it, In it items /\ NestedBelow itp it c.

(** The claim as the specification words it: a type has a nested bullet if
    and only if it has exactly one parent. *)
Definition nestedIffSingleParent (fuel : nat) (root : value) (g : TypeGraph)
  : Prop :=
  forall items, tocItems fuel root g = Ok items ->
  forall c e, lookupType c g = Ok e ->
    ((exists it p, In it items /\ item_title it = c /\ item_parent it = Some p)
     <-> List.length (parents e) = 1%nat).

(** What holds of the entries of a call on [p] at depth [d]: each is nested
    under [p] or under another of the entries, below which it stands one
    level deeper; and the children of [p] and of every entry that have
    exactly one parent are among them. *)
Definition Below (g : TypeGraph) (p : string) (d : Z) (items : list TocItem)
  : Prop :=
  (forall it, In it items ->
     exists q, item_parent it = Some q /\ item_root it = false /\
               SingleParentChild g q (item_title it) /\
               (q = p \/ exists itq, In itq items /\ item_title itq = q /\
                                     item_root itq = false)) /\
  (forall c, SingleParentChild g p c ->
     exists it, In it items /\ item_title it = c /\ item_parent it = Some p /\
                item_depth it = Some d /\
                item_label it = replaceFirst (p ++ " ") "" c /\
                item_root it = false) /\
  (forall itp, In itp items -> ChildrenNested g items itp).

(** What holds of the entries of the whole table. *)
Definition TocShape (g : TypeGraph) (schema : value) (titles : list string)
  (items : list TocItem) : Prop :=
  (forall t, TopLevel items t <->
             (In t titles /\
              exists e st, lookupType t g = Ok e /\ get schema "title" = Ok st /\
                           ListedAtTop st t e)) /\
  (forall it q, In it items -> item_parent it = Some q ->
     SingleParentChild g q (item_title it) /\
     exists itq, In itq items /\ item_title itq = q /\ item_root itq = false) /\
  (forall itp, In itp items -> item_root itp = false ->
     ChildrenNested g items itp).

(** [it] is the entry of the root at the top level, the one that is
    marked "(root object)": an entry of the root that is nested is not. *)
Definition RootEntry (schema : value) (it : TocItem) : Prop :=
  item_parent it = None /\ get schema "title" = Ok (VStr (item_title it)).

(** [c] has a nested entry. *)
Definition Nested (items : list TocItem) (c : string) : Prop :=
  exists it q, In it items /\ item_title it = c /\ item_parent it = Some q.

(** The entry that follows, if any, is at the top level. *)
Definition nothingNestedNext (after : list TocItem) : Prop :=
  match after with
  | [] => True
  | next :: _ => item_parent next = None
  end.

Module RootBelow.

(** A graph in which the root "Root" is itself the only child of "T":
    "Root" has the children "C", "X" and "Y", and "X" and "Y" have the
    child "T". *)
Definition graph : TypeGraph :=
  [ ("C", RootChild.entryOf "C" ["Root"] []);
    ("Root", RootChild.entryOf "Root" ["T"] ["C"; "X"; "Y"]);
    ("T", RootChild.entryOf "T" ["X"; "Y"] ["Root"]);
    ("X", RootChild.entryOf "X" ["Root"] ["T"]);
    ("Y", RootChild.entryOf "Y" ["Root"] ["T"]) ].

Definition rank (t : string) : nat :=
  if String.eqb t "T" then 2 else if String.eqb t "Root" then 1 else 0.

End RootBelow.

(** [items] after the downgrade of one bound: a numeric [ex] is moved to
    [bd] and replaced by [true]. *)
Definition downgraded (ex bd : string) (items : value) : value :=
  match items with
  | VObj fs =>
      match assoc ex fs with
      | VNum n => VObj (assocSet ex (VBool true) (assocSet bd (VNum n) fs))
      | _ => items
      end
  | _ => items
  end.

Definition downgradedItems (items : value) : value :=
  downgraded "exclusiveMaximum" "maximum"
    (downgraded "exclusiveMinimum" "minimum" items).

(** A property with its [items], if it has any, downgraded. *)
Definition downgradedProperty (property : value) : value :=
  match property with
  | VObj fs =>
      if defined (assoc "items" fs)
      then VObj (assocSet "items" (downgradedItems (assoc "items" fs)) fs)
      else property
  | _ => property
  end.

Definition downgradedProperties (properties : value) : value :=
  match properties with
  | VObj fs => VObj (map (fun kv => (fst kv, downgradedProperty (snd kv))) fs)
  | VArr l => VArr (map downgradedProperty l)
  | _ => properties
  end.

(** A schema with the [items] of each of its properties downgraded. *)
Definition downgradedSchema (schema : value) : value :=
  match schema with
  | VObj fs =>
      match assoc "properties" fs with
      | VObj _ | VArr _ =>
          VObj (assocSet "properties" (downgradedProperties (assoc "properties" fs)) fs)
      | _ => schema
      end
  | _ => schema
  end.

(** The claim as the specification words it: the schema of a type is the
    same before and after the type is rendered. *)
Definition renderLeavesSchemaUnchanged (style : Style) (schema : value) : Prop :=
  forall knownTypes autoLink fileName headerLevel suppressWarnings base embedMode
         md schema',
    getSchemaMarkdown style knownTypes autoLink schema fileName headerLevel
      suppressWarnings base embedMode = Ok (md, schema') ->
    schema' = schema.

(** Every entry has a schema, every child is a type of the graph, and a
    child that has exactly one parent is of lower [rank] than the parent:
    the single-parent nesting has no cycle. *)
Definition closedAndRanked (rank : string -> nat) (g : TypeGraph) : bool :=
  forallb
    (fun kv =>
       (defined (schema (snd kv)) &&
        forallb
          (fun c =>
             match lookupType c g with
             | Ok e => (negb (Nat.eqb (List.length (parents e)) 1)
                        || Nat.ltb (rank c) (rank (fst kv)))%bool
             | Throw _ => false
             end) (children (snd kv)))%bool) g.

Definition rankedBelow (rank : string -> nat) (fuel : nat) (g : TypeGraph) : bool :=
  forallb (fun kv => Nat.ltb (rank (fst kv)) fuel) g.

(** The two graphs have the same titles in the same order, and entry by
    entry the same file name, parents and children. *)
Definition sameButSchemas (g g' : TypeGraph) : Prop :=
  Forall2 (fun kv kv' =>
             fst kv' = fst kv /\
             fileName (snd kv') = fileName (snd kv) /\
             parents (snd kv') = parents (snd kv) /\
             children (snd kv') = children (snd kv)) g g'.

(* ------------------------------------------------------------------ *)
(** ** Definitions used to state further properties *)

(** The bullets of the values [v] with the names [n] that follow them. *)
Definition namedBullets (style : Style) (type : value) (depth : Z)
  (l : list (value * value)) : string :=
  fold_right
    (fun vn rest =>
       bulletItem style
         (enumElement style (fst vn) type ++ " " ++ toStr (snd vn)) (Some depth)
       ++ rest) "" l.

(** The bullets of the values [v] alone. *)
Definition bareBullets (style : Style) (type : value) (depth : Z)
  (l : list value) : string :=
  fold_right
    (fun v rest => bulletItem style (enumElement style v type) (Some depth) ++ rest)
    "" l.

(** A branch of [anyOf] that can be read and defines no [type]. *)
Definition untypedBranch (b : value) : Prop :=
  exists u, get b "type" = Ok u /\ defined u = false.

(** The base of the type of an array whose [items] have the type
    [itemsType] and the type name [typeName]. *)
Definition arrayBase (itemsType typeName : value) : string :=
  if defined itemsType then
    if strictEq itemsType (VStr "object") then
      if defined typeName then toStr typeName else "object"
    else toStr itemsType
  else "array".

(** Lines 220-226: the sentence on additional properties. *)
Definition additionalPropertiesStatement (additionalProperties : value) : string :=
  if (defined additionalProperties && negb (truthy additionalProperties))%bool
  then "Additional properties are not allowed." ++ nl ++ nl
  else "Additional properties are allowed." ++ nl ++ nl.

(** The members a property without constraints may have. *)
Definition plainKeys : list string :=
  ["typeName"; "type"; "description"; "required"; "default"; "title"].

(** A file written for a type: a path [output/<name>.md] and a text that is
    not empty. *)
Definition documentWrite (w : FileWrite) : Prop :=
  snd w <> "" /\ exists name, fst w = "output/" ++ name ++ ".md".

(** The order of [sort()] on titles. *)
Definition ascending (a b : string) : Prop := String.leb a b = true.

(** Below every type of [stuck] that is in the graph there is a child that
    has exactly one parent and is in [stuck] again. *)
Definition nestsForever (g : TypeGraph) (stuck : string -> Prop) : Prop :=
  forall p ep, stuck p -> lookupType p g = Ok ep ->
    exists c e, In c (children ep) /\ lookupType c g = Ok e /\
                List.length (parents e) = 1%nat /\ stuck c.

(* ------------------------------------------------------------------ *)
(** * Properties *)

(** ** Inversion of the result monad *)

Lemma bind_Ok {A B : Type} (m : result A) (k : A -> result B) (b : B) :
  bind m k = Ok b -> exists a, m = Ok a /\ k a = Ok b.
Proof.
  destruct m as [a | e]; simpl; intros H.
  - exists a. split; [reflexivity | exact H].
  - discriminate H.
Qed.

Ltac inv_bind H :=
  let a := fresh "a" in
  let Ha := fresh "Ha" in
  apply bind_Ok in H; destruct H as [a [Ha H]].

Lemma get_defined (v : value) (k : string) :
  defined v = true -> exists x, get v k = Ok x.
Proof.
  destruct v; simpl; intros H; try discriminate H; eexists; reflexivity.
Qed.

(* ------------------------------------------------------------------ *)
(** ** The value returned by a run *)

(** C10: whenever [generateMarkdown] completes, the value it returns is the
    empty string; what was rendered is in the files written. *)
Theorem generateMarkdown_returns_empty :
  forall (M : StyleModule) (R : Resolvers) (fuel : nat) (options : Options)
         (s : StyleState M) (run : Run),
    generateMarkdown M R fuel options s = Ok run ->
    returned run = "".
Proof.
  intros M R fuel options s run H.
  unfold generateMarkdown in H.
  inv_bind H. destruct a as [resolved warning].
  destruct resolved as [resolved |]; [| discriminate H].
  inv_bind H. inv_bind H. inv_bind H.
  destruct a1 as [rest g].
  injection H as <-. reflexivity.
Qed.

Lemma generateMarkdown_returns_empty_witness :
  exists run,
    generateMarkdown Plain.module Examples.resolvers 2 Examples.options
      Plain.initial = Ok run /\ returned run = "".
Proof.
  eexists. split.
  - vm_compute. reflexivity.
  - apply (generateMarkdown_returns_empty Plain.module Examples.resolvers 2
             Examples.options Plain.initial).
    vm_compute. reflexivity.
Defined.

(* ------------------------------------------------------------------ *)
(** ** A root schema without [$schema] *)

(** C2: when the root schema has no [$schema] (it is absent, or null), no
    resolver is called and line 55 reads a member of [null]: the run
    throws a TypeError, whatever the resolvers, the style and the other
    options are. *)
Theorem generateMarkdown_without_dialect_throws :
  forall (M : StyleModule) (R : Resolvers) (fuel : nat) (options : Options)
         (s : StyleState M) (schemaRef : value),
    get (opt_schema options) "$schema" = Ok schemaRef ->
    defined schemaRef = false ->
    generateMarkdown M R fuel options s = Throw TypeError.
Proof.
  intros M R fuel options s schemaRef Hget Hdef.
  unfold generateMarkdown, resolveSchema.
  rewrite Hget. simpl. rewrite Hdef. reflexivity.
Qed.

Lemma generateMarkdown_without_dialect_throws_witness :
  generateMarkdown Plain.module Examples.resolvers 2
    {| opt_schema := VObj [("title", VStr "Root"); ("type", VStr "object")];
       opt_fileName := VStr "root.schema.json";
       opt_searchPath := VUndef; opt_styleMode := VUndef;
       opt_checkmark := VUndef; opt_mustKeyword := VUndef;
       opt_writeTOC := false; opt_headerLevel := 1;
       opt_suppressWarnings := false; opt_schemaRelativeBasePath := None;
       opt_autoLink := VUndef; opt_embedMode := fullExpansion;
       opt_ignorableTypes := VUndef; opt_debug := VUndef |}
    Plain.initial = Throw TypeError.
Proof.
  apply (generateMarkdown_without_dialect_throws _ _ _ _ _ VUndef);
    reflexivity.
Defined.

(* ------------------------------------------------------------------ *)
(** ** Strings and reads *)

Lemma append_assoc (a b c : string) : (a ++ b) ++ c = a ++ (b ++ c).
Proof.
  induction a as [| x a IH]; simpl; [reflexivity | now rewrite IH].
Qed.

Lemma append_empty_r (a : string) : a ++ "" = a.
Proof.
  induction a as [| x a IH]; simpl; [reflexivity | now rewrite IH].
Qed.

Lemma length_append (a b : string) :
  String.length (a ++ b) = (String.length a + String.length b)%nat.
Proof.
  induction a as [| x a IH]; simpl; [reflexivity | now rewrite IH].
Qed.

(** A value some member of which was read has every member readable. *)
Lemma get_total (v : value) (k k' : string) (x : value) :
  get v k = Ok x -> exists y, get v k' = Ok y.
Proof.
  destruct v; simpl; intros H; try discriminate H; eexists; reflexivity.
Qed.

Lemma getPropertyType_readable (p t : value) (k : string) :
  getPropertyType p = Ok t -> exists y, get p k = Ok y.
Proof.
  unfold getPropertyType. intros H. inv_bind H.
  exact (get_total _ _ k _ Ha).
Qed.

(** Of a defined value with a defined [type], [getPropertyType] succeeds. *)
Lemma getPropertyType_typed (items itemsType : value) :
  get items "type" = Ok itemsType -> defined itemsType = true ->
  exists t, getPropertyType items = Ok t.
Proof.
  intros Hget Hdef. unfold getPropertyType.
  destruct (get_total _ _ "typeName" _ Hget) as [tn Htn].
  rewrite Htn. simpl.
  destruct (defined tn); [eexists; reflexivity |].
  rewrite Hget. simpl. rewrite Hdef. eexists; reflexivity.
Qed.

(* ------------------------------------------------------------------ *)
(** ** The cardinality of an array *)

Lemma arrayInfo_suffix (property : value) (minItems maxItems : option Z) :
  get property "minItems" = Ok (optNum minItems) ->
  get property "maxItems" = Ok (optNum maxItems) ->
  arrayInfo property = Ok (cardinalitySuffix minItems maxItems).
Proof.
  intros Hmin Hmax. unfold arrayInfo. rewrite Hmin, Hmax. simpl.
  destruct minItems as [n |], maxItems as [m |]; simpl; try reflexivity.
  - destruct (n =? m); simpl; [reflexivity |].
    now rewrite !append_assoc.
  - now rewrite !append_assoc.
Qed.

(** C8: for a property whose type is [array], with [minItems] and
    [maxItems] numbers or absent, [getPropertySummary] succeeds and the
    type it derives ends with the cardinality suffix: "[n]" when both
    bounds are [n], "[min-max]" when they differ, "[min-*]" and "[*-max]"
    when one is present, "[]" when none is; the formatted type is that
    type passed through the style. *)
Theorem getPropertySummary_array_cardinality :
  forall (style : Style) (knownTypes : list string) (autoLink : value)
         (property : value) (minItems maxItems : option Z),
    getPropertyType property = Ok (VStr "array") ->
    get property "minItems" = Ok (optNum minItems) ->
    get property "maxItems" = Ok (optNum maxItems) ->
    arrayInfo property = Ok (cardinalitySuffix minItems maxItems) /\
    exists (summary : PropertySummary) (base : string),
      getPropertySummary style knownTypes autoLink property = Ok summary /\
      s_type summary = VStr (base ++ cardinalitySuffix minItems maxItems) /\
      s_formattedType summary = VStr (typeValue style (s_type summary)).
Proof.
  intros style knownTypes autoLink property minItems maxItems Htype Hmin Hmax.
  pose proof (arrayInfo_suffix property minItems maxItems Hmin Hmax) as Hinfo.
  split; [exact Hinfo |].
  destruct (getPropertyType_readable _ _ "items" Htype) as [items Hitems].
  destruct (getPropertyType_readable _ _ "description" Htype) as [d Hd].
  destruct (getPropertyType_readable _ _ "required" Htype) as [rq Hrq].
  destruct (getPropertyType_readable _ _ "default" Htype) as [df Hdf].
  assert (Hreq : forall type, exists r, requiredString style property type = Ok r).
  { intros type. unfold requiredString. rewrite Hrq. simpl.
    destruct (defined rq && truthy rq)%bool; [eexists; reflexivity |].
    rewrite Hdf. simpl. destruct (defined df); eexists; reflexivity. }
  unfold getPropertySummary. rewrite Htype. simpl.
  rewrite Hinfo, Hitems. simpl.
  destruct (defined items) eqn:Hdi; simpl.
  - destruct (get_defined items "type" Hdi) as [itemsType Hit].
    rewrite Hit. simpl.
    destruct (defined itemsType) eqn:Hdt; simpl.
    + destruct (strictEq itemsType (VStr "object")).
      * destruct (getPropertyType_typed _ _ Hit Hdt) as [t Ht].
        rewrite Ht. simpl. rewrite Hd. simpl.
        match goal with
        | |- context [requiredString _ _ ?ty] =>
            destruct (Hreq ty) as [r Hr]; rewrite Hr
        end. simpl. eexists. exists (toStr t).
        split; [reflexivity | split; reflexivity].
      * rewrite Hd. simpl.
        match goal with
        | |- context [requiredString _ _ ?ty] =>
            destruct (Hreq ty) as [r Hr]; rewrite Hr
        end. simpl. eexists. exists (toStr itemsType).
        split; [reflexivity | split; reflexivity].
    + rewrite Hd. simpl.
      match goal with
        | |- context [requiredString _ _ ?ty] =>
            destruct (Hreq ty) as [r Hr]; rewrite Hr
        end. simpl. eexists. exists "array".
      split; [reflexivity | split; reflexivity].
  - rewrite Hd. simpl.
    match goal with
        | |- context [requiredString _ _ ?ty] =>
            destruct (Hreq ty) as [r Hr]; rewrite Hr
        end. simpl. eexists. exists "array".
    split; [reflexivity | split; reflexivity].
Qed.

Lemma getPropertySummary_array_cardinality_witness :
  let property :=
    VObj [("type", VStr "array"); ("minItems", VNum 1); ("maxItems", VNum 4)] in
  arrayInfo property = Ok "[1-4]" /\
  exists (summary : PropertySummary) (base : string),
    getPropertySummary (Plain.style Plain.initial) [] VUndef property = Ok summary /\
    s_type summary = VStr (base ++ "[1-4]") /\
    s_formattedType summary =
      VStr (typeValue (Plain.style Plain.initial) (s_type summary)).
Proof.
  exact (getPropertySummary_array_cardinality (Plain.style Plain.initial) []
           VUndef
           (VObj [("type", VStr "array"); ("minItems", VNum 1); ("maxItems", VNum 4)])
           (Some 1) (Some 4) eq_refl eq_refl eq_refl).
Defined.

(* ------------------------------------------------------------------ *)
(** ** Enumerations given by [anyOf] *)

(** C9, as the specification has it, fails: a branch whose [enum] has two
    elements is not skipped, its first element is listed. *)
Lemma anyOf_two_element_enum_not_skipped :
  ~ skipsAllButSingleValues (Plain.style Plain.initial).
Proof.
  intros H.
  specialize (H (VObj [("enum", VArr [VNum 1; VNum 2])]) [] VUndef 1
                VUndef (VArr [VNum 1; VNum 2]) eq_refl eq_refl eq_refl).
  assert (Hne : forall x, VArr [VNum 1; VNum 2] <> VArr [x])
    by (intros x E; discriminate E).
  specialize (H Hne). vm_compute in H. discriminate H.
Qed.

(** C9, amended: the example schema yields exactly the bullets of 0 with
    "Zero" and of 1 with "One", in this order, at the depth asked for.  A
    branch with a defined [const] lists it; a branch without one whose
    [enum] is a non-empty array lists the first element of it; in both
    cases the description of the branch, when defined, follows a space.
    Every other branch is skipped. *)
Theorem anyOfEnumLoop_branches :
  forall (style : Style) (type : value) (depth : Z)
         (branch : value) (rest : list value)
         (constValue enumValue enumDescription : value),
    get branch "const" = Ok constValue ->
    get branch "enum" = Ok enumValue ->
    get branch "description" = Ok enumDescription ->
    getEnumString style zeroOneSchema type depth
    = Ok (Some (bulletItem style (enumElement style (VNum 0) type ++ " Zero")
                  (Some depth) ++
                bulletItem style (enumElement style (VNum 1) type ++ " One")
                  (Some depth)))
    /\ (defined constValue = true ->
        anyOfEnumLoop style (branch :: rest) type depth
        = (more <- anyOfEnumLoop style rest type depth ;;
           Ok (bulletItem style
                 (enumElement style constValue type ++
                  descriptionSuffix enumDescription) (Some depth) ++ more)))
    /\ (defined constValue = false ->
        forall first others, enumValue = VArr (first :: others) ->
        anyOfEnumLoop style (branch :: rest) type depth
        = (more <- anyOfEnumLoop style rest type depth ;;
           Ok (bulletItem style
                 (enumElement style first type ++
                  descriptionSuffix enumDescription) (Some depth) ++ more)))
    /\ (defined constValue = false ->
        (forall first others, enumValue <> VArr (first :: others)) ->
        anyOfEnumLoop style (branch :: rest) type depth
        = anyOfEnumLoop style rest type depth).
Proof.
  intros style type depth branch rest constValue enumValue enumDescription
         Hconst Henum Hdesc.
  split; [| split; [| split]].
  - unfold getEnumString, getAnyOfEnumString, zeroOneSchema. simpl.
    now rewrite append_empty_r.
  - intros Hdef. simpl. rewrite Hconst, Henum, Hdesc. simpl.
    rewrite Hdef. reflexivity.
  - intros Hdef first others ->. simpl. rewrite Hconst, Henum, Hdesc. simpl.
    rewrite Hdef. reflexivity.
  - intros Hdef Hnone. simpl. rewrite Hconst, Henum, Hdesc. simpl.
    rewrite Hdef.
    destruct enumValue as [| | b | n | s | l | fs]; try reflexivity.
    destruct l as [| first others]; [reflexivity |].
    exfalso. exact (Hnone first others eq_refl).
Qed.

Lemma anyOfEnumLoop_branches_witness :
  getEnumString (Plain.style Plain.initial) zeroOneSchema (VStr "integer") 1
  = Ok (Some ("    * 0 Zero" ++ nl ++ "    * 1 One" ++ nl))
  /\ anyOfEnumLoop (Plain.style Plain.initial)
       [VObj [("type", VStr "integer")]] (VStr "integer") 1 = Ok "".
Proof.
  destruct (anyOfEnumLoop_branches (Plain.style Plain.initial) (VStr "integer") 1
              (VObj [("type", VStr "integer")]) []
              VUndef VUndef VUndef eq_refl eq_refl eq_refl)
    as [Hexample [_ [_ Hskip]]].
  split.
  - exact Hexample.
  - apply Hskip; [reflexivity | intros first others E; discriminate E].
Defined.

(* ------------------------------------------------------------------ *)
(** ** The column "Required" *)

Lemma getPropertySummary_required
  (style : Style) (knownTypes : list string) (autoLink property : value)
  (summary : PropertySummary) :
  getPropertySummary style knownTypes autoLink property = Ok summary ->
  requiredString style property (s_type summary) = Ok (s_required summary).
Proof.
  unfold getPropertySummary. intros H.
  inv_bind H. inv_bind H. destruct a0 as [type formattedType].
  inv_bind H. inv_bind H.
  injection H as <-. simpl. exact Ha2.
Qed.

(** C3, as the specification has it, fails: with the checkmark "+ ", a
    property marked required has the descriptor "+ Yes", and the cell of
    the summary table holds the checkmark although the descriptor is not
    "Yes". *)
Lemma required_descriptor_carries_checkmark :
  ~ requiredIsYesNoOrDefault (Plain.style Plain.initial)
      (VObj [("type", VStr "integer"); ("required", VBool true)]).
Proof.
  intros H.
  destruct (H {| s_type := VStr "integer";
                 s_formattedType := VStr "integer";
                 s_description := VUndef;
                 s_required := "+ Yes" |} eq_refl) as [E | [E | [v E]]];
    simpl in E; discriminate E.
Qed.

Lemma append_Yes_is_Yes (icon : string) : icon ++ "Yes" = "Yes" -> icon = "".
Proof.
  intros E. apply (f_equal String.length) in E.
  rewrite length_append in E. simpl in E.
  destruct icon; [reflexivity | simpl in E; lia].
Qed.

(** C3, amended: the descriptor's [required] is the checkmark of the style
    followed by "Yes" when the property is marked required; otherwise it is
    "No, default: " followed by the default as the style shows it (an array
    joined inside brackets, an object as its JSON text) when a default is
    defined, and "No" when none is.  The cell of the summary table is the
    checkmark followed by "Yes" exactly for the properties marked required,
    and the bare descriptor for the others. *)
Theorem getPropertySummary_required_column :
  forall (style : Style) (knownTypes : list string) (autoLink : value)
         (property : value) (summary : PropertySummary)
         (required propertyDefault : value),
    getPropertySummary style knownTypes autoLink property = Ok summary ->
    get property "required" = Ok required ->
    get property "default" = Ok propertyDefault ->
    (markedRequired required = true ->
       s_required summary = requiredIcon style ++ "Yes" /\
       requiredColumn style summary = requiredIcon style ++ "Yes")
    /\ (markedRequired required = false ->
          (defined propertyDefault = true ->
             s_required summary =
               "No, default: " ++
               styleDefaultValue style (defaultString propertyDefault)
                 (s_type summary))
          /\ (defined propertyDefault = false -> s_required summary = "No")
          /\ requiredColumn style summary = s_required summary).
Proof.
  intros style knownTypes autoLink property summary required propertyDefault
         Hsum Hreq Hdef.
  apply getPropertySummary_required in Hsum.
  unfold requiredString in Hsum. rewrite Hreq in Hsum. simpl in Hsum.
  fold (markedRequired required) in Hsum.
  split; intros Hmarked; rewrite Hmarked in Hsum.
  - injection Hsum as Hsum. split; [now symmetry |].
    unfold requiredColumn. rewrite <- Hsum.
    destruct (String.eqb_spec (requiredIcon style ++ "Yes") "Yes") as [E | _].
    + apply append_Yes_is_Yes in E. rewrite E. reflexivity.
    + reflexivity.
  - rewrite Hdef in Hsum. simpl in Hsum.
    destruct (defined propertyDefault) eqn:Hd.
    + injection Hsum as Hsum.
      assert (Hs : s_required summary =
                   "No, default: " ++
                   styleDefaultValue style (defaultString propertyDefault)
                     (s_type summary)).
      { rewrite <- Hsum.
        destruct propertyDefault; try reflexivity; discriminate Hd. }
      split; [intros _; exact Hs | split; [intros E; discriminate E |]].
      unfold requiredColumn. rewrite Hs. reflexivity.
    + injection Hsum as Hsum.
      split; [intros E; discriminate E | split; [intros _; now symmetry |]].
      unfold requiredColumn. rewrite <- Hsum. reflexivity.
Qed.

Lemma getPropertySummary_required_column_witness :
  let style := Plain.style Plain.initial in
  let summary := {| s_type := VStr "integer";
                    s_formattedType := VStr "integer";
                    s_description := VUndef;
                    s_required := "+ Yes" |} in
  s_required summary = "+ Yes" /\ requiredColumn style summary = "+ Yes".
Proof.
  exact (proj1 (getPropertySummary_required_column (Plain.style Plain.initial)
                  [] VUndef
                  (VObj [("type", VStr "integer"); ("required", VBool true)])
                  _ (VBool true) VUndef eq_refl eq_refl eq_refl) eq_refl).
Defined.

(* ------------------------------------------------------------------ *)
(** ** Two encodings of an exclusive bound *)

Lemma agreeExcept_weaken (ex ex' : list string) (a b : value) :
  (forall k, In k ex -> In k ex') ->
  agreeExcept ex a b -> agreeExcept ex' a b.
Proof. intros Hsub H k Hk. apply H. intros Hin. exact (Hk (Hsub k Hin)). Qed.

Ltac rw_get H a :=
  repeat match goal with
         | |- context [get a ?k] =>
             rewrite (H k) by (simpl; intuition discriminate)
         end.

Section Encodings.

Variable style : Style.
Variable knownTypes : list string.
Variable autoLink : value.

Lemma getPropertyType_ext (a b : value) :
  agreeExcept boundKeys a b -> getPropertyType a = getPropertyType b.
Proof.
  intros H. unfold getPropertyType. rw_get H a. reflexivity.
Qed.

Lemma getPropertySummary_ext (a b : value) :
  agreeExcept boundKeys a b ->
  getPropertySummary style knownTypes autoLink a
  = getPropertySummary style knownTypes autoLink b.
Proof.
  intros H. unfold getPropertySummary, arrayInfo, requiredString.
  rewrite (getPropertyType_ext a b H). rw_get H a. reflexivity.
Qed.

Lemma getEnumString_ext (a b type : value) (depth : Z) :
  agreeExcept boundKeys a b ->
  getEnumString style a type depth = getEnumString style b type depth.
Proof.
  intros H. unfold getEnumString, getAnyOfEnumString. rw_get H a. reflexivity.
Qed.

Lemma scalarBullets_ext (a b : value) :
  agreeExcept boundKeys a b -> scalarBullets style a = scalarBullets style b.
Proof.
  intros H. unfold scalarBullets. rw_get H a. reflexivity.
Qed.

Lemma additionalPropertiesBullets_ext (a b : value) :
  agreeExcept boundKeys a b ->
  additionalPropertiesBullets style autoLink a
  = additionalPropertiesBullets style autoLink b.
Proof.
  intros H. unfold additionalPropertiesBullets. rw_get H a.
  destruct (get b "additionalProperties") as [ap |]; simpl; [| reflexivity].
  destruct (defined ap && isObjectType ap)%bool; [| reflexivity].
  destruct (get ap "anyOf") as [anyOf |]; simpl; [| reflexivity].
  destruct (defined anyOf); [reflexivity |].
  destruct (getPropertyType ap) as [t |]; simpl; [| reflexivity].
  destruct (defined t); [| reflexivity].
  destruct (get ap "type") as [apType |]; simpl; [| reflexivity].
  rw_get H a. reflexivity.
Qed.

Lemma examplesBullets_ext (a b type : value) :
  agreeExcept boundKeys a b ->
  examplesBullets style a type = examplesBullets style b type.
Proof.
  intros H. unfold examplesBullets. rw_get H a. reflexivity.
Qed.

Lemma minimumBullet_ext (a b : value) :
  get a "exclusiveMinimum" = get b "exclusiveMinimum" ->
  get a "minimum" = get b "minimum" ->
  minimumBullet style a = minimumBullet style b.
Proof. intros H1 H2. unfold minimumBullet. now rewrite H1, H2. Qed.

Lemma maximumBullet_ext (a b : value) :
  get a "exclusiveMaximum" = get b "exclusiveMaximum" ->
  get a "maximum" = get b "maximum" ->
  maximumBullet style a = maximumBullet style b.
Proof. intros H1 H2. unfold maximumBullet. now rewrite H1, H2. Qed.

Lemma assoc_assocSet (k k' : string) (v : value) (fs : list (string * value)) :
  assoc k' (assocSet k v fs) = if String.eqb k' k then v else assoc k' fs.
Proof.
  induction fs as [| [k0 v0] fs IH]; simpl.
  - destruct (String.eqb_spec k' k); reflexivity.
  - destruct (String.eqb_spec k k0) as [-> | Hne]; simpl.
    + destruct (String.eqb_spec k' k0); reflexivity.
    + destruct (String.eqb_spec k' k0) as [-> | Hne'].
      * destruct (String.eqb_spec k0 k) as [E | _]; [| reflexivity].
        now subst.
      * exact IH.
Qed.

Lemma get_setProp_other (k k' : string) (v o : value) :
  k' <> k -> get (setProp k v o) k' = get o k'.
Proof.
  intros Hne. destruct o; simpl; try reflexivity.
  rewrite assoc_assocSet.
  destruct (String.eqb_spec k' k); [contradiction | reflexivity].
Qed.

Lemma get_setProp_same (k : string) (v : value) (fs : list (string * value)) :
  get (setProp k v (VObj fs)) k = Ok v.
Proof.
  simpl. rewrite assoc_assocSet. now rewrite String.eqb_refl.
Qed.

(** What [itemsDetails] leaves in place of [items], whatever the style. *)
Lemma agreeExcept_setItems (a b items' : value) (fa fb : list (string * value)) :
  a = VObj fa -> b = VObj fb ->
  agreeExcept boundKeys a b ->
  agreeExcept boundKeys (setProp "items" items' a) (setProp "items" items' b).
Proof.
  intros -> -> H k Hk.
  destruct (String.eqb_spec k "items") as [-> | Hne].
  - now rewrite !get_setProp_same.
  - rewrite !get_setProp_other by exact Hne. exact (H k Hk).
Qed.

(** The text of a property is the same for two objects that differ in
    their bounds only, as soon as the two bound bullets are the same. *)
Lemma propertyDetailsBody_ext
  (schema : value) (headerMd name : string) (a b : value)
  (fa fb : list (string * value)) :
  a = VObj fa -> b = VObj fb ->
  agreeExcept boundKeys a b ->
  minimumBullet style a = minimumBullet style b ->
  maximumBullet style a = maximumBullet style b ->
  textOf (propertyDetailsBody style knownTypes autoLink schema headerMd name a)
  = textOf (propertyDetailsBody style knownTypes autoLink schema headerMd name b).
Proof.
  intros Ea Eb H Hmin Hmax.
  unfold propertyDetailsBody, textOf.
  rewrite (getPropertySummary_ext a b H).
  destruct (getPropertySummary style knownTypes autoLink b) as [summary |];
    simpl; [| reflexivity].
  destruct (get schema "typeName") as [variableTitle |]; simpl; [| reflexivity].
  rw_get H a.
  destruct (get b "gltf_detailedDescription") as [gd |]; simpl; [| reflexivity].
  destruct (get b "uniqueItems") as [uniqueItems |]; simpl; [| reflexivity].
  destruct (get b "items") as [items |]; simpl; [| reflexivity].
  destruct (itemsDetails style items (s_type summary)) as [[itemsMd items'] |];
    simpl; [| reflexivity].
  assert (H' : agreeExcept boundKeys
                 (if defined items then setProp "items" items' a else a)
                 (if defined items then setProp "items" items' b else b)).
  { destruct (defined items); [| exact H].
    exact (agreeExcept_setItems a b items' fa fb Ea Eb H). }
  assert (Hmin' : minimumBullet style
                    (if defined items then setProp "items" items' a else a)
                  = minimumBullet style
                      (if defined items then setProp "items" items' b else b)).
  { destruct (defined items); [| exact Hmin].
    transitivity (minimumBullet style a);
      [| transitivity (minimumBullet style b); [exact Hmin |]];
      apply minimumBullet_ext;
      try (apply get_setProp_other; discriminate);
      symmetry; apply get_setProp_other; discriminate. }
  assert (Hmax' : maximumBullet style
                    (if defined items then setProp "items" items' a else a)
                  = maximumBullet style
                      (if defined items then setProp "items" items' b else b)).
  { destruct (defined items); [| exact Hmax].
    transitivity (maximumBullet style a);
      [| transitivity (maximumBullet style b); [exact Hmax |]];
      apply maximumBullet_ext;
      try (apply get_setProp_other; discriminate);
      symmetry; apply get_setProp_other; discriminate. }
  generalize dependent (if defined items then setProp "items" items' a else a).
  generalize dependent (if defined items then setProp "items" items' b else b).
  intros b' a' H' Hmin' Hmax'.
  rewrite Hmin', Hmax'.
  rewrite (scalarBullets_ext a' b' H'), (getEnumString_ext a' b' _ _ H'),
    (additionalPropertiesBullets_ext a' b' H'), (examplesBullets_ext a' b' _ H').
  rw_get H' a'.
  destruct (minimumBullet style b') as [minimum |]; simpl; [| reflexivity].
  destruct (maximumBullet style b') as [maximum |]; simpl; [| reflexivity].
  destruct (scalarBullets style b') as [scalars |]; simpl; [| reflexivity].
  destruct (getEnumString style b' (s_type summary) 1) as [enumString |];
    simpl; [| reflexivity].
  destruct (additionalPropertiesBullets style autoLink b') as [additional |];
    simpl; [| reflexivity].
  destruct (examplesBullets style b' (s_type summary)) as [examples |];
    simpl; [| reflexivity].
  destruct (get b' "gltf_webgl") as [webgl |]; simpl; reflexivity.
Qed.

End Encodings.

Section ItemsEncodings.

Variable style : Style.

Lemma itemsRange_ext (a b : value) :
  agreeExcept [] a b -> itemsRange style a = itemsRange style b.
Proof.
  intros H. unfold itemsRange. rw_get H a. reflexivity.
Qed.

Lemma itemsLength_ext (a b : value) :
  agreeExcept [] a b -> itemsLength style a = itemsLength style b.
Proof.
  intros H. unfold itemsLength. rw_get H a. reflexivity.
Qed.

(** The tail of [itemsDetails], after the two downgrades. *)
Lemma itemsTail_ext (a b type : value) :
  agreeExcept [] a b ->
  (range <- itemsRange style a ;;
   len <- itemsLength style a ;;
   itemsString <- getEnumString style a type 2 ;;
   Ok (range ++ len ++
       match itemsString with
       | Some s =>
           bulletItem style
             (eachElementInTheArrayMust style ++ "be one of the following values:")
             (Some 1) ++ s
       | None => ""
       end))
  = (range <- itemsRange style b ;;
     len <- itemsLength style b ;;
     itemsString <- getEnumString style b type 2 ;;
     Ok (range ++ len ++
         match itemsString with
         | Some s =>
             bulletItem style
               (eachElementInTheArrayMust style ++ "be one of the following values:")
               (Some 1) ++ s
         | None => ""
         end)).
Proof.
  intros H.
  rewrite (itemsRange_ext a b H), (itemsLength_ext a b H).
  rewrite (getEnumString_ext style a b type 2).
  - reflexivity.
  - apply (agreeExcept_weaken [] boundKeys); [intros k [] | exact H].
Qed.

Lemma textOf_itemsDetails (items type : value) (fs : list (string * value)) :
  items = VObj fs ->
  textOf (itemsDetails style items type)
  = (items <- downgrade "exclusiveMinimum" "minimum" items ;;
     items <- downgrade "exclusiveMaximum" "maximum" items ;;
     range <- itemsRange style items ;;
     len <- itemsLength style items ;;
     itemsString <- getEnumString style items type 2 ;;
     Ok (range ++ len ++
         match itemsString with
         | Some s =>
             bulletItem style
               (eachElementInTheArrayMust style ++ "be one of the following values:")
               (Some 1) ++ s
         | None => ""
         end)).
Proof.
  intros ->. unfold itemsDetails, textOf. simpl.
  destruct (downgrade "exclusiveMinimum" "minimum" (VObj fs)) as [i1 |];
    simpl; [| reflexivity].
  destruct (downgrade "exclusiveMaximum" "maximum" i1) as [i2 |];
    simpl; [| reflexivity].
  destruct (itemsRange style i2); simpl; [| reflexivity].
  destruct (itemsLength style i2); simpl; [| reflexivity].
  destruct (getEnumString style i2 type 2); simpl; reflexivity.
Qed.

End ItemsEncodings.

(** A downgrade of two objects that agree outside [K], on keys outside
    [K]. *)
Lemma downgrade_agree (K : list string) (ex bd : string) (a b : value)
  (fa fb : list (string * value)) :
  a = VObj fa -> b = VObj fb ->
  agreeExcept K a b -> ~ In ex K -> ~ In bd K ->
  exists fa' fb',
    downgrade ex bd a = Ok (VObj fa') /\
    downgrade ex bd b = Ok (VObj fb') /\
    agreeExcept K (VObj fa') (VObj fb') /\
    (forall k, k <> ex -> k <> bd ->
       get (VObj fa') k = get a k /\ get (VObj fb') k = get b k).
Proof.
  intros -> -> H Hex Hbd.
  unfold downgrade. rewrite (H ex Hex).
  destruct (get (VObj fb) ex) as [x |] eqn:Hx; [| discriminate Hx].
  simpl bind.
  destruct (defined x && isNumber x)%bool.
  - exists (assocSet ex (VBool true) (assocSet bd x fa)),
           (assocSet ex (VBool true) (assocSet bd x fb)).
    split; [reflexivity | split; [reflexivity | split]].
    + intros k Hk. simpl. rewrite !assoc_assocSet.
      destruct (String.eqb k ex); [reflexivity |].
      destruct (String.eqb k bd); [reflexivity |].
      exact (H k Hk).
    + intros k Hk1 Hk2. simpl. rewrite !assoc_assocSet.
      destruct (String.eqb_spec k ex); [contradiction |].
      destruct (String.eqb_spec k bd); [contradiction |].
      split; reflexivity.
  - exists fa, fb. split; [reflexivity | split; [reflexivity | split]].
    + exact H.
    + intros k _ _. split; reflexivity.
Qed.

(** The downgrade of the numeric encoding agrees, on every key, with the
    boolean encoding, which the downgrade leaves as it is. *)
Lemma downgrade_normalizes (ex bd : string) (a b : value)
  (fa fb : list (string * value)) (n : Z) :
  a = VObj fa -> b = VObj fb -> ex <> bd ->
  agreeExcept [bd; ex] a b ->
  get a ex = Ok (VNum n) ->
  get b bd = Ok (VNum n) ->
  get b ex = Ok (VBool true) ->
  exists fa',
    downgrade ex bd a = Ok (VObj fa') /\
    downgrade ex bd b = Ok b /\
    agreeExcept [] (VObj fa') b.
Proof.
  intros -> -> Hne H Ha Hb1 Hb2.
  unfold downgrade. rewrite Ha, Hb2. simpl bind. simpl.
  exists (assocSet ex (VBool true) (assocSet bd (VNum n) fa)).
  split; [reflexivity | split; [reflexivity |]].
  intros k _. simpl. rewrite !assoc_assocSet.
  simpl in Hb1, Hb2.
  destruct (String.eqb_spec k ex) as [-> | Hk1].
  - injection Hb2 as ->. reflexivity.
  - destruct (String.eqb_spec k bd) as [-> | Hk2].
    + injection Hb1 as ->. reflexivity.
    + assert (Hk : ~ In k [bd; ex]).
      { simpl. intros [E | [E | []]]; congruence. }
      specialize (H k Hk). simpl in H. exact H.
Qed.

(** Two objects that differ only in the encoding of an exclusive bound
    render the same text. *)
Lemma encodings_render_alike :
  forall (style : Style) (knownTypes : list string) (autoLink : value)
         (schema : value) (headerMd name : string) (type : value)
         (numeric boolean : value) (fn fb : list (string * value)) (n : Z),
    numeric = VObj fn -> boolean = VObj fb ->
    (agreeExcept ["minimum"; "exclusiveMinimum"] numeric boolean ->
     get numeric "exclusiveMinimum" = Ok (VNum n) ->
     get boolean "minimum" = Ok (VNum n) ->
     get boolean "exclusiveMinimum" = Ok (VBool true) ->
     minimumBullet style numeric
     = Ok (bulletItem style
             (propertyDetails style "Minimum" ++ ": " ++
              minMax style (VStr (" > " ++ numToString n))) (Some 0))
     /\ minimumBullet style boolean = minimumBullet style numeric
     /\ textOf (propertyDetailsBody style knownTypes autoLink schema headerMd
                  name boolean)
        = textOf (propertyDetailsBody style knownTypes autoLink schema headerMd
                    name numeric)
     /\ textOf (itemsDetails style boolean type)
        = textOf (itemsDetails style numeric type))
    /\
    (agreeExcept ["maximum"; "exclusiveMaximum"] numeric boolean ->
     get numeric "exclusiveMaximum" = Ok (VNum n) ->
     get boolean "maximum" = Ok (VNum n) ->
     get boolean "exclusiveMaximum" = Ok (VBool true) ->
     maximumBullet style numeric
     = Ok (bulletItem style
             (propertyDetails style "Maximum" ++ ": " ++
              minMax style (VStr (" < " ++ numToString n))) (Some 0))
     /\ maximumBullet style boolean = maximumBullet style numeric
     /\ textOf (propertyDetailsBody style knownTypes autoLink schema headerMd
                  name boolean)
        = textOf (propertyDetailsBody style knownTypes autoLink schema headerMd
                    name numeric)
     /\ textOf (itemsDetails style boolean type)
        = textOf (itemsDetails style numeric type)).
Proof.
  intros style knownTypes autoLink schema headerMd name type numeric boolean
         fn fb n En Eb.
  split; intros H Hn Hb1 Hb2.
  - assert (Hnum : minimumBullet style numeric
                   = Ok (bulletItem style
                           (propertyDetails style "Minimum" ++ ": " ++
                            minMax style (VStr (" > " ++ numToString n)))
                           (Some 0))).
    { unfold minimumBullet. rewrite Hn. reflexivity. }
    assert (Hbool : minimumBullet style boolean = minimumBullet style numeric).
    { rewrite Hnum. unfold minimumBullet. rewrite Hb2. simpl. rewrite Hb1.
      reflexivity. }
    assert (Hmax : maximumBullet style numeric = maximumBullet style boolean).
    { apply maximumBullet_ext; apply H; simpl; intuition discriminate. }
    assert (H4 : agreeExcept boundKeys numeric boolean).
    { apply (agreeExcept_weaken ["minimum"; "exclusiveMinimum"]); [| exact H].
      unfold boundKeys. simpl. tauto. }
    split; [exact Hnum | split; [exact Hbool | split]].
    + symmetry.
      apply (propertyDetailsBody_ext style knownTypes autoLink schema headerMd
               name numeric boolean fn fb En Eb H4);
        [now symmetry | exact Hmax].
    + rewrite (textOf_itemsDetails style boolean type fb Eb),
        (textOf_itemsDetails style numeric type fn En).
      destruct (downgrade_normalizes "exclusiveMinimum" "minimum" numeric boolean
                  fn fb n En Eb ltac:(discriminate) H Hn Hb1 Hb2)
        as [fa' [Hd1 [Hd2 Hsame]]].
      rewrite Hd1, Hd2. simpl bind.
      destruct (downgrade_agree [] "exclusiveMaximum" "maximum" (VObj fa') boolean
                  fa' fb eq_refl Eb Hsame ltac:(intros []) ltac:(intros []))
        as [fa2 [fb2 [Hd3 [Hd4 [Hsame2 _]]]]].
      rewrite Hd3, Hd4. simpl bind.
      symmetry. apply itemsTail_ext. exact Hsame2.
  - assert (Hnum : maximumBullet style numeric
                   = Ok (bulletItem style
                           (propertyDetails style "Maximum" ++ ": " ++
                            minMax style (VStr (" < " ++ numToString n)))
                           (Some 0))).
    { unfold maximumBullet. rewrite Hn. reflexivity. }
    assert (Hbool : maximumBullet style boolean = maximumBullet style numeric).
    { rewrite Hnum. unfold maximumBullet. rewrite Hb2. simpl. rewrite Hb1.
      reflexivity. }
    assert (Hmin : minimumBullet style numeric = minimumBullet style boolean).
    { apply minimumBullet_ext; apply H; simpl; intuition discriminate. }
    assert (H4 : agreeExcept boundKeys numeric boolean).
    { apply (agreeExcept_weaken ["maximum"; "exclusiveMaximum"]); [| exact H].
      unfold boundKeys. simpl. tauto. }
    split; [exact Hnum | split; [exact Hbool | split]].
    + symmetry.
      apply (propertyDetailsBody_ext style knownTypes autoLink schema headerMd
               name numeric boolean fn fb En Eb H4);
        [exact Hmin | now symmetry].
    + rewrite (textOf_itemsDetails style boolean type fb Eb),
        (textOf_itemsDetails style numeric type fn En).
      destruct (downgrade_agree ["maximum"; "exclusiveMaximum"]
                  "exclusiveMinimum" "minimum" numeric boolean fn fb En Eb H
                  ltac:(simpl; intuition discriminate)
                  ltac:(simpl; intuition discriminate))
        as [fa1 [fb1 [Hd1 [Hd2 [Hagree Hkeep]]]]].
      rewrite Hd1, Hd2. simpl bind.
      destruct (Hkeep "exclusiveMaximum" ltac:(discriminate) ltac:(discriminate))
        as [Hk1 Hk2].
      destruct (Hkeep "maximum" ltac:(discriminate) ltac:(discriminate))
        as [_ Hk3].
      destruct (downgrade_normalizes "exclusiveMaximum" "maximum"
                  (VObj fa1) (VObj fb1) fa1 fb1 n eq_refl eq_refl
                  ltac:(discriminate) Hagree
                  ltac:(rewrite Hk1; exact Hn)
                  ltac:(rewrite Hk3; exact Hb1)
                  ltac:(rewrite Hk2; exact Hb2))
        as [fa2 [Hd3 [Hd4 Hsame]]].
      rewrite Hd3, Hd4. simpl bind.
      symmetry. apply itemsTail_ext. exact Hsame.
Qed.

Lemma downgraded_agrees (ex bd : string) (fn : list (string * value)) (n : Z) :
  ex <> bd ->
  get (VObj fn) ex = Ok (VNum n) ->
  exists fb,
    downgraded ex bd (VObj fn) = VObj fb /\
    agreeExcept [bd; ex] (VObj fn) (VObj fb) /\
    get (VObj fb) bd = Ok (VNum n) /\
    get (VObj fb) ex = Ok (VBool true).
Proof.
  intros Hne Hex. simpl in Hex. injection Hex as Hex.
  exists (assocSet ex (VBool true) (assocSet bd (VNum n) fn)).
  unfold downgraded. rewrite Hex.
  split; [reflexivity | split; [| split]].
  - intros k Hk. simpl. rewrite !assoc_assocSet.
    destruct (String.eqb_spec k ex) as [-> | _];
      [exfalso; apply Hk; simpl; tauto |].
    destruct (String.eqb_spec k bd) as [-> | _];
      [exfalso; apply Hk; simpl; tauto | reflexivity].
  - simpl. rewrite !assoc_assocSet.
    destruct (String.eqb_spec bd ex) as [E | _]; [now subst |].
    now rewrite String.eqb_refl.
  - simpl. rewrite !assoc_assocSet. now rewrite String.eqb_refl.
Qed.

(** C6: a schema whose [exclusiveMinimum] is the number [n], and a schema
    that differs from it only in having [minimum] [n] and
    [exclusiveMinimum] [true], render the same text: the same "Minimum"
    bullet (" > n") and the same whole text as a property, and the same
    text as the [items] of an array, where the numeric encoding is first
    rewritten into the boolean one.  In particular the numeric encoding
    renders as its own rewriting into the boolean form does.  The same
    holds of [exclusiveMaximum] and [maximum]. *)
Theorem exclusive_bound_encodings :
  forall (style : Style) (knownTypes : list string) (autoLink : value)
         (schema : value) (headerMd name : string) (type : value)
         (numeric boolean : value) (fn fb : list (string * value)) (n : Z),
    numeric = VObj fn -> boolean = VObj fb ->
    (agreeExcept ["minimum"; "exclusiveMinimum"] numeric boolean ->
     get numeric "exclusiveMinimum" = Ok (VNum n) ->
     get boolean "minimum" = Ok (VNum n) ->
     get boolean "exclusiveMinimum" = Ok (VBool true) ->
     minimumBullet style numeric
     = Ok (bulletItem style
             (propertyDetails style "Minimum" ++ ": " ++
              minMax style (VStr (" > " ++ numToString n))) (Some 0))
     /\ minimumBullet style boolean = minimumBullet style numeric
     /\ textOf (propertyDetailsBody style knownTypes autoLink schema headerMd
                  name boolean)
        = textOf (propertyDetailsBody style knownTypes autoLink schema headerMd
                    name numeric)
     /\ textOf (itemsDetails style boolean type)
        = textOf (itemsDetails style numeric type))
    /\
    (agreeExcept ["maximum"; "exclusiveMaximum"] numeric boolean ->
     get numeric "exclusiveMaximum" = Ok (VNum n) ->
     get boolean "maximum" = Ok (VNum n) ->
     get boolean "exclusiveMaximum" = Ok (VBool true) ->
     maximumBullet style numeric
     = Ok (bulletItem style
             (propertyDetails style "Maximum" ++ ": " ++
              minMax style (VStr (" < " ++ numToString n))) (Some 0))
     /\ maximumBullet style boolean = maximumBullet style numeric
     /\ textOf (propertyDetailsBody style knownTypes autoLink schema headerMd
                  name boolean)
        = textOf (propertyDetailsBody style knownTypes autoLink schema headerMd
                    name numeric)
     /\ textOf (itemsDetails style boolean type)
        = textOf (itemsDetails style numeric type))
    /\
    (get numeric "exclusiveMinimum" = Ok (VNum n) ->
     let rewritten := downgraded "exclusiveMinimum" "minimum" numeric in
     minimumBullet style rewritten = minimumBullet style numeric
     /\ textOf (propertyDetailsBody style knownTypes autoLink schema headerMd
                  name rewritten)
        = textOf (propertyDetailsBody style knownTypes autoLink schema headerMd
                    name numeric)
     /\ textOf (itemsDetails style rewritten type)
        = textOf (itemsDetails style numeric type))
    /\
    (get numeric "exclusiveMaximum" = Ok (VNum n) ->
     let rewritten := downgraded "exclusiveMaximum" "maximum" numeric in
     maximumBullet style rewritten = maximumBullet style numeric
     /\ textOf (propertyDetailsBody style knownTypes autoLink schema headerMd
                  name rewritten)
        = textOf (propertyDetailsBody style knownTypes autoLink schema headerMd
                    name numeric)
     /\ textOf (itemsDetails style rewritten type)
        = textOf (itemsDetails style numeric type)).
Proof.
  intros style knownTypes autoLink schema headerMd name type numeric boolean
         fn fb n En Eb.
  split; [| split; [| split]].
  - exact (proj1 (encodings_render_alike style knownTypes autoLink schema
                    headerMd name type numeric boolean fn fb n En Eb)).
  - exact (proj2 (encodings_render_alike style knownTypes autoLink schema
                    headerMd name type numeric boolean fn fb n En Eb)).
  - intros Hn rewritten. subst numeric rewritten.
    destruct (downgraded_agrees "exclusiveMinimum" "minimum" fn n
                ltac:(discriminate) Hn) as [fr [-> [Hagree [Hr1 Hr2]]]].
    destruct (proj1 (encodings_render_alike style knownTypes autoLink schema
                       headerMd name type (VObj fn) (VObj fr) fn fr n
                       eq_refl eq_refl) Hagree Hn Hr1 Hr2)
      as [_ [H1 [H2 H3]]].
    split; [exact H1 | split; [exact H2 | exact H3]].
  - intros Hn rewritten. subst numeric rewritten.
    destruct (downgraded_agrees "exclusiveMaximum" "maximum" fn n
                ltac:(discriminate) Hn) as [fr [-> [Hagree [Hr1 Hr2]]]].
    destruct (proj2 (encodings_render_alike style knownTypes autoLink schema
                       headerMd name type (VObj fn) (VObj fr) fn fr n
                       eq_refl eq_refl) Hagree Hn Hr1 Hr2)
      as [_ [H1 [H2 H3]]].
    split; [exact H1 | split; [exact H2 | exact H3]].
Qed.

Lemma exclusive_bound_encodings_witness :
  let style := Plain.style Plain.initial in
  minimumBullet style numericFive = Ok ("* Minimum:  > 5" ++ nl)
  /\ minimumBullet style booleanFive = minimumBullet style numericFive
  /\ textOf (propertyDetailsBody style [] VUndef (VObj []) "###" "x" booleanFive)
     = textOf (propertyDetailsBody style [] VUndef (VObj []) "###" "x" numericFive)
  /\ textOf (itemsDetails style booleanFive (VStr "number"))
     = textOf (itemsDetails style numericFive (VStr "number")).
Proof.
  refine (proj1 (exclusive_bound_encodings (Plain.style Plain.initial) []
                   VUndef (VObj []) "###" "x" (VStr "number")
                   numericFive booleanFive _ _ 5 eq_refl eq_refl)
            _ eq_refl eq_refl eq_refl).
  intros k Hk. simpl.
  destruct (String.eqb_spec k "type"); [reflexivity |].
  destruct (String.eqb_spec k "exclusiveMinimum") as [-> | _];
    [exfalso; apply Hk; simpl; tauto |].
  destruct (String.eqb_spec k "minimum") as [-> | _];
    [exfalso; apply Hk; simpl; tauto | reflexivity].
Defined.

(* ------------------------------------------------------------------ *)
(** ** The table of contents of a run *)

Lemma renderLoop_withWriteTOC (style : Style) (b : bool) (options : Options)
  (descending : TypeGraph) (titles : list string) :
  forall orderedTypes,
    renderLoop style (withWriteTOC b options) descending titles orderedTypes
    = renderLoop style options descending titles orderedTypes.
Proof.
  induction titles as [| title r IH]; intros orderedTypes; simpl.
  - reflexivity.
  - destruct (lookupType title orderedTypes) as [entry |]; simpl; [| reflexivity].
    destruct (getSchemaMarkdown style (map fst descending) (opt_autoLink options)
                (schema entry) (fileName entry) (opt_headerLevel options + 1)
                (opt_suppressWarnings options)
                (opt_schemaRelativeBasePath options) (opt_embedMode options))
      as [[md schema'] |]; simpl; [| reflexivity].
    match goal with
    | |- bind ?w _ = bind ?w _ => destruct w as [written |]; simpl; [| reflexivity]
    end.
    now rewrite IH.
Qed.

(** C1: the table of contents does not reach the output.  A run with
    [writeTOC] set that completes writes the very files, and returns the
    very value, of the run without it: line 69 assigns the JSON text of the
    type graph to [md], over the table of contents (and the warning) that
    [md] held. *)
Theorem writeTOC_does_not_change_the_output :
  forall (M : StyleModule) (R : Resolvers) (fuel : nat) (options : Options)
         (s : StyleState M) (run : Run),
    opt_writeTOC options = true ->
    generateMarkdown M R fuel options s = Ok run ->
    generateMarkdown M R fuel (withWriteTOC false options) s = Ok run.
Proof.
  intros M R fuel options s run Htoc H.
  unfold generateMarkdown in H. unfold generateMarkdown.
  change (resolveSchema R (withWriteTOC false options)) with (resolveSchema R options).
  change (configureStyle M (withWriteTOC false options) s)
    with (configureStyle M options s).
  inv_bind H. rewrite Ha. cbn [bind].
  destruct a as [resolved warning].
  destruct resolved as [resolved |]; [| discriminate H].
  inv_bind H. clear Ha0. inv_bind H.
  cbn [bind withWriteTOC opt_writeTOC].
  rewrite Ha0. cbn [bind].
  rewrite renderLoop_withWriteTOC. exact H.
Qed.

Lemma writeTOC_does_not_change_the_output_witness :
  exists toc run,
    getTableOfContentsMarkdown (Plain.style Plain.initial) 2 Examples.rootSchema
      (sortChildren (sortObject Examples.rootAndChild true)) 1 = Ok toc
    /\ toc = "# Objects" ++ nl ++
             "* [Root](#reference-root) (root object)" ++ nl ++
             "* [Root Child](#reference-root.child)" ++ nl
    /\ generateMarkdown Plain.module Examples.resolvers 2 Examples.options
         Plain.initial = Ok run
    /\ generateMarkdown Plain.module Examples.resolvers 2
         (withWriteTOC false Examples.options) Plain.initial = Ok run
    /\ writtenSomewhere toc run = false
    /\ includes toc (returned run) = false.
Proof.
  eexists. eexists.
  split; [vm_compute; reflexivity |].
  split; [reflexivity |].
  split; [vm_compute; reflexivity |].
  split.
  - apply writeTOC_does_not_change_the_output; [reflexivity |].
    vm_compute. reflexivity.
  - split; vm_compute; reflexivity.
Defined.

(* ------------------------------------------------------------------ *)
(** ** The entries of the table of contents *)

Lemma renderItems_app (style : Style) (a b : list TocItem) :
  renderItems style (a ++ b) = renderItems style a ++ renderItems style b.
Proof.
  induction a as [| it a IH]; simpl; [reflexivity |].
  now rewrite IH, append_assoc.
Qed.

Lemma recursiveTOCLoop_items (style : Style) (orderedTypes : TypeGraph)
  (recur : string -> Z -> result string)
  (recurItems : string -> Z -> result (list TocItem))
  (parentTitle : string) (depth : Z) :
  (forall t d, recur t d = (items <- recurItems t d ;; Ok (renderItems style items))) ->
  forall titles,
    recursiveTOCLoop style recur orderedTypes parentTitle depth titles
    = (items <- recursiveItemsLoop recurItems orderedTypes parentTitle depth titles ;;
       Ok (renderItems style items)).
Proof.
  intros Hrecur.
  induction titles as [| currentTitle r IHr]; simpl; [reflexivity |].
  destruct (lookupType currentTitle orderedTypes) as [currentType |]; simpl;
    [| reflexivity].
  destruct (Nat.eqb (List.length (parents currentType)) 1); [| exact IHr].
  destruct (tocTypeName currentTitle currentType) as [typeName |]; simpl;
    [| reflexivity].
  rewrite Hrecur.
  destruct (recurItems currentTitle (depth + 1)) as [sub |]; simpl;
    [| reflexivity].
  rewrite IHr.
  destruct (recursiveItemsLoop recurItems orderedTypes parentTitle depth r)
    as [rest |]; simpl; [| reflexivity].
  unfold renderItem at 1. simpl.
  now rewrite renderItems_app, append_empty_r.
Qed.

(** [getRecursiveTOC] is the rendering of [recursiveItems]. *)
Lemma getRecursiveTOC_items (style : Style) (orderedTypes : TypeGraph) :
  forall (fuel : nat) (parentTitle : string) (depth : Z),
    getRecursiveTOC style fuel orderedTypes parentTitle depth
    = (items <- recursiveItems fuel orderedTypes parentTitle depth ;;
       Ok (renderItems style items)).
Proof.
  induction fuel as [| fuel IH]; intros parentTitle depth; simpl.
  - reflexivity.
  - destruct (lookupType parentTitle orderedTypes) as [parent |]; simpl;
      [| reflexivity].
    apply recursiveTOCLoop_items. exact IH.
Qed.

Lemma tocLoop_items (style : Style) (fuel : nat) (schema : value)
  (orderedTypes : TypeGraph) (titles : list string) :
  tocLoop style fuel schema orderedTypes titles
  = (items <- tocItemsLoop fuel schema orderedTypes titles ;;
     Ok (renderItems style items)).
Proof.
  induction titles as [| title r IH]; simpl; [reflexivity |].
  destruct (lookupType title orderedTypes) as [currentType |]; simpl;
    [| reflexivity].
  destruct (get schema "title") as [schemaTitle |]; simpl; [| reflexivity].
  rewrite IH. unfold listedAtTop.
  destruct (isString title schemaTitle
            || Nat.ltb 1 (List.length (parents currentType))
            || indexOfFound (parents currentType) schemaTitle)%bool.
  - destruct (tocTypeName title currentType) as [typeName |]; simpl;
      [| reflexivity].
    rewrite getRecursiveTOC_items.
    destruct (isString title schemaTitle) eqn:Hroot; simpl.
    + destruct (tocItemsLoop fuel schema orderedTypes r) as [rest |]; simpl;
        [| reflexivity].
      unfold renderItem at 1. simpl.
      now rewrite append_empty_r.
    + destruct (recursiveItems fuel orderedTypes title 1) as [sub |]; simpl;
        [| reflexivity].
      destruct (tocItemsLoop fuel schema orderedTypes r) as [rest |]; simpl;
        [| reflexivity].
      unfold renderItem at 1. simpl.
      now rewrite renderItems_app, append_assoc.
  - simpl.
    destruct (tocItemsLoop fuel schema orderedTypes r) as [rest |]; simpl;
      reflexivity.
Qed.

(** The table of contents is its heading followed by the rendering of its
    entries. *)
Lemma getTableOfContentsMarkdown_items (style : Style) (fuel : nat)
  (schema : value) (orderedTypes : TypeGraph) (headerLevel : Z) :
  getTableOfContentsMarkdown style fuel schema orderedTypes headerLevel
  = (items <- tocItems fuel schema orderedTypes ;;
     Ok (getHeaderMarkdown style headerLevel ++ " Objects" ++ nl ++
         renderItems style items)).
Proof.
  unfold getTableOfContentsMarkdown, tocItems. rewrite tocLoop_items.
  destruct (tocItemsLoop fuel schema orderedTypes (map fst orderedTypes));
    reflexivity.
Qed.

(* ------------------------------------------------------------------ *)
(** ** A root and its only child *)

(** C4, as the specification has it, fails: the child of the root is a
    bullet of the top level under its full title, and no bullet is nested
    under the root. *)
Lemma root_child_not_nested :
  exists items,
    tocItems 3 RootChild.root RootChild.graph = Ok items /\
    ~ childNestedUnderRoot items /\
    getTableOfContentsMarkdown (Plain.style Plain.initial) 3 RootChild.root
      RootChild.graph 1
    = Ok ("# Objects" ++ nl ++
          "* [Root](#reference-root) (root object)" ++ nl ++
          "* [Root Child](#reference-root.child)" ++ nl).
Proof.
  eexists. split; [vm_compute; reflexivity |]. split; [| reflexivity].
  intros [it [Hin [Ht [Hl Hd]]]].
  simpl in Hin. destruct Hin as [<- | [<- | []]]; simpl in *; discriminate.
Qed.

(** C4, amended: for the root "Root" and its only child "Root Child", the
    table of contents is the heading, the bullet of the root marked as the
    root object and, at the top level, the bullet of the child under its
    full title.  A bullet is nested, with the title of its parent and a
    space removed from its label, under an entry that is not the root: the
    type "Root Child Leaf" below the child is the bullet "Leaf" at depth 1
    after the child. *)
Theorem toc_of_root_and_child :
  forall (style : Style) (fuel : nat) (headerLevel : Z),
    getTableOfContentsMarkdown style (S fuel) RootChild.root RootChild.graph
      headerLevel
    = Ok (getHeaderMarkdown style headerLevel ++ " Objects" ++ nl ++
          bulletItem style
            (getTOCLink style "Root" (VStr "root") ++ " (root object)") None ++
          bulletItem style (getTOCLink style "Root Child" (VStr "root.child")) None)
    /\
    getTableOfContentsMarkdown style (S (S fuel)) RootChild.root RootChild.deeper
      headerLevel
    = Ok (getHeaderMarkdown style headerLevel ++ " Objects" ++ nl ++
          bulletItem style
            (getTOCLink style "Root" (VStr "root") ++ " (root object)") None ++
          bulletItem style (getTOCLink style "Root Child" (VStr "root.child")) None ++
          bulletItem style (getTOCLink style "Leaf" (VStr "root.child.leaf"))
            (Some 1)).
Proof.
  intros style fuel headerLevel. split.
  - unfold getTableOfContentsMarkdown. simpl.
    now rewrite !append_empty_r.
  - unfold getTableOfContentsMarkdown. simpl.
    now rewrite !append_empty_r.
Qed.

(* ------------------------------------------------------------------ *)
(** ** Which types are listed, and where *)

(** C7, as the specification has it, fails: the only child of the root has
    exactly one parent and is not nested under any entry. *)
Lemma single_parent_child_of_root_not_nested :
  ~ nestedIffSingleParent 3 RootChild.root RootChild.graph.
Proof.
  intros H.
  specialize (H _ eq_refl "Root Child" _ eq_refl).
  destruct (proj2 H eq_refl) as [it [p [Hin [_ Hp]]]].
  simpl in Hin. destruct Hin as [<- | [<- | []]]; simpl in Hp; discriminate Hp.
Qed.

Lemma isString_spec (a : string) (s : value) :
  isString a s = true <-> s = VStr a.
Proof.
  unfold isString. destruct s; simpl; try (split; intros E; discriminate E).
  destruct (String.eqb_spec a s).
  - subst. split; reflexivity.
  - split; [intros E; discriminate E | intros E; injection E as ->; contradiction].
Qed.

Lemma listedAtTop_spec (schemaTitle : value) (title : string) (entry : TypeEntry) :
  listedAtTop schemaTitle title entry = true <-> ListedAtTop schemaTitle title entry.
Proof.
  unfold listedAtTop, ListedAtTop, indexOfFound.
  rewrite !Bool.orb_true_iff, isString_spec, Nat.ltb_lt, existsb_exists.
  split.
  - intros [[H | H] | [p [Hin Hp]]]; [left | right; left | right; right]; auto.
    exists p. split; [exact Hin |]. now apply isString_spec.
  - intros [H | [H | [p [Hin Hp]]]]; [left; left | left; right | right]; auto.
    exists p. split; [exact Hin |]. now apply isString_spec.
Qed.

Section TocStructure.

Variable g : TypeGraph.

Lemma recursiveItemsLoop_below
  (recur : string -> Z -> result (list TocItem)) (p : string) (d : Z)
  (ep : TypeEntry) :
  lookupType p g = Ok ep ->
  (forall t d' items, recur t d' = Ok items -> Below g t d' items) ->
  forall titles items,
    (forall c, In c titles -> In c (children ep)) ->
    recursiveItemsLoop recur g p d titles = Ok items ->
    (forall it, In it items ->
       exists q, item_parent it = Some q /\ item_root it = false /\
                 SingleParentChild g q (item_title it) /\
                 (q = p \/ exists itq, In itq items /\ item_title itq = q /\
                                       item_root itq = false)) /\
    (forall c e, In c titles -> lookupType c g = Ok e ->
       List.length (parents e) = 1%nat ->
       exists it, In it items /\ item_title it = c /\ item_parent it = Some p /\
                  item_depth it = Some d /\
                  item_label it = replaceFirst (p ++ " ") "" c /\
                  item_root it = false) /\
    (forall itp, In itp items -> ChildrenNested g items itp).
Proof.
  intros Hp Hrecur.
  induction titles as [| c r IH]; intros items Hsub H; simpl in H.
  - injection H as <-. split; [| split].
    + intros it [].
    + intros c e [].
    + intros itp [].
  - inv_bind H. rename a into e.
    assert (Hsub' : forall c', In c' r -> In c' (children ep))
      by (intros c' Hc'; apply Hsub; now right).
    destruct (Nat.eqb (List.length (parents e)) 1) eqn:Hone.
    + apply Nat.eqb_eq in Hone.
      inv_bind H. rename a into typeName.
      inv_bind H. rename a into sub.
      inv_bind H. rename a into rest.
      injection H as <-.
      destruct (Hrecur _ _ _ Ha1) as [Hs1 [Hs2 Hs3]].
      destruct (IH rest Hsub' Ha2) as [Hr1 [Hr2 Hr3]].
      set (item := {| item_title := c; item_parent := Some p;
                      item_label := replaceFirst (p ++ " ") "" c;
                      item_typeName := typeName; item_depth := Some d;
                      item_root := false |}).
      assert (Hspc : SingleParentChild g p c).
      { exists e, ep. repeat split; auto. apply Hsub. now left. }
      split; [| split].
      * intros it [<- | Hin].
        -- exists p. simpl. repeat split; auto.
        -- apply in_app_or in Hin. destruct Hin as [Hin | Hin].
           ++ destruct (Hs1 it Hin) as [q [Hq1 [Hq2 [Hq3 Hq4]]]].
              exists q. repeat split; auto. right.
              destruct Hq4 as [-> | [itq [Hi [Ht Hr]]]].
              ** exists item. repeat split; auto. now left.
              ** exists itq. repeat split; auto.
                 right. apply in_or_app. now left.
           ++ destruct (Hr1 it Hin) as [q [Hq1 [Hq2 [Hq3 Hq4]]]].
              exists q. repeat split; auto.
              destruct Hq4 as [-> | [itq [Hi [Ht Hr]]]]; [now left | right].
              exists itq. repeat split; auto.
              right. apply in_or_app. now right.
      * intros c' e' [<- | Hin] Hl He'.
        -- exists item. repeat split; auto. now left.
        -- destruct (Hr2 c' e' Hin Hl He') as [it [Hi Hrest]].
           exists it. split; [| exact Hrest].
           right. apply in_or_app. now right.
      * intros itp [<- | Hin] c' Hc'.
        -- destruct (Hs2 c' Hc') as [it [Hi [H1 [H2 [H3 [H4 H5]]]]]].
           exists it. split; [right; apply in_or_app; now left |].
           unfold NestedBelow. simpl. repeat split; auto.
        -- apply in_app_or in Hin. destruct Hin as [Hin | Hin].
           ++ destruct (Hs3 itp Hin c' Hc') as [it [Hi Hn]].
              exists it. split; [right; apply in_or_app; now left | exact Hn].
           ++ destruct (Hr3 itp Hin c' Hc') as [it [Hi Hn]].
              exists it. split; [right; apply in_or_app; now right | exact Hn].
    + apply Nat.eqb_neq in Hone.
      destruct (IH items Hsub' H) as [Hr1 [Hr2 Hr3]].
      split; [exact Hr1 | split; [| exact Hr3]].
      intros c' e' [<- | Hin] Hl He'.
      * rewrite Ha in Hl. injection Hl as <-. contradiction.
      * exact (Hr2 c' e' Hin Hl He').
Qed.

Lemma recursiveItems_below :
  forall (fuel : nat) (p : string) (d : Z) (items : list TocItem),
    recursiveItems fuel g p d = Ok items -> Below g p d items.
Proof.
  induction fuel as [| fuel IH]; intros p d items H; simpl in H.
  - discriminate H.
  - inv_bind H. rename a into ep.
    destruct (recursiveItemsLoop_below (recursiveItems fuel g) p d ep Ha IH
                (children ep) items (fun c Hc => Hc) H) as [H1 [H2 H3]].
    split; [exact H1 | split; [| exact H3]].
    intros c [e [ep' [Hl [Hone [Hp Hin]]]]].
    rewrite Ha in Hp. injection Hp as <-.
    exact (H2 c e Hin Hl Hone).
Qed.

End TocStructure.

Section TocTopLevel.

Variable g : TypeGraph.
Variable fuel : nat.
Variable schema : value.

Lemma tocItemsLoop_shape :
  forall titles items,
    tocItemsLoop fuel schema g titles = Ok items ->
    TocShape g schema titles items.
Proof.
  induction titles as [| title r IH]; intros items H; simpl in H.
  - injection H as <-. split; [| split].
    + intros t. split.
      * intros [it [[] _]].
      * intros [[] _].
    + intros it q [].
    + intros itp [].
  - inv_bind H. rename a into e.
    inv_bind H. rename a into st.
    inv_bind H. rename a into entry.
    inv_bind H. rename a into rest.
    injection H as <-.
    destruct (IH rest Ha2) as [R1 [R2 R3]].
    assert (Hentry :
      (listedAtTop st title e = false /\ entry = []) \/
      (listedAtTop st title e = true /\
       exists typeName sub,
         entry = {| item_title := title; item_parent := None;
                    item_label := title; item_typeName := typeName;
                    item_depth := None;
                    item_root := isString title st |} :: sub /\
         ((isString title st = true /\ sub = []) \/
          (isString title st = false /\ Below g title 1 sub)))).
    { destruct (listedAtTop st title e) eqn:Hl.
      - right. split; [reflexivity |].
        inv_bind Ha1. rename a into typeName.
        inv_bind Ha1. rename a into sub.
        injection Ha1 as <-. exists typeName, sub. split; [reflexivity |].
        destruct (isString title st) eqn:Hroot; simpl in Ha4.
        + left. injection Ha4 as <-. split; reflexivity.
        + right. split; [reflexivity |].
          exact (recursiveItems_below g fuel title 1 sub Ha4).
      - left. injection Ha1 as <-. split; reflexivity. }
    clear Ha1.
    destruct Hentry as [[Hl ->] | [Hl [typeName [sub [-> Hsub]]]]].
    + (* the type is not listed *)
      simpl. split; [| split]; [| exact R2 | exact R3].
      intros t. rewrite (R1 t). split.
      * intros [Hin Hrest]. split; [now right | exact Hrest].
      * intros [[<- | Hin] [e' [st' [He' [Hst' HL]]]]].
        -- rewrite Ha in He'. injection He' as <-.
           rewrite Ha0 in Hst'. injection Hst' as <-.
           apply listedAtTop_spec in HL. rewrite HL in Hl. discriminate Hl.
        -- split; [exact Hin |]. exists e', st'. repeat split; auto.
    + (* the type is listed *)
      set (item := {| item_title := title; item_parent := None;
                      item_label := title; item_typeName := typeName;
                      item_depth := None; item_root := isString title st |}).
      assert (Hnested : forall it, In it sub -> exists q, item_parent it = Some q).
      { intros it Hin. destruct Hsub as [[_ ->] | [_ [B1 _]]]; [destruct Hin |].
        destruct (B1 it Hin) as [q [Hq _]]. now exists q. }
      split; [| split].
      * intros t. split.
        -- intros [it [Hin [Ht Hp]]]. simpl in Hin.
           destruct Hin as [<- | Hin].
           ++ simpl in Ht. subst t. split; [now left |].
              exists e, st. repeat split; auto. now apply listedAtTop_spec.
           ++ apply in_app_or in Hin. destruct Hin as [Hin | Hin].
              ** destruct (Hnested it Hin) as [q Hq]. rewrite Hq in Hp.
                 discriminate Hp.
              ** destruct (proj1 (R1 t)) as [Hin' Hrest].
                 { exists it. repeat split; auto. }
                 split; [now right | exact Hrest].
        -- intros [[<- | Hin] Hrest].
           ++ exists item. repeat split. now left.
           ++ destruct (proj2 (R1 t) (conj Hin Hrest)) as [it [Hi [Ht Hp]]].
              exists it. repeat split; auto.
              simpl. right. apply in_or_app. now right.
      * intros it q Hin Hq. simpl in Hin. destruct Hin as [<- | Hin].
        -- discriminate Hq.
        -- apply in_app_or in Hin. destruct Hin as [Hin | Hin].
           ++ destruct Hsub as [[_ ->] | [Hroot [B1 _]]]; [destruct Hin |].
              destruct (B1 it Hin) as [q' [Hq1 [_ [Hq3 Hq4]]]].
              rewrite Hq in Hq1. injection Hq1 as <-.
              split; [exact Hq3 |].
              destruct Hq4 as [-> | [itq [Hi [Ht Hr]]]].
              ** exists item. repeat split; auto. now left.
              ** exists itq. repeat split; auto.
                 simpl. right. apply in_or_app. now left.
           ++ destruct (R2 it q Hin Hq) as [Hspc [itq [Hi [Ht Hr]]]].
              split; [exact Hspc |].
              exists itq. repeat split; auto.
              simpl. right. apply in_or_app. now right.
      * intros itp Hin Hr c Hc. simpl in Hin. destruct Hin as [<- | Hin].
        -- simpl in Hr.
           destruct Hsub as [[Hroot _] | [_ [_ [B2 _]]]];
             [rewrite Hroot in Hr; discriminate Hr |].
           destruct (B2 c Hc) as [it [Hi [H1 [H2 [H3 [H4 H5]]]]]].
           exists it. split; [simpl; right; apply in_or_app; now left |].
           unfold NestedBelow. simpl. repeat split; auto.
        -- apply in_app_or in Hin. destruct Hin as [Hin | Hin].
           ++ destruct Hsub as [[_ ->] | [_ [_ [_ B3]]]]; [destruct Hin |].
              destruct (B3 itp Hin c Hc) as [it [Hi Hn]].
              exists it. split; [simpl; right; apply in_or_app; now left | exact Hn].
           ++ destruct (R3 itp Hin Hr c Hc) as [it [Hi Hn]].
              exists it. split; [simpl; right; apply in_or_app; now right | exact Hn].
Qed.

(** One round of the loop of [getTableOfContentsMarkdown]. *)
Lemma tocItemsLoop_step (title : string) (r : list string)
  (items : list TocItem) :
  tocItemsLoop fuel schema g (title :: r) = Ok items ->
  exists st entry rest,
    get schema "title" = Ok st /\
    tocItemsLoop fuel schema g r = Ok rest /\
    items = (entry ++ rest)%list /\
    (entry = [] \/
     exists typeName sub,
       entry = {| item_title := title; item_parent := None;
                  item_label := title; item_typeName := typeName;
                  item_depth := None;
                  item_root := isString title st |} :: sub /\
       (isString title st = true -> sub = []) /\
       (forall it, In it sub ->
          item_root it = false /\ exists q, item_parent it = Some q)).
Proof.
  intros H. simpl in H.
  inv_bind H. rename a into e.
  inv_bind H. rename a into st.
  inv_bind H. rename a into entry.
  inv_bind H. rename a into rest.
  injection H as <-.
  exists st, entry, rest. repeat split; auto.
  destruct (listedAtTop st title e).
  - right. inv_bind Ha1. rename a into typeName.
    inv_bind Ha1. rename a into sub.
    injection Ha1 as <-. exists typeName, sub. split; [reflexivity |].
    destruct (isString title st); simpl in Ha4.
    + injection Ha4 as <-. split; [reflexivity | intros it []].
    + split; [intros E; discriminate E |].
      intros it Hin.
      destruct (recursiveItems_below g fuel title 1 sub Ha4) as [B1 _].
      destruct (B1 it Hin) as [q [Hq [Hr _]]].
      split; [exact Hr | now exists q].
  - left. now injection Ha1 as <-.
Qed.

(** The mark "(root object)" is on the entry of the root at the top level,
    and on no other entry. *)
Lemma tocItemsLoop_mark :
  forall titles items,
    tocItemsLoop fuel schema g titles = Ok items ->
    forall it, In it items -> (item_root it = true <-> RootEntry schema it).
Proof.
  induction titles as [| title r IH]; intros items H it Hin.
  - injection H as <-. destruct Hin.
  - destruct (tocItemsLoop_step title r items H)
      as [st [entry [rest [Hst [Hrest [-> Hentry]]]]]].
    apply in_app_or in Hin. destruct Hin as [Hin | Hin];
      [| exact (IH rest Hrest it Hin)].
    destruct Hentry as [-> | [typeName [sub [-> [_ Hsub]]]]]; [destruct Hin |].
    destruct Hin as [<- | Hin]; unfold RootEntry; simpl.
    + rewrite Hst, isString_spec. split.
      * intros ->. split; reflexivity.
      * intros [_ E]. now injection E.
    + destruct (Hsub it Hin) as [Hr [q Hq]]. rewrite Hr, Hq.
      split; [intros E; discriminate E | intros [E _]; discriminate E].
Qed.

Lemma tocItemsLoop_head :
  forall titles items,
    tocItemsLoop fuel schema g titles = Ok items -> nothingNestedNext items.
Proof.
  induction titles as [| title r IH]; intros items H.
  - injection H as <-. exact I.
  - destruct (tocItemsLoop_step title r items H)
      as [st [entry [rest [_ [Hrest [-> Hentry]]]]]].
    destruct Hentry as [-> | [typeName [sub [-> _]]]].
    + exact (IH rest Hrest).
    + reflexivity.
Qed.

Lemma after_unmarked (sub rest : list TocItem) (it : TocItem) :
  (forall x, In x sub -> item_root x = false) ->
  item_root it = true ->
  forall before after,
    (sub ++ rest)%list = (before ++ it :: after)%list ->
    exists before', rest = (before' ++ it :: after)%list.
Proof.
  intros Hsub Hit. induction sub as [| x sub IH]; intros before after E.
  - now exists before.
  - destruct before as [| b before]; simpl in E.
    + injection E as -> _. rewrite (Hsub it (or_introl eq_refl)) in Hit.
      discriminate Hit.
    + injection E as _ E.
      exact (IH (fun y Hy => Hsub y (or_intror Hy)) before after E).
Qed.

(** The bullet after the one marked "(root object)" is at the top level:
    nothing is nested under it. *)
Lemma tocItemsLoop_after_root :
  forall titles items,
    tocItemsLoop fuel schema g titles = Ok items ->
    forall before it after,
      items = (before ++ it :: after)%list ->
      item_root it = true ->
      nothingNestedNext after.
Proof.
  induction titles as [| title r IH]; intros items H before it after E Hit.
  - injection H as <-. destruct before; discriminate E.
  - destruct (tocItemsLoop_step title r items H)
      as [st [entry [rest [_ [Hrest [-> Hentry]]]]]].
    destruct Hentry as [-> | [typeName [sub [-> [Hroot Hsub]]]]].
    + exact (IH rest Hrest before it after E Hit).
    + destruct before as [| b before]; simpl in E.
      * injection E as <- <-. simpl in Hit.
        rewrite (Hroot Hit). exact (tocItemsLoop_head r rest Hrest).
      * injection E as _ E.
        destruct (after_unmarked sub rest it
                    (fun x Hx => proj1 (Hsub x Hx)) Hit before after E)
          as [before' E'].
        exact (IH rest Hrest before' it after E' Hit).
Qed.

End TocTopLevel.

(* ------------------------------------------------------------------ *)
(** ** What a render pass leaves in the type graph *)

(** C5, as the specification has it, fails: rendering a type that has an
    array property whose [items] carry [exclusiveMinimum: 5] leaves
    [minimum: 5] and [exclusiveMinimum: true] in these [items]. *)
Lemma render_rewrites_numeric_exclusive_items :
  ~ renderLeavesSchemaUnchanged (Plain.style Plain.initial) Examples.childSchema.
Proof.
  intros H.
  specialize (H [] VUndef (VStr "child.schema.json") 2 false None fullExpansion).
  specialize (H _ _ eq_refl).
  vm_compute in H. discriminate H.
Qed.

Lemma downgrade_downgraded (ex bd : string) (items x : value) :
  downgrade ex bd items = Ok x -> x = downgraded ex bd items.
Proof.
  unfold downgrade, downgraded. intros H.
  destruct items as [| | b | n | s | l | fs]; simpl in H;
    try discriminate H; try (injection H as <-; reflexivity).
  - destruct (String.eqb ex "length"); injection H as <-; reflexivity.
  - destruct (String.eqb ex "length"); injection H as <-; reflexivity.
  - destruct (assoc ex fs); simpl in H; injection H as <-; reflexivity.
Qed.

Lemma itemsDetails_downgraded (style : Style) (items type : value)
  (md : string) (items' : value) :
  itemsDetails style items type = Ok (md, items') ->
  items' = downgradedItems items.
Proof.
  unfold itemsDetails. intros H.
  destruct (defined items) eqn:Hd; simpl in H.
  - inv_bind H. inv_bind H. inv_bind H. inv_bind H. inv_bind H.
    injection H as _ <-.
    apply downgrade_downgraded in Ha, Ha0. subst. reflexivity.
  - injection H as _ <-.
    destruct items; try discriminate Hd; reflexivity.
Qed.

Lemma propertyDetailsBody_downgraded (style : Style) (knownTypes : list string)
  (autoLink schema : value) (headerMd name : string) (property : value)
  (md : string) (property' : value) :
  propertyDetailsBody style knownTypes autoLink schema headerMd name property
  = Ok (md, property') ->
  property' = downgradedProperty property.
Proof.
  unfold propertyDetailsBody. intros H.
  inv_bind H. inv_bind H. inv_bind H. inv_bind H. inv_bind H.
  rename a3 into items, Ha3 into Hitems.
  inv_bind H. destruct a3 as [itemsMd items'].
  apply itemsDetails_downgraded in Ha3. subst items'.
  inv_bind H. inv_bind H. inv_bind H. inv_bind H. inv_bind H. inv_bind H.
  inv_bind H. injection H as _ <-.
  destruct property as [| | b | n | s | l | fs]; simpl in Hitems;
    try discriminate Hitems.
  - injection Hitems as <-. reflexivity.
  - injection Hitems as <-. reflexivity.
  - injection Hitems as <-.
    destruct (String.eqb "items" "length") eqn:E; [discriminate E | reflexivity].
  - injection Hitems as <-. reflexivity.
  - injection Hitems as <-. simpl.
    destruct (defined (assoc "items" fs)); reflexivity.
Qed.

Lemma detailsLoop_downgraded (style : Style) (knownTypes : list string)
  (autoLink schema properties : value) (headerMd : string) :
  forall entries md entries',
    detailsLoop style knownTypes autoLink schema properties headerMd entries
    = Ok (md, entries') ->
    entries' = map (fun kv => (fst kv, downgradedProperty (snd kv))) entries.
Proof.
  induction entries as [| [name property] r IH]; intros md entries' H;
    simpl in H.
  - injection H as _ <-. reflexivity.
  - inv_bind H. rename a into own.
    inv_bind H. destruct a as [md1 property'].
    inv_bind H. destruct a as [rest r'].
    injection H as _ <-.
    rewrite (IH _ _ Ha1). simpl. f_equal. f_equal.
    destruct own.
    + exact (propertyDetailsBody_downgraded _ _ _ _ _ _ _ _ _ Ha0).
    + unfold hasOwnProperty in Ha.
      destruct properties; try discriminate Ha.
      destruct (assoc "hasOwnProperty" fields); discriminate Ha.
Qed.

Lemma map_snd_indexed {A : Type} (f : A -> A) (l : list A) (keys : list string) :
  List.length keys = List.length l ->
  map snd (map (fun kv : string * A => (fst kv, f (snd kv))) (combine keys l))
  = map f l.
Proof.
  revert keys. induction l as [| x l IH]; intros [| k keys] Hlen; simpl in *;
    try reflexivity; try discriminate Hlen.
  f_equal. apply IH. now injection Hlen.
Qed.

Lemma createPropertiesDetails_downgraded (style : Style)
  (knownTypes : list string) (autoLink schema title : value) (headerLevel : Z)
  (fs : list (string * value)) (md : string) (schema' : value) :
  schema = VObj fs ->
  createPropertiesDetails style knownTypes autoLink schema title headerLevel
  = Ok (md, schema') ->
  schema' = downgradedSchema schema.
Proof.
  intros -> H. unfold createPropertiesDetails in H. simpl in H.
  inv_bind H. destruct a as [text entries'].
  apply detailsLoop_downgraded in Ha. subst entries'.
  injection H as _ <-. unfold downgradedSchema.
  destruct (assoc "properties" fs) as [| | b | n | s | l | pfs]; try reflexivity.
  simpl. f_equal. f_equal. f_equal.
  apply map_snd_indexed. now rewrite length_map, length_seq.
Qed.

Lemma sameButSchemas_refl (g : TypeGraph) : sameButSchemas g g.
Proof.
  induction g as [| kv g IH]; constructor; [repeat split | exact IH].
Qed.

Lemma sameButSchemas_trans (g1 g2 g3 : TypeGraph) :
  sameButSchemas g1 g2 -> sameButSchemas g2 g3 -> sameButSchemas g1 g3.
Proof.
  intros H12. revert g3. induction H12 as [| a b g1 g2 [E1 [E2 [E3 E4]]] _ IH];
    intros g3 H23; inversion H23 as [| b' c g2' g3' [F1 [F2 [F3 F4]]] Hrest]; subst.
  - constructor.
  - constructor; [| exact (IH _ Hrest)].
    repeat split; congruence.
Qed.

Lemma setSchema_sameButSchemas (title : string) (s : value) (g : TypeGraph) :
  sameButSchemas g (setSchema title s g).
Proof.
  induction g as [| [t e] g IH]; simpl; [constructor |].
  destruct (String.eqb title t).
  - constructor; [repeat split | apply sameButSchemas_refl].
  - constructor; [repeat split | exact IH].
Qed.

(** The render loop changes schemas only: titles, file names, parents and
    children are those of the sorted graph. *)
Lemma renderLoop_sameButSchemas (style : Style) (options : Options)
  (descending : TypeGraph) :
  forall titles g written g',
    renderLoop style options descending titles g = Ok (written, g') ->
    sameButSchemas g g'.
Proof.
  induction titles as [| title r IH]; intros g written g' H; simpl in H.
  - injection H as _ <-. apply sameButSchemas_refl.
  - inv_bind H. inv_bind H. destruct a0 as [md schema'].
    inv_bind H. inv_bind H. destruct a1 as [rest g1].
    injection H as _ <-.
    apply (sameButSchemas_trans _ (setSchema title schema' g));
      [apply setSchema_sameButSchemas | exact (IH _ _ _ Ha2)].
Qed.

(** C5, amended: rendering a type leaves its schema as it was, or with the
    [items] of its properties downgraded: where the [items] of a property
    hold a numeric [exclusiveMinimum] ([exclusiveMaximum]), the number is
    now their [minimum] ([maximum]) and the exclusive field is [true].
    Nothing else changes: the members of the schema other than
    [properties], the members of a property other than [items] (its own
    [minimum], [maximum], [exclusiveMinimum] and [exclusiveMaximum] among
    them), the members of [items] other than the four bounds, and [items]
    that hold no numeric exclusive bound.  Over a whole render loop the
    titles, file names, parents and children of the graph stay as they
    are. *)
Theorem render_leaves_schema_downgraded :
  forall (style : Style) (knownTypes : list string) (autoLink : value)
         (schema fileName : value) (headerLevel : Z) (suppressWarnings : bool)
         (base : option string) (embedMode : EmbedMode)
         (md : string) (schema' : value),
    getSchemaMarkdown style knownTypes autoLink schema fileName headerLevel
      suppressWarnings base embedMode = Ok (md, schema') ->
    (schema' = schema \/ schema' = downgradedSchema schema)
    /\ (forall k, k <> "properties" ->
          get (downgradedSchema schema) k = get schema k)
    /\ (forall property k, k <> "items" ->
          get (downgradedProperty property) k = get property k)
    /\ (forall items k, ~ In k boundKeys ->
          get (downgradedItems items) k = get items k)
    /\ (forall items exMin exMax,
          get items "exclusiveMinimum" = Ok exMin -> isNumber exMin = false ->
          get items "exclusiveMaximum" = Ok exMax -> isNumber exMax = false ->
          downgradedItems items = items)
    /\ (forall items n,
          get items "exclusiveMinimum" = Ok (VNum n) ->
          get (downgradedItems items) "minimum" = Ok (VNum n) /\
          get (downgradedItems items) "exclusiveMinimum" = Ok (VBool true))
    /\ (forall items n,
          get items "exclusiveMaximum" = Ok (VNum n) ->
          get (downgradedItems items) "maximum" = Ok (VNum n) /\
          get (downgradedItems items) "exclusiveMaximum" = Ok (VBool true))
    /\ (forall options descending titles g written g',
          renderLoop style options descending titles g = Ok (written, g') ->
          sameButSchemas g g').
Proof.
  intros style knownTypes autoLink schema fileName headerLevel suppressWarnings
         base embedMode md schema' H.
  split; [| split; [| split; [| split; [| split; [| split; [| split]]]]]];
    [| | | | | | | exact (renderLoop_sameButSchemas style)].
  - unfold getSchemaMarkdown in H.
    destruct schema as [| | b | n | s | l | fs];
      try (injection H as _ <-; now left);
      (destruct (EmbedMode_eqb embedMode writeIncludeStatements);
       [injection H as _ <-; now left |]);
      inv_bind H; inv_bind H; inv_bind H; inv_bind H;
      (destruct (strictEq a1 (VStr "object")) eqn:Hobj;
       [| injection H as _ <-; now left]);
      simpl in Ha1; try discriminate Ha1;
      try (injection Ha1 as <-; try destruct (String.eqb "type" "length");
           discriminate Hobj).
    inv_bind H. inv_bind H. inv_bind H. inv_bind H.
    destruct a6 as [details s']. inv_bind H. injection H as _ <-.
    right.
    exact (createPropertiesDetails_downgraded _ _ _ _ _ _ fs _ _ eq_refl Ha6).
  - intros k Hk. unfold downgradedSchema.
    destruct schema as [| | b | n | s | l | fs]; try reflexivity.
    destruct (assoc "properties" fs); try reflexivity;
      apply (get_setProp_other "properties" k _ (VObj fs) Hk).
  - intros property k Hk. unfold downgradedProperty.
    destruct property as [| | b | n | s | l | fs]; try reflexivity.
    destruct (defined (assoc "items" fs)); [| reflexivity].
    apply (get_setProp_other "items" k _ (VObj fs) Hk).
  - intros items k Hk. unfold downgradedItems, downgraded.
    assert (Hk1 : k <> "minimum") by (intros ->; apply Hk; simpl; tauto).
    assert (Hk2 : k <> "exclusiveMinimum") by (intros ->; apply Hk; simpl; tauto).
    assert (Hk3 : k <> "maximum") by (intros ->; apply Hk; simpl; tauto).
    assert (Hk4 : k <> "exclusiveMaximum") by (intros ->; apply Hk; simpl; tauto).
    destruct items as [| | b | n | s | l | fs]; try reflexivity.
    assert (Hset : forall ex bd v w fs',
              k <> ex -> k <> bd ->
              assoc k (assocSet ex v (assocSet bd w fs')) = assoc k fs').
    { intros ex bd v w fs' H1 H2. rewrite !assoc_assocSet.
      destruct (String.eqb_spec k ex); [contradiction |].
      destruct (String.eqb_spec k bd); [contradiction | reflexivity]. }
    destruct (assoc "exclusiveMinimum" fs) eqn:E1;
      match goal with
      | |- context [assoc "exclusiveMaximum" ?l] =>
          destruct (assoc "exclusiveMaximum" l) eqn:E2
      end; simpl; rewrite ?Hset by assumption; reflexivity.
  - intros items exMin exMax H1 N1 H2 N2. unfold downgradedItems, downgraded.
    destruct items as [| | b | n | s | l | fs]; try reflexivity.
    simpl in H1, H2. injection H1 as H1. injection H2 as H2.
    rewrite H1. destruct exMin; try discriminate N1; rewrite H2;
      destruct exMax; try discriminate N2; reflexivity.
  - intros items n Hn.
    destruct items as [| | b | m | s | l | fs]; simpl in Hn; try discriminate Hn;
      try (destruct (String.eqb "exclusiveMinimum" "length") eqn:E;
           [discriminate E | discriminate Hn]).
    injection Hn as Hn. unfold downgradedItems, downgraded. rewrite Hn.
    match goal with
    | |- context [assoc "exclusiveMaximum" ?l] =>
        destruct (assoc "exclusiveMaximum" l) eqn:E2
    end; simpl; rewrite !assoc_assocSet; simpl; split; reflexivity.
  - intros items n Hn.
    destruct items as [| | b | m | s | l | fs]; simpl in Hn; try discriminate Hn;
      try (destruct (String.eqb "exclusiveMaximum" "length") eqn:E;
           [discriminate E | discriminate Hn]).
    injection Hn as Hn. unfold downgradedItems, downgraded.
    destruct (assoc "exclusiveMinimum" fs) eqn:E1;
      try (rewrite Hn; simpl; rewrite !assoc_assocSet; simpl; split; reflexivity).
    assert (E2 : assoc "exclusiveMaximum"
                   (assocSet "exclusiveMinimum" (VBool true)
                      (assocSet "minimum" (VNum n0) fs)) = VNum n).
    { rewrite !assoc_assocSet. simpl. exact Hn. }
    rewrite E2. simpl. rewrite !assoc_assocSet. simpl. split; reflexivity.
Qed.

Lemma render_leaves_schema_downgraded_witness :
  exists md schema',
    getSchemaMarkdown (Plain.style Plain.initial) [] VUndef Examples.childSchema
      (VStr "child.schema.json") 2 false None fullExpansion
    = Ok (md, schema')
    /\ (schema' = Examples.childSchema \/
        schema' = downgradedSchema Examples.childSchema)
    /\ schema' <> Examples.childSchema.
Proof.
  eexists. exists (downgradedSchema Examples.childSchema).
  split; [vm_compute; reflexivity |].
  split.
  - refine (proj1 (render_leaves_schema_downgraded (Plain.style Plain.initial) []
                     VUndef Examples.childSchema (VStr "child.schema.json") 2
                     false None fullExpansion _
                     (downgradedSchema Examples.childSchema) _)).
    vm_compute. reflexivity.
  - vm_compute. intros E. discriminate E.
Defined.

(* ------------------------------------------------------------------ *)
(** ** Graphs on which the table of contents is produced *)

Lemma lookupType_In (t : string) (g : TypeGraph) (e : TypeEntry) :
  lookupType t g = Ok e -> In (t, e) g.
Proof.
  induction g as [| [t' e'] g IH]; simpl; intros H; [discriminate H |].
  destruct (String.eqb_spec t t') as [-> | _].
  - injection H as ->. now left.
  - right. exact (IH H).
Qed.

Lemma tocTypeName_total (t : string) (e : TypeEntry) :
  defined (schema e) = true -> exists v, tocTypeName t e = Ok v.
Proof.
  intros Hd. unfold tocTypeName.
  destruct (get_defined (schema e) "typeName" Hd) as [x Hx]. rewrite Hx. simpl.
  destruct (defined x); eexists; reflexivity.
Qed.

Section TocTotal.

Variable g : TypeGraph.
Variable rank : string -> nat.
Hypothesis Hwf : closedAndRanked rank g = true.

Lemma entry_wf (p : string) (ep : TypeEntry) :
  lookupType p g = Ok ep ->
  defined (schema ep) = true /\
  forall c, In c (children ep) ->
    exists e, lookupType c g = Ok e /\
              (List.length (parents e) = 1%nat -> (rank c < rank p)%nat).
Proof.
  intros Hp. apply lookupType_In in Hp.
  unfold closedAndRanked in Hwf. rewrite forallb_forall in Hwf.
  specialize (Hwf _ Hp). simpl in Hwf.
  apply andb_prop in Hwf. destruct Hwf as [Hd Hc].
  split; [exact Hd |].
  intros c Hin. rewrite forallb_forall in Hc. specialize (Hc c Hin).
  destruct (lookupType c g) as [e |]; [| discriminate Hc].
  exists e. split; [reflexivity |].
  intros Hone. rewrite Hone in Hc. simpl in Hc. now apply Nat.ltb_lt.
Qed.

Lemma recursiveItems_total :
  forall (fuel : nat) (p : string) (d : Z) (ep : TypeEntry),
    lookupType p g = Ok ep -> (rank p < fuel)%nat ->
    exists items, recursiveItems fuel g p d = Ok items.
Proof.
  induction fuel as [| fuel IH]; intros p d ep Hp Hrank; [lia |].
  simpl. rewrite Hp. simpl.
  destruct (entry_wf p ep Hp) as [_ Hchildren].
  induction (children ep) as [| c r IHr]; simpl; [eexists; reflexivity |].
  destruct (Hchildren c (or_introl eq_refl)) as [e [He Hlt]].
  rewrite He. simpl.
  destruct IHr as [rest Hrest].
  { intros c' Hc'. apply Hchildren. now right. }
  destruct (Nat.eqb_spec (List.length (parents e)) 1) as [Hone | _].
  - destruct (entry_wf c e He) as [Hd _].
    destruct (tocTypeName_total c e Hd) as [v Hv]. rewrite Hv. simpl.
    destruct (IH c (d + 1) e He) as [sub Hsub]; [specialize (Hlt Hone); lia |].
    rewrite Hsub. simpl. rewrite Hrest. simpl. eexists; reflexivity.
  - exists rest. exact Hrest.
Qed.

Lemma tocItemsLoop_total (fuel : nat) (schema st : value) :
  get schema "title" = Ok st ->
  rankedBelow rank fuel g = true ->
  forall titles,
    (forall t, In t titles -> exists e, lookupType t g = Ok e) ->
    exists items, tocItemsLoop fuel schema g titles = Ok items.
Proof.
  intros Hst Hfuel.
  induction titles as [| t r IH]; intros Hin; simpl; [eexists; reflexivity |].
  destruct (Hin t (or_introl eq_refl)) as [e He].
  rewrite He. simpl. rewrite Hst. simpl.
  destruct IH as [rest Hrest]; [intros t' Ht'; apply Hin; now right |].
  rewrite Hrest.
  destruct (listedAtTop st t e); simpl; [| eexists; reflexivity].
  destruct (entry_wf t e He) as [Hd _].
  destruct (tocTypeName_total t e Hd) as [v Hv]. rewrite Hv. simpl.
  destruct (isString t st); simpl; [eexists; reflexivity |].
  destruct (recursiveItems_total fuel t 1 e He) as [sub Hsub].
  { unfold rankedBelow in Hfuel. rewrite forallb_forall in Hfuel.
    specialize (Hfuel _ (lookupType_In _ _ _ He)). now apply Nat.ltb_lt. }
  rewrite Hsub. simpl. eexists; reflexivity.
Qed.

End TocTotal.

Lemma lookupType_keys (g : TypeGraph) :
  forall t, In t (map fst g) -> exists e, lookupType t g = Ok e.
Proof.
  induction g as [| [t' e'] g IH]; intros t Hin; simpl in *; [contradiction |].
  destruct (String.eqb_spec t t') as [_ | Hne]; [eexists; reflexivity |].
  destruct Hin as [E | Hin]; [now subst | exact (IH t Hin)].
Qed.

(** On a graph that is closed and ranked, the table of contents is
    produced as soon as the fuel exceeds the ranks. *)
Lemma getTableOfContentsMarkdown_total (style : Style) (fuel : nat)
  (schema st : value) (g : TypeGraph) (headerLevel : Z) (rank : string -> nat) :
  get schema "title" = Ok st ->
  closedAndRanked rank g = true ->
  rankedBelow rank fuel g = true ->
  exists md, getTableOfContentsMarkdown style fuel schema g headerLevel = Ok md.
Proof.
  intros Hst Hwf Hfuel.
  rewrite getTableOfContentsMarkdown_items. unfold tocItems.
  destruct (tocItemsLoop_total g rank Hwf fuel schema st Hst Hfuel (map fst g)
              (lookupType_keys g)) as [items Hitems].
  rewrite Hitems. simpl. eexists; reflexivity.
Qed.

(** C7, amended: on a graph that is closed and ranked the table of contents
    is produced, and whenever it is produced it is the rendering of its
    entries, of which
    - a type of the graph has an entry at the top level if and only if its
      title is the title of the root, or it has more than one parent, or the
      root is one of its parents;
    - the mark "(root object)" is on the entry of the root at the top level
      and on no other entry: an entry of the root that is nested has none;
    - an entry nested under [q] stands for a child of [q] that has exactly
      one parent, and [q] has an entry other than the marked one;
    - under every entry other than the marked one, a nested entry of the
      root included, each child that has exactly one parent is nested, one
      level deeper, its label being its title without the first occurrence
      of the parent's title and a space;
    - so a type has a nested entry if and only if it has exactly one parent
      and this parent has an entry other than the marked one;
    - the entry that follows the marked one is at the top level: nothing is
      nested under it. *)
Theorem toc_structure :
  forall (style : Style) (fuel : nat) (schema : value) (g : TypeGraph)
         (headerLevel : Z),
    (forall rank st,
       get schema "title" = Ok st ->
       closedAndRanked rank g = true ->
       rankedBelow rank fuel g = true ->
       exists md,
         getTableOfContentsMarkdown style fuel schema g headerLevel = Ok md)
    /\
    (forall md,
       getTableOfContentsMarkdown style fuel schema g headerLevel = Ok md ->
       exists items,
         tocItems fuel schema g = Ok items /\
         md = getHeaderMarkdown style headerLevel ++ " Objects" ++ nl ++
              renderItems style items /\
         (forall t, TopLevel items t <->
                    (In t (map fst g) /\
                     exists e st, lookupType t g = Ok e /\
                                  get schema "title" = Ok st /\
                                  ListedAtTop st t e)) /\
         (forall it, In it items ->
            (item_root it = true <-> RootEntry schema it)) /\
         (forall it q, In it items -> item_parent it = Some q ->
            SingleParentChild g q (item_title it) /\
            exists itq, In itq items /\ item_title itq = q /\
                        ~ RootEntry schema itq) /\
         (forall itp, In itp items -> ~ RootEntry schema itp ->
            ChildrenNested g items itp) /\
         (forall c, Nested items c <->
            exists q itq, SingleParentChild g q c /\ In itq items /\
                          item_title itq = q /\ ~ RootEntry schema itq) /\
         (forall before it after,
            items = (before ++ it :: after)%list ->
            RootEntry schema it -> nothingNestedNext after)).
Proof.
  intros style fuel schema g headerLevel. split.
  - intros rank st Hst Hwf Hfuel.
    exact (getTableOfContentsMarkdown_total style fuel schema st g headerLevel
             rank Hst Hwf Hfuel).
  - intros md H.
    rewrite getTableOfContentsMarkdown_items in H.
    inv_bind H. rename a into items. injection H as <-.
    exists items. split; [exact Ha | split; [reflexivity |]].
    destruct (tocItemsLoop_shape g fuel schema (map fst g) items Ha)
      as [S1 [S2 S3]].
    pose proof (tocItemsLoop_mark g fuel schema (map fst g) items Ha) as M.
    assert (N1 : forall it q, In it items -> item_parent it = Some q ->
              SingleParentChild g q (item_title it) /\
              exists itq, In itq items /\ item_title itq = q /\
                          ~ RootEntry schema itq).
    { intros it q Hin Hq. destruct (S2 it q Hin Hq) as [Hs [itq [Hi [Ht Hr]]]].
      split; [exact Hs |]. exists itq. repeat split; auto.
      intros HR. apply (M itq Hi) in HR. rewrite HR in Hr. discriminate Hr. }
    assert (N2 : forall itp, In itp items -> ~ RootEntry schema itp ->
              ChildrenNested g items itp).
    { intros itp Hin HR. apply (S3 itp Hin).
      destruct (item_root itp) eqn:E; [| reflexivity].
      elim HR. now apply (M itp Hin). }
    split; [exact S1 | split; [exact M | split; [exact N1 | split; [exact N2 |]]]].
    split.
    + intros c. split.
      * intros [it [q [Hin [<- Hq]]]].
        destruct (N1 it q Hin Hq) as [Hs [itq [Hi [Ht HR]]]].
        exists q, itq. repeat split; auto.
      * intros [q [itq [Hs [Hi [<- HR]]]]].
        destruct (N2 itq Hi HR c Hs) as [it [Hin [Ht [Hp _]]]].
        exists it, (item_title itq). repeat split; auto.
    + intros before it after E HR.
      apply (tocItemsLoop_after_root g fuel schema (map fst g) items Ha
               before it after E).
      apply (M it); [| exact HR].
      rewrite E. apply in_or_app. right. now left.
Qed.

Lemma toc_structure_witness :
  exists md items,
    getTableOfContentsMarkdown (Plain.style Plain.initial) 3 RootChild.root
      RootBelow.graph 1 = Ok md /\
    tocItems 3 RootChild.root RootBelow.graph = Ok items /\
    TopLevel items "C" /\
    Nested items "Root" /\
    exists itp it,
      In itp items /\ In it items /\ NestedBelow itp it "C" /\
      item_title itp = "Root" /\ item_parent itp = Some "T" /\
      item_root itp = false /\ item_depth it = Some 2.
Proof.
  destruct (toc_structure (Plain.style Plain.initial) 3 RootChild.root
              RootBelow.graph 1) as [Htotal Hshape].
  destruct (Htotal RootBelow.rank (VStr "Root") eq_refl eq_refl eq_refl)
    as [md Hmd].
  destruct (Hshape md Hmd)
    as [items [Hitems [_ [Htop [_ [_ [Hnest [Hiff _]]]]]]]].
  exists md, items. split; [exact Hmd |]. split; [exact Hitems |].
  vm_compute in Hitems. injection Hitems as Hitems.
  pose (itt := {| item_title := "T"; item_parent := None; item_label := "T";
                  item_typeName := VStr "t"; item_depth := None;
                  item_root := false |}).
  pose (itp := {| item_title := "Root"; item_parent := Some "T";
                  item_label := "Root"; item_typeName := VStr "root";
                  item_depth := Some 1; item_root := false |}).
  assert (Hitt : In itt items) by (rewrite <- Hitems; simpl; tauto).
  assert (Hitp : In itp items) by (rewrite <- Hitems; simpl; tauto).
  split; [| split].
  - apply Htop. split; [simpl; tauto |].
    eexists. exists (VStr "Root"). split; [reflexivity | split; [reflexivity |]].
    right. right. exists "Root". split; [now left | reflexivity].
  - apply Hiff. exists "T", itt. split; [| split; [exact Hitt | split]].
    + eexists. eexists. repeat split; try reflexivity. simpl. tauto.
    + reflexivity.
    + intros [_ E]. discriminate E.
  - destruct (Hnest itp Hitp) with (c := "C") as [it [Hi Hn]].
    + intros [E _]. discriminate E.
    + eexists. eexists. repeat split; try reflexivity. simpl. tauto.
    + exists itp, it. repeat split; try exact Hitp; try exact Hi; try apply Hn.
Defined.

(* ------------------------------------------------------------------ *)
(** * Further properties *)

(** ** The type of a property *)

Lemma anyOfType_first (before after : list value) (b t type : value) :
  Forall untypedBranch before ->
  get b "type" = Ok t -> defined t = true ->
  anyOfType (before ++ b :: after)%list type = Ok t.
Proof.
  intros Hbefore Hb Ht. revert type.
  induction Hbefore as [| x before [u [Hu Hd]] _ IH]; intros type; simpl.
  - rewrite Hb. simpl. now rewrite Ht.
  - rewrite Hu. simpl. rewrite Hd. apply IH.
Qed.

Lemma anyOfType_none (branches : list value) :
  Forall untypedBranch branches ->
  forall type, defined type = false ->
  exists u, anyOfType branches type = Ok u /\ defined u = false.
Proof.
  induction 1 as [| x branches [u [Hu Hd]] _ IH]; intros type Htype; simpl.
  - exists type. split; [reflexivity | exact Htype].
  - rewrite Hu. simpl. rewrite Hd. exact (IH u Hd).
Qed.

Lemma elements_defined (v : value) (x : value) (l : list value) :
  elements v = x :: l -> defined v = true.
Proof. destruct v; simpl; intros H; try discriminate H; reflexivity. Qed.

(** The type of a schema is its [typeName] when that is defined, else its
    [type] when that is defined, else the [type] of the first branch of
    [anyOf] that defines one: the branches after it are not read, so that
    nothing they hold can make the call fail.  When no branch defines a
    type, the result is not defined. *)
Theorem getPropertyType_first_match :
  forall (schema typeName type : value),
    get schema "typeName" = Ok typeName ->
    get schema "type" = Ok type ->
    (defined typeName = true -> getPropertyType schema = Ok typeName)
    /\ (defined typeName = false -> defined type = true ->
        getPropertyType schema = Ok type)
    /\ (defined typeName = false -> defined type = false ->
        forall (anyOf : value) (before : list value) (b : value)
               (after : list value) (t : value),
          get schema "anyOf" = Ok anyOf ->
          elements anyOf = (before ++ b :: after)%list ->
          Forall untypedBranch before ->
          get b "type" = Ok t -> defined t = true ->
          getPropertyType schema = Ok t)
    /\ (defined typeName = false -> defined type = false ->
        forall anyOf,
          get schema "anyOf" = Ok anyOf ->
          Forall untypedBranch (elements anyOf) ->
          exists u, getPropertyType schema = Ok u /\ defined u = false).
Proof.
  intros schema typeName type HtypeName Htype.
  unfold getPropertyType. rewrite HtypeName. simpl.
  split; [| split; [| split]].
  - intros ->. reflexivity.
  - intros -> Hd. rewrite Htype. simpl. now rewrite Hd.
  - intros -> Hd anyOf before b after t HanyOf Hel Hbefore Hb Ht.
    rewrite Htype. simpl. rewrite Hd, HanyOf. simpl.
    assert (Hdef : defined anyOf = true).
    { destruct before; simpl in Hel; exact (elements_defined _ _ _ Hel). }
    rewrite Hdef. simpl. rewrite Hel.
    exact (anyOfType_first before after b t type Hbefore Hb Ht).
  - intros -> Hd anyOf HanyOf Hall.
    rewrite Htype. simpl. rewrite Hd, HanyOf. simpl.
    destruct (defined anyOf); simpl.
    + exact (anyOfType_none _ Hall type Hd).
    + exists VUndef. split; reflexivity.
Qed.

Lemma getPropertyType_first_match_witness :
  getPropertyType
    (VObj [("anyOf", VArr [VObj [("description", VStr "a")];
                           VObj [("type", VStr "integer")];
                           VNull])])
  = Ok (VStr "integer").
Proof.
  refine (proj1 (proj2 (proj2 (getPropertyType_first_match
                                 (VObj [("anyOf",
                                         VArr [VObj [("description", VStr "a")];
                                               VObj [("type", VStr "integer")];
                                               VNull])])
                                 VUndef VUndef eq_refl eq_refl)))
            eq_refl eq_refl _ [VObj [("description", VStr "a")]]
            (VObj [("type", VStr "integer")]) [VNull] (VStr "integer")
            eq_refl eq_refl _ eq_refl eq_refl).
  constructor; [| constructor].
  exists VUndef. split; reflexivity.
Defined.

(** The base of the type of an array, before the cardinality. *)
Lemma getPropertySummary_array_inv (style : Style) (knownTypes : list string)
  (autoLink property : value) (summary : PropertySummary) :
  getPropertySummary style knownTypes autoLink property = Ok summary ->
  forall t, getPropertyType property = Ok t ->
  strictEq (defaultValue t (VStr "any")) (VStr "array") = true ->
  exists suffix items itemsType base,
    arrayInfo property = Ok suffix /\
    get property "items" = Ok items /\
    (if defined items then get items "type" else Ok VUndef) = Ok itemsType /\
    (if (defined items && defined itemsType)%bool then
       if strictEq itemsType (VStr "object") then
         exists tn, getPropertyType items = Ok tn /\ base = toStr tn
       else base = toStr itemsType
     else base = toStr (defaultValue t (VStr "any"))) /\
    s_type summary = VStr (base ++ suffix) /\
    s_formattedType summary = VStr (typeValue style (VStr (base ++ suffix))).
Proof.
  unfold getPropertySummary. intros H t Ht Harr.
  rewrite Ht in H. simpl in H. rewrite Harr in H.
  inv_bind H. destruct a as [type formattedType].
  inv_bind H. inv_bind H. injection H as <-. simpl.
  inv_bind Ha. rename a1 into suffix, Ha2 into Hsuffix.
  inv_bind Ha. rename a1 into items, Ha2 into Hitems.
  inv_bind Ha. rename a1 into itemsType, Ha2 into HitemsType.
  exists suffix, items, itemsType.
  destruct (defined items && defined itemsType)%bool.
  - destruct (strictEq itemsType (VStr "object")).
    + inv_bind Ha. rename a1 into tn. injection Ha as <- <-.
      exists (toStr tn). repeat split; auto. exists tn. split; auto.
    + injection Ha as <- <-. exists (toStr itemsType). repeat split; auto.
  - injection Ha as <- <-. exists (toStr (defaultValue t (VStr "any"))).
    repeat split; auto.
Qed.

Lemma getPropertySummary_type (style : Style) (knownTypes : list string)
  (autoLink property : value) (summary : PropertySummary) :
  getPropertySummary style knownTypes autoLink property = Ok summary ->
  exists t,
    getPropertyType property = Ok t /\
    ((strictEq (defaultValue t (VStr "any")) (VStr "array") = false /\
      s_type summary = defaultValue t (VStr "any") /\
      s_formattedType summary
      = linkType style (VStr (typeValue style (defaultValue t (VStr "any"))))
          (defaultValue t (VStr "any")) autoLink)
     \/
     (strictEq (defaultValue t (VStr "any")) (VStr "array") = true /\
      exists base,
        s_type summary = VStr base /\
        s_formattedType summary = VStr (typeValue style (VStr base)))).
Proof.
  intros H.
  assert (Ht : exists t, getPropertyType property = Ok t).
  { unfold getPropertySummary in H. inv_bind H. now exists a. }
  destruct Ht as [t Ht]. exists t. split; [exact Ht |].
  destruct (strictEq (defaultValue t (VStr "any")) (VStr "array")) eqn:Harr.
  - right. split; [reflexivity |].
    destruct (getPropertySummary_array_inv _ _ _ _ _ H t Ht Harr)
      as [suffix [items [itemsType [base [_ [_ [_ [_ [H1 H2]]]]]]]]].
    exists (base ++ suffix). split; assumption.
  - left. split; [reflexivity |].
    unfold getPropertySummary in H. rewrite Ht in H. simpl in H.
    rewrite Harr in H. simpl in H.
    inv_bind H. inv_bind H. injection H as <-. split; reflexivity.
Qed.

(** The type of a descriptor is always defined: a property that gives no
    type (no [typeName], no [type], no typed branch of [anyOf]) has the
    type "any", shown through the style as any other type. *)
Theorem getPropertySummary_type_defaults_to_any :
  forall (style : Style) (knownTypes : list string) (autoLink : value)
         (property : value) (summary : PropertySummary),
    getPropertySummary style knownTypes autoLink property = Ok summary ->
    defined (s_type summary) = true
    /\ (forall t, getPropertyType property = Ok t -> defined t = false ->
          s_type summary = VStr "any" /\
          s_formattedType summary
          = linkType style (VStr (typeValue style (VStr "any"))) (VStr "any")
              autoLink).
Proof.
  intros style knownTypes autoLink property summary H.
  destruct (getPropertySummary_type _ _ _ _ _ H)
    as [t [Ht [[Harr [Hty Hfmt]] | [Harr [base [Hty Hfmt]]]]]].
  - split.
    + rewrite Hty. unfold defaultValue. destruct (defined t) eqn:Hd;
        [exact Hd | reflexivity].
    + intros t' Ht' Hd. rewrite Ht in Ht'. injection Ht' as <-.
      unfold defaultValue in Hty, Hfmt. rewrite Hd in Hty, Hfmt.
      split; assumption.
  - split; [rewrite Hty; reflexivity |].
    intros t' Ht' Hd. rewrite Ht in Ht'. injection Ht' as <-.
    unfold defaultValue in Harr. rewrite Hd in Harr. discriminate Harr.
Qed.

Lemma getPropertySummary_type_defaults_to_any_witness :
  exists summary,
    getPropertySummary (Plain.style Plain.initial) [] VUndef
      (VObj [("description", VStr "anything")]) = Ok summary /\
    defined (s_type summary) = true /\ s_type summary = VStr "any".
Proof.
  eexists. split; [reflexivity |].
  destruct (getPropertySummary_type_defaults_to_any (Plain.style Plain.initial)
              [] VUndef (VObj [("description", VStr "anything")]) _ eq_refl)
    as [Hd Hany].
  split; [exact Hd | exact (proj1 (Hany VUndef eq_refl eq_refl))].
Defined.

(** The type of an array is named after its elements: after the [typeName]
    of [items] when these are objects and have one, after the [type] of
    [items] otherwise (a [typeName] of elements that are not objects is not
    used), and it is "array" when [items] is absent or gives no type. *)
Theorem getPropertySummary_array_base :
  forall (style : Style) (knownTypes : list string) (autoLink : value)
         (property : value) (summary : PropertySummary)
         (items itemsType typeName : value) (suffix : string),
    getPropertySummary style knownTypes autoLink property = Ok summary ->
    getPropertyType property = Ok (VStr "array") ->
    arrayInfo property = Ok suffix ->
    get property "items" = Ok items ->
    (if defined items then get items "type" else Ok VUndef) = Ok itemsType ->
    (if defined items then get items "typeName" else Ok VUndef) = Ok typeName ->
    s_type summary = VStr (arrayBase itemsType typeName ++ suffix).
Proof.
  intros style knownTypes autoLink property summary items itemsType typeName
         suffix H Ht Hsuffix Hitems HitemsType HtypeName.
  destruct (getPropertySummary_array_inv _ _ _ _ _ H _ Ht eq_refl)
    as [suffix' [items' [itemsType' [base [Hs [Hi [Hit [Hbase [Hty _]]]]]]]]].
  rewrite Hsuffix in Hs. injection Hs as <-.
  rewrite Hitems in Hi. injection Hi as <-.
  rewrite HitemsType in Hit. injection Hit as <-.
  rewrite Hty. f_equal. f_equal. unfold arrayBase.
  destruct (defined items) eqn:Hdi; simpl in Hbase.
  - destruct (defined itemsType) eqn:Hdt; [| exact Hbase].
    destruct (strictEq itemsType (VStr "object")) eqn:Hobj; [| exact Hbase].
    destruct Hbase as [tn [Htn ->]].
    unfold getPropertyType in Htn. rewrite HtypeName in Htn. simpl in Htn.
    destruct (defined typeName); [injection Htn as <-; reflexivity |].
    rewrite HitemsType in Htn. simpl in Htn. rewrite Hdt in Htn.
    injection Htn as <-.
    destruct itemsType; try discriminate Hobj. simpl in Hobj.
    apply String.eqb_eq in Hobj. now subst.
  - injection HitemsType as <-. exact Hbase.
Qed.

Lemma getPropertySummary_array_base_witness :
  exists summary,
    getPropertySummary (Plain.style Plain.initial) [] VUndef
      (VObj [("type", VStr "array");
             ("items", VObj [("type", VStr "string"); ("typeName", VStr "Name")]);
             ("minItems", VNum 2)]) = Ok summary /\
    s_type summary = VStr "string[2-*]".
Proof.
  eexists. split; [reflexivity |].
  exact (getPropertySummary_array_base (Plain.style Plain.initial) [] VUndef
           (VObj [("type", VStr "array");
                  ("items", VObj [("type", VStr "string");
                                  ("typeName", VStr "Name")]);
                  ("minItems", VNum 2)])
           _ _ (VStr "string") (VStr "Name") "[2-*]"
           eq_refl eq_refl eq_refl eq_refl eq_refl eq_refl).
Defined.

(* ------------------------------------------------------------------ *)
(** ** Enumerations *)

Lemma anyOfEnumLoop_readable (style : Style) (type : value) (depth : Z) :
  forall branches s,
    anyOfEnumLoop style branches type depth = Ok s ->
    Forall (fun b => defined b = true) branches.
Proof.
  induction branches as [| b r IH]; intros s H; [constructor |].
  simpl in H. inv_bind H.
  assert (Hb : defined b = true) by (destruct b; try discriminate Ha; reflexivity).
  inv_bind H. inv_bind H.
  destruct (defined a).
  - inv_bind H. constructor; [exact Hb | exact (IH _ Ha2)].
  - destruct a0 as [| | ? | ? | ? | l | ?]; try (constructor; [exact Hb | exact (IH _ H)]).
    destruct l as [| first others]; [constructor; [exact Hb | exact (IH _ H)] |].
    inv_bind H. constructor; [exact Hb | exact (IH _ Ha2)].
Qed.

(** [getEnumString] gives no enumeration exactly when the schema defines
    neither [enum] nor [anyOf].  A defined [enum] is always rendered, and
    [anyOf] is then not read; a defined [anyOf] gives an enumeration, be it
    empty, as soon as each of its branches can be read. *)
Theorem getEnumString_defined :
  forall (style : Style) (schema type : value) (depth : Z)
         (propertyEnum propertyAnyOf : value),
    get schema "enum" = Ok propertyEnum ->
    get schema "anyOf" = Ok propertyAnyOf ->
    (defined propertyEnum = true ->
     exists s, getEnumString style schema type depth = Ok (Some s))
    /\ (forall r, getEnumString style schema type depth = Ok r ->
          (r = None <->
           defined propertyEnum = false /\ defined propertyAnyOf = false))
    /\ (defined propertyEnum = false -> defined propertyAnyOf = true ->
        forall s, getEnumString style schema type depth = Ok (Some s) ->
                  Forall (fun b => defined b = true) (elements propertyAnyOf)).
Proof.
  intros style schema type depth propertyEnum propertyAnyOf Henum HanyOf.
  unfold getEnumString, getAnyOfEnumString. rewrite Henum. simpl.
  split; [| split].
  - intros ->. simpl.
    destruct (get_total _ _ "gltf_enumNames" _ Henum) as [names Hnames].
    rewrite Hnames. simpl. eexists; reflexivity.
  - intros r H. destruct (defined propertyEnum); simpl in H.
    + inv_bind H. injection H as <-.
      split; [intros E; discriminate E | intros [E _]; discriminate E].
    + rewrite HanyOf in H. simpl in H.
      destruct (defined propertyAnyOf); simpl in H.
      * inv_bind H. injection H as <-.
        split; [intros E; discriminate E | intros [_ E]; discriminate E].
      * injection H as <-. split; [intros _; split; reflexivity | reflexivity].
  - intros -> Hd s H. simpl in H. rewrite HanyOf in H. simpl in H.
    rewrite Hd in H. simpl in H. inv_bind H.
    exact (anyOfEnumLoop_readable _ _ _ _ _ Ha).
Qed.

Lemma getEnumString_defined_witness :
  getEnumString (Plain.style Plain.initial)
    (VObj [("anyOf", VArr [VObj [("type", VStr "string")];
                           VObj [("type", VStr "number")]])])
    (VStr "string") 1 = Ok (Some "")
  /\ exists s,
       getEnumString (Plain.style Plain.initial)
         (VObj [("enum", VArr [VNum 1]); ("anyOf", VArr [VNull])])
         (VStr "integer") 1 = Ok (Some s).
Proof.
  split; [reflexivity |].
  exact (proj1 (getEnumString_defined (Plain.style Plain.initial)
                  (VObj [("enum", VArr [VNum 1]); ("anyOf", VArr [VNull])])
                  (VStr "integer") 1 (VArr [VNum 1]) (VArr [VNull])
                  eq_refl eq_refl) eq_refl).
Defined.

Lemma enumLoop_named (style : Style) (type : value) (depth : Z)
  (extra : list value) :
  forall (named names : list value) (before : list value),
    List.length names = List.length named ->
    enumLoop style (named ++ extra) (List.length before) (VArr (before ++ names))
      type depth
    = namedBullets style type depth
        (combine named names ++ map (fun v => (v, VUndef)) extra).
Proof.
  induction named as [| v named IH]; intros names before Hlen.
  - destruct names; [| discriminate Hlen]. simpl. rewrite app_nil_r.
    revert before. induction extra as [| v extra IHe]; intros before; simpl;
      [reflexivity |].
    rewrite nth_overflow by lia. simpl.
    f_equal.
    specialize (IHe (before ++ [VUndef])%list).
    rewrite length_app in IHe. simpl in IHe.
    rewrite Nat.add_1_r in IHe.
    assert (E : forall i, enumLoop style extra i (VArr before) type depth
                          = enumLoop style extra i
                              (VArr (before ++ [VUndef])) type depth).
    { clear IHe. induction extra as [| w extra IHw]; intros i; simpl;
        [reflexivity |].
      rewrite IHw. f_equal. f_equal. f_equal. f_equal.
      destruct (Nat.lt_ge_cases i (List.length before)) as [Hlt | Hge].
      - now rewrite app_nth1.
      - rewrite nth_overflow by lia.
        rewrite app_nth2 by lia.
        destruct (i - List.length before)%nat as [| [| k]]; reflexivity. }
    rewrite E. exact IHe.
  - destruct names as [| n names]; [discriminate Hlen |].
    simpl. rewrite app_nth2 by lia. rewrite Nat.sub_diag. simpl.
    f_equal.
    specialize (IH names (before ++ [n])%list ltac:(now injection Hlen)).
    rewrite length_app in IH. simpl in IH. rewrite Nat.add_1_r in IH.
    rewrite <- app_assoc in IH. simpl in IH. exact IH.
Qed.

Lemma enumLoop_bare (style : Style) (type : value) (depth : Z)
  (names : value) :
  defined names = false ->
  forall values i,
    enumLoop style values i names type depth = bareBullets style type depth values.
Proof.
  intros Hd. induction values as [| v values IH]; intros i; simpl;
    [reflexivity |].
  rewrite Hd, IH. now rewrite append_empty_r.
Qed.

Lemma enumLoop_named_prefix (style : Style) (type : value) (depth : Z)
  (unused : list value) :
  forall (values names before : list value),
    List.length names = List.length values ->
    enumLoop style values (List.length before)
      (VArr (before ++ names ++ unused)) type depth
    = namedBullets style type depth (combine values names).
Proof.
  induction values as [| v values IH]; intros names before Hlen;
    [reflexivity |].
  destruct names as [| n names]; [discriminate Hlen |].
  simpl. rewrite app_nth2 by lia. rewrite Nat.sub_diag. simpl.
  f_equal.
  specialize (IH names (before ++ [n])%list ltac:(now injection Hlen)).
  rewrite length_app in IH. simpl in IH. rewrite Nat.add_1_r in IH.
  rewrite <- app_assoc in IH. simpl in IH. exact IH.
Qed.

(** The names of [gltf_enumNames] are matched to the values of [enum] by
    position, whatever the two lengths: when the names are not more than
    the values, the values beyond the names are followed by "undefined";
    when the names are not fewer than the values, the names beyond the
    values are not shown.  Without names each value has its bare bullet. *)
Theorem getEnumString_names_by_position :
  forall (style : Style) (schema type : value) (depth : Z)
         (named extra names unused : list value) (enumNames : value),
    get schema "enum" = Ok (VArr (named ++ extra)) ->
    get schema "gltf_enumNames" = Ok enumNames ->
    (enumNames = VArr names -> List.length names = List.length named ->
     getEnumString style schema type depth
     = Ok (Some (namedBullets style type depth
                   (combine named names ++ map (fun v => (v, VUndef)) extra))))
    /\ (enumNames = VArr (names ++ unused) ->
        List.length names = List.length (named ++ extra) ->
        getEnumString style schema type depth
        = Ok (Some (namedBullets style type depth
                      (combine (named ++ extra) names))))
    /\ (defined enumNames = false ->
        getEnumString style schema type depth
        = Ok (Some (bareBullets style type depth (named ++ extra)))).
Proof.
  intros style schema type depth named extra names unused enumNames
         Henum Hnames.
  unfold getEnumString. rewrite Henum. simpl. rewrite Hnames. simpl.
  split; [| split].
  - intros -> Hlen. do 2 f_equal.
    exact (enumLoop_named style type depth extra named names [] Hlen).
  - intros -> Hlen. do 2 f_equal.
    exact (enumLoop_named_prefix style type depth unused (named ++ extra) names
             [] Hlen).
  - intros Hd. do 2 f_equal. exact (enumLoop_bare style type depth _ Hd _ 0%nat).
Qed.

Lemma getEnumString_names_by_position_witness :
  getEnumString (Plain.style Plain.initial)
    (VObj [("enum", VArr [VNum 0; VNum 1; VNum 2]);
           ("gltf_enumNames", VArr [VStr "POINTS"; VStr "LINES"])])
    (VStr "integer") 1
  = Ok (Some ("    * 0 POINTS" ++ nl ++ "    * 1 LINES" ++ nl ++
              "    * 2 undefined" ++ nl))
  /\
  getEnumString (Plain.style Plain.initial)
    (VObj [("enum", VArr [VNum 0; VNum 1]);
           ("gltf_enumNames",
            VArr [VStr "POINTS"; VStr "LINES"; VStr "LINE_LOOP"])])
    (VStr "integer") 1
  = Ok (Some ("    * 0 POINTS" ++ nl ++ "    * 1 LINES" ++ nl)).
Proof.
  split.
  - exact (proj1 (getEnumString_names_by_position (Plain.style Plain.initial)
                    (VObj [("enum", VArr [VNum 0; VNum 1; VNum 2]);
                           ("gltf_enumNames",
                            VArr [VStr "POINTS"; VStr "LINES"])])
                    (VStr "integer") 1 [VNum 0; VNum 1] [VNum 2]
                    [VStr "POINTS"; VStr "LINES"] [] _ eq_refl eq_refl)
             eq_refl eq_refl).
  - exact (proj1 (proj2
             (getEnumString_names_by_position (Plain.style Plain.initial)
                (VObj [("enum", VArr [VNum 0; VNum 1]);
                       ("gltf_enumNames",
                        VArr [VStr "POINTS"; VStr "LINES"; VStr "LINE_LOOP"])])
                (VStr "integer") 1 [VNum 0; VNum 1] []
                [VStr "POINTS"; VStr "LINES"] [VStr "LINE_LOOP"] _
                eq_refl eq_refl))
             eq_refl eq_refl).
Defined.

(* ------------------------------------------------------------------ *)
(** ** The document of an object type *)

(** The parts of the document of an object type that is fully expanded. *)
Lemma getSchemaMarkdown_object_inv (style : Style) (knownTypes : list string)
  (autoLink : value) (fs : list (string * value)) (fileName : value)
  (headerLevel : Z) (suppressWarnings : bool) (base : option string)
  (embedMode : EmbedMode) (md : string) (schema' : value) :
  getSchemaMarkdown style knownTypes autoLink (VObj fs) fileName headerLevel
    suppressWarnings base embedMode = Ok (md, schema') ->
  assoc "type" fs = VStr "object" ->
  EmbedMode_eqb embedMode writeIncludeStatements = false ->
  exists before summary after details title,
    createPropertiesSummary style knownTypes autoLink (VObj fs) = Ok summary /\
    createPropertiesDetails style knownTypes autoLink (VObj fs) title
      (headerLevel + 1) = Ok (details, schema') /\
    md = before ++ summary ++
         additionalPropertiesStatement (assoc "additionalProperties" fs) ++ after.
Proof.
  intros H Htype Hembed. unfold getSchemaMarkdown in H.
  rewrite Hembed in H. cbn [bind get] in H. rewrite Htype in H.
  change (strictEq (VStr "object") (VStr "object")) with true in H.
  cbv iota in H.
  inv_bind H. rename a into summary.
  inv_bind H. destruct a as [details s'].
  inv_bind H. rename a into examples.
  match type of H with
  | Ok ((((?B ++ _) ++ _) ++ ?L) ++ _, _) = _ =>
      exists B, summary, (L ++ details ++ examples), details
  end.
  eexists. split; [exact Ha | ].
  injection H as <- <-. split; [exact Ha0 |].
  unfold additionalPropertiesStatement.
  rewrite !append_assoc. reflexivity.
Qed.

Lemma append_nonempty (a b c : string) : b <> "" -> a ++ b ++ c <> "".
Proof.
  intros Hb E. apply (f_equal String.length) in E.
  rewrite !length_append in E. simpl in E.
  destruct b; [now apply Hb | simpl in E; lia].
Qed.

(** The document of an object type that is fully expanded holds the
    sentence on additional properties, after the summary table: "not
    allowed" when [additionalProperties] is defined and falsy, "allowed"
    otherwise, also when it is a schema.  Such a document is never
    empty. *)
Theorem getSchemaMarkdown_additional_properties :
  forall (style : Style) (knownTypes : list string) (autoLink : value)
         (fs : list (string * value)) (fileName : value) (headerLevel : Z)
         (suppressWarnings : bool) (base : option string)
         (embedMode : EmbedMode) (md : string) (schema' : value),
    getSchemaMarkdown style knownTypes autoLink (VObj fs) fileName headerLevel
      suppressWarnings base embedMode = Ok (md, schema') ->
    assoc "type" fs = VStr "object" ->
    embedMode <> writeIncludeStatements ->
    md <> "" /\
    exists before summary after,
      createPropertiesSummary style knownTypes autoLink (VObj fs) = Ok summary /\
      md = before ++ summary ++
           (if (defined (assoc "additionalProperties" fs)
                && negb (truthy (assoc "additionalProperties" fs)))%bool
            then "Additional properties are not allowed." ++ nl ++ nl
            else "Additional properties are allowed." ++ nl ++ nl) ++ after.
Proof.
  intros style knownTypes autoLink fs fileName headerLevel suppressWarnings base
         embedMode md schema' H Htype Hembed.
  assert (He : EmbedMode_eqb embedMode writeIncludeStatements = false)
    by (destruct embedMode; try reflexivity; now elim Hembed).
  destruct (getSchemaMarkdown_object_inv _ _ _ _ _ _ _ _ _ _ _ H Htype He)
    as [before [summary [after [details [title [Hs [_ Hmd]]]]]]].
  split.
  - rewrite Hmd. rewrite <- append_assoc. apply append_nonempty.
    unfold additionalPropertiesStatement.
    destruct (defined _ && negb _)%bool; intros E; discriminate E.
  - exists before, summary, after. split; [exact Hs | exact Hmd].
Qed.

Lemma getSchemaMarkdown_additional_properties_witness :
  exists md schema',
    getSchemaMarkdown (Plain.style Plain.initial) [] VUndef
      (VObj [("title", VStr "Closed"); ("type", VStr "object");
             ("additionalProperties", VBool false)])
      (VStr "closed.schema.json") 2 false None fullExpansion = Ok (md, schema')
    /\ md <> ""
    /\ includes ("Additional properties are not allowed." ++ nl ++ nl) md = true.
Proof.
  eexists. eexists. split; [vm_compute; reflexivity |].
  split; [| vm_compute; reflexivity].
  refine (proj1 (getSchemaMarkdown_additional_properties
                   (Plain.style Plain.initial) [] VUndef
                   [("title", VStr "Closed"); ("type", VStr "object");
                    ("additionalProperties", VBool false)]
                   (VStr "closed.schema.json") 2 false None fullExpansion
                   _ _ _ eq_refl _)).
  - vm_compute. reflexivity.
  - intros E. discriminate E.
Defined.

Lemma assoc_defined_nonempty (k : string) (ps : list (string * value)) :
  assoc k ps <> VUndef -> exists n p r, ps = (n, p) :: r.
Proof.
  destruct ps as [| [n p] r]; simpl; intros H; [now elim H |].
  now exists n, p, r.
Qed.

(** A type that has a property called [hasOwnProperty] cannot be
    documented: the guard of the loop over the properties calls the
    property instead of the method, and rendering the type throws a
    TypeError. *)
Theorem getSchemaMarkdown_hasOwnProperty_throws :
  forall (style : Style) (knownTypes : list string) (autoLink : value)
         (fs ps : list (string * value)) (fileName : value) (headerLevel : Z)
         (suppressWarnings : bool) (base : option string)
         (embedMode : EmbedMode),
    assoc "type" fs = VStr "object" ->
    assoc "properties" fs = VObj ps ->
    assoc "hasOwnProperty" ps <> VUndef ->
    embedMode <> writeIncludeStatements ->
    getSchemaMarkdown style knownTypes autoLink (VObj fs) fileName headerLevel
      suppressWarnings base embedMode = Throw TypeError.
Proof.
  intros style knownTypes autoLink fs ps fileName headerLevel suppressWarnings
         base embedMode Htype Hprops Hown Hembed.
  assert (He : EmbedMode_eqb embedMode writeIncludeStatements = false)
    by (destruct embedMode; try reflexivity; now elim Hembed).
  unfold getSchemaMarkdown. rewrite He. cbn [bind get]. rewrite Htype.
  change (strictEq (VStr "object") (VStr "object")) with true. cbv iota.
  unfold createPropertiesSummary. cbn [bind get]. rewrite Hprops.
  destruct (assoc_defined_nonempty _ _ Hown) as [n [p [r E]]].
  assert (Hloop : summaryLoop style knownTypes autoLink (VObj ps)
                    (ownEntries (VObj ps)) = Throw TypeError).
  { cbn [ownEntries]. rewrite E at 2. cbn [summaryLoop hasOwnProperty].
    destruct (assoc "hasOwnProperty" ps); [now elim Hown | | | | | |];
      reflexivity. }
  rewrite Hloop.
  cbn [keysLength ownEntries bind]. rewrite E. reflexivity.
Qed.

Lemma getSchemaMarkdown_hasOwnProperty_throws_witness :
  getSchemaMarkdown (Plain.style Plain.initial) [] VUndef
    (VObj [("title", VStr "Proxy"); ("type", VStr "object");
           ("properties",
            VObj [("target", VObj [("type", VStr "string")]);
                  ("hasOwnProperty", VObj [("type", VStr "boolean")])])])
    (VStr "proxy.schema.json") 2 false None fullExpansion = Throw TypeError.
Proof.
  apply (getSchemaMarkdown_hasOwnProperty_throws (Plain.style Plain.initial) []
           VUndef _ [("target", VObj [("type", VStr "string")]);
                     ("hasOwnProperty", VObj [("type", VStr "boolean")])]);
    try reflexivity; intros E; discriminate E.
Defined.

(* ------------------------------------------------------------------ *)
(** ** The files of a run *)

(** The schema a render leaves, as the proof of the frame property has
    it. *)
Lemma getSchemaMarkdown_schema (style : Style) (knownTypes : list string)
  (autoLink schema fileName : value) (headerLevel : Z)
  (suppressWarnings : bool) (base : option string) (embedMode : EmbedMode)
  (md : string) (schema' : value) :
  getSchemaMarkdown style knownTypes autoLink schema fileName headerLevel
    suppressWarnings base embedMode = Ok (md, schema') ->
  schema' = schema \/ schema' = downgradedSchema schema.
Proof.
  intros H. unfold getSchemaMarkdown in H.
  destruct schema as [| | b | n | s | l | fs];
    try (injection H as _ <-; now left);
    (destruct (EmbedMode_eqb embedMode writeIncludeStatements);
     [injection H as _ <-; now left |]);
    inv_bind H; inv_bind H; inv_bind H; inv_bind H;
    (destruct (strictEq a1 (VStr "object")) eqn:Hobj;
     [| injection H as _ <-; now left]);
    simpl in Ha1; try discriminate Ha1;
    try (injection Ha1 as <-; try destruct (String.eqb "type" "length");
         discriminate Hobj).
  inv_bind H. inv_bind H. inv_bind H. inv_bind H.
  destruct a6 as [details s']. inv_bind H. injection H as _ <-.
  right.
  exact (createPropertiesDetails_downgraded _ _ _ _ _ _ fs _ _ eq_refl Ha6).
Qed.

Lemma downgradedSchema_get (schema : value) (k : string) :
  k <> "properties" -> get (downgradedSchema schema) k = get schema k.
Proof.
  intros Hk. unfold downgradedSchema.
  destruct schema as [| | b | n | s | l | fs]; try reflexivity.
  destruct (assoc "properties" fs); try reflexivity;
    apply (get_setProp_other "properties" k _ (VObj fs) Hk).
Qed.

Lemma object_document_nonempty (style : Style) (knownTypes : list string)
  (autoLink : value) (fs : list (string * value)) (fileName : value)
  (headerLevel : Z) (suppressWarnings : bool) (base : option string)
  (embedMode : EmbedMode) (md : string) (schema' : value) :
  getSchemaMarkdown style knownTypes autoLink (VObj fs) fileName headerLevel
    suppressWarnings base embedMode = Ok (md, schema') ->
  assoc "type" fs = VStr "object" ->
  embedMode <> writeIncludeStatements ->
  String.eqb md "" = false.
Proof.
  intros H Htype Hembed.
  assert (He : EmbedMode_eqb embedMode writeIncludeStatements = false)
    by (destruct embedMode; try reflexivity; now elim Hembed).
  destruct (getSchemaMarkdown_object_inv _ _ _ _ _ _ _ _ _ _ _ H Htype He)
    as [before [summary [after [details [title [_ [_ Hmd]]]]]]].
  apply String.eqb_neq. rewrite Hmd. rewrite <- append_assoc.
  apply append_nonempty. unfold additionalPropertiesStatement.
  destruct (defined _ && negb _)%bool; intros E; discriminate E.
Qed.

Lemma lookupType_setSchema_other (title t : string) (s : value) (g : TypeGraph) :
  title <> t -> lookupType title (setSchema t s g) = lookupType title g.
Proof.
  intros Hne. induction g as [| [t' e'] g IH]; simpl; [reflexivity |].
  destruct (String.eqb_spec t t') as [<- | Hne'].
  - simpl. destruct (String.eqb_spec title t); [contradiction | reflexivity].
  - simpl. destruct (String.eqb title t'); [reflexivity | exact IH].
Qed.

(** A type that is an object, fully expanded, with neither a [typeName]
    nor a string as [title], stops the run: its document is not empty and
    the name of its file cannot be formed.  No warning stands in for the
    missing title here. *)
Theorem renderLoop_untitled_type_aborts :
  forall (style : Style) (options : Options) (descending : TypeGraph)
         (titles : list string) (g : TypeGraph) (title : string)
         (entry : TypeEntry) (fs : list (string * value)),
    In title titles ->
    lookupType title g = Ok entry ->
    schema entry = VObj fs ->
    assoc "type" fs = VStr "object" ->
    defined (assoc "typeName" fs) = false ->
    (forall s, assoc "title" fs <> VStr s) ->
    opt_embedMode options <> writeIncludeStatements ->
    forall res, renderLoop style options descending titles g <> Ok res.
Proof.
  intros style options descending titles g title entry fs Hin Hlookup Hschema
         Htype HtypeName Htitle Hembed.
  revert g Hlookup.
  induction titles as [| t r IH]; intros g Hlookup res H; [destruct Hin |].
  simpl in H. inv_bind H. rename a into e0.
  inv_bind H. destruct a as [md schema'].
  inv_bind H. rename a into written.
  destruct (String.eqb_spec title t) as [<- | Hne].
  - rewrite Hlookup in Ha. injection Ha as <-. rewrite Hschema in Ha0.
    rewrite (object_document_nonempty _ _ _ _ _ _ _ _ _ _ _ Ha0 Htype Hembed)
      in Ha1.
    assert (Hget : forall k, k <> "properties" -> get schema' k = Ok (assoc k fs)).
    { intros k Hk.
      destruct (getSchemaMarkdown_schema _ _ _ _ _ _ _ _ _ _ _ Ha0) as [-> | ->];
        [reflexivity | now rewrite downgradedSchema_get]. }
    rewrite (Hget "typeName") in Ha1 by discriminate. simpl in Ha1.
    rewrite HtypeName in Ha1. simpl in Ha1.
    rewrite (Hget "title") in Ha1 by discriminate. simpl in Ha1.
    destruct (assoc "title" fs) eqn:E; simpl in Ha1; try discriminate Ha1.
    exact (Htitle _ eq_refl).
  - inv_bind H. destruct a as [rest g'].
    destruct Hin as [E | Hin]; [now elim Hne |].
    apply (IH Hin (setSchema t schema' g)) in Ha2; [exact Ha2 |].
    rewrite lookupType_setSchema_other by exact Hne. exact Hlookup.
Qed.

Lemma renderLoop_untitled_type_aborts_witness :
  renderLoop (Plain.style Plain.initial) Examples.options [] ["Anonymous"]
    [("Anonymous", {| schema := VObj [("type", VStr "object")];
                      fileName := VStr "a.schema.json";
                      parents := []; children := [] |})]
  = Throw TypeError.
Proof.
  pose (entry := {| schema := VObj [("type", VStr "object")];
                    fileName := VStr "a.schema.json";
                    parents := []; children := [] |}).
  change (renderLoop (Plain.style Plain.initial) Examples.options []
            ["Anonymous"] [("Anonymous", entry)] = Throw TypeError).
  destruct (renderLoop (Plain.style Plain.initial) Examples.options []
              ["Anonymous"] [("Anonymous", entry)]) eqn:E.
  - exfalso.
    refine (renderLoop_untitled_type_aborts (Plain.style Plain.initial)
              Examples.options [] ["Anonymous"] [("Anonymous", entry)]
              "Anonymous" entry [("type", VStr "object")]
              _ eq_refl eq_refl eq_refl eq_refl _ _ a E).
    + now left.
    + intros s0 E0. discriminate E0.
    + intros E0. discriminate E0.
  - vm_compute in E. injection E as <-. reflexivity.
Defined.

Lemma renderLoop_writes (style : Style) (options : Options)
  (descending : TypeGraph) :
  forall titles g written g',
    renderLoop style options descending titles g = Ok (written, g') ->
    (List.length written <= List.length titles)%nat /\
    Forall documentWrite written.
Proof.
  induction titles as [| t r IH]; intros g written g' H; simpl in H.
  - injection H as <- _. split; [simpl; lia | constructor].
  - inv_bind H. inv_bind H. destruct a0 as [md schema'].
    inv_bind H. rename a0 into w.
    inv_bind H. destruct a0 as [rest g1]. injection H as <- _.
    destruct (IH _ _ _ Ha2) as [Hlen Hall].
    destruct (String.eqb_spec md "") as [_ | Hmd].
    + injection Ha1 as <-. simpl. split; [lia | exact Hall].
    + inv_bind Ha1. inv_bind Ha1. injection Ha1 as <-. simpl.
      split; [lia |].
      constructor; [| exact Hall].
      split; [exact Hmd | now exists (toStr a1)].
Qed.

Lemma insertByTitle_length (kv : string * TypeEntry) (g : TypeGraph) :
  List.length (insertByTitle kv g) = S (List.length g).
Proof.
  induction g as [| x g IH]; simpl; [reflexivity |].
  destruct (String.leb (fst kv) (fst x)); simpl; [reflexivity | now rewrite IH].
Qed.

Lemma sortObject_length (g : TypeGraph) (ascending : bool) :
  List.length (sortObject g ascending) = List.length g.
Proof.
  unfold sortObject.
  assert (H : List.length (fold_right insertByTitle [] g) = List.length g).
  { induction g as [| kv g IH]; simpl; [reflexivity |].
    now rewrite insertByTitle_length, IH. }
  destruct ascending; [exact H | now rewrite length_rev].
Qed.

(** The files of a completed run: first [output/text.md] with the JSON
    text of the ordered graph, then at most one file per type, each with a
    path [output/<name>.md] and a text that is not empty.  Neither the
    table of contents nor the warning on the dialect is among them. *)
Theorem generateMarkdown_writes :
  forall (M : StyleModule) (R : Resolvers) (fuel : nat) (options : Options)
         (s : StyleState M) (run : Run),
    generateMarkdown M R fuel options s = Ok run ->
    exists resolved warning json documents,
      resolveSchema R options = Ok (Some resolved, warning) /\
      stringify (graphToValue
                   (sortChildren (sortObject (referencedSchemas resolved) true)))
      = Some json /\
      writes run = ("output/text.md", json) :: documents /\
      (List.length documents <= List.length (referencedSchemas resolved))%nat /\
      Forall documentWrite documents.
Proof.
  intros M R fuel options s run H. unfold generateMarkdown in H.
  inv_bind H. destruct a as [resolved warning].
  destruct resolved as [resolved |]; [| discriminate H].
  inv_bind H. clear Ha0. inv_bind H.
  destruct (stringify _) as [json |] eqn:Hjson; [| discriminate Ha0].
  injection Ha0 as <-.
  inv_bind H. destruct a0 as [documents g']. injection H as <-.
  exists resolved, warning, json, documents.
  destruct (renderLoop_writes _ _ _ _ _ _ _ Ha0) as [Hlen Hall].
  repeat split; auto.
  rewrite length_map in Hlen. unfold sortChildren in Hlen.
  rewrite length_map, sortObject_length in Hlen. exact Hlen.
Qed.

Lemma generateMarkdown_writes_witness :
  exists run documents,
    generateMarkdown Plain.module Examples.resolvers 2 Examples.options
      Plain.initial = Ok run /\
    List.tl (writes run) = documents /\
    List.length documents = 2%nat /\
    Forall documentWrite documents.
Proof.
  destruct (generateMarkdown Plain.module Examples.resolvers 2 Examples.options
              Plain.initial) as [run |] eqn:E; [| vm_compute in E; discriminate E].
  destruct (generateMarkdown_writes _ _ _ _ _ _ E)
    as [resolved [warning [json [documents [_ [_ [Hw [_ Hall]]]]]]]].
  exists run, documents. split; [reflexivity |].
  split; [rewrite Hw; reflexivity |].
  split; [| exact Hall].
  vm_compute in E. injection E as <-. simpl in Hw. injection Hw as _ <-.
  reflexivity.
Defined.

(* ------------------------------------------------------------------ *)
(** ** A property without constraints *)

(** A property that has none of the members that give constraints renders
    its heading, its description, its type and whether it is required, and
    nothing else; it is left as it is. *)
Theorem propertyDetailsBody_plain :
  forall (style : Style) (knownTypes : list string) (autoLink : value)
         (schema variableTitle : value) (headerMd name : string)
         (fs : list (string * value)) (summary : PropertySummary),
    getPropertySummary style knownTypes autoLink (VObj fs) = Ok summary ->
    get schema "typeName" = Ok variableTitle ->
    (forall k, ~ In k plainKeys -> assoc k fs = VUndef) ->
    propertyDetailsBody style knownTypes autoLink schema headerMd name (VObj fs)
    = Ok (headerMd ++ " " ++ name ++ nl ++ nl ++
          (if defined (autoLinkDescription style knownTypes autoLink VUndef)
           then toStr (autoLinkDescription style knownTypes autoLink VUndef)
                ++ nl ++ nl
           else if defined (s_description summary)
                then toStr (s_description summary) ++ nl ++ nl
                else "") ++
          bulletItem style
            (propertyDetails style "Type" ++ ": " ++
             toStr (s_formattedType summary)) (Some 0) ++
          bulletItem style
            (propertyDetails style "Required" ++ ": " ++ s_required summary)
            (Some 0) ++
          nl,
          VObj fs).
Proof.
  intros style knownTypes autoLink schema variableTitle headerMd name fs summary
         Hsummary HtypeName Hplain.
  unfold propertyDetailsBody. rewrite Hsummary, HtypeName.
  unfold itemsDetails, minimumBullet, maximumBullet, scalarBullets,
    getEnumString, getAnyOfEnumString, additionalPropertiesBullets,
    examplesBullets.
  repeat first
    [ progress cbn [bind get defined andb negb isNumber truthy isObjectType]
    | match goal with
      | |- context [assoc ?k fs] =>
          rewrite (Hplain k) by (unfold plainKeys; simpl; intuition discriminate)
      end ].
  repeat rewrite append_empty_r. repeat rewrite append_assoc.
  reflexivity.
Qed.

Lemma propertyDetailsBody_plain_witness :
  propertyDetailsBody (Plain.style Plain.initial) [] VUndef (VObj []) "###"
    "name"
    (VObj [("type", VStr "string"); ("description", VStr "The name.")])
  = Ok ("### name" ++ nl ++ nl ++ "The name." ++ nl ++ nl ++
        "* Type: string" ++ nl ++ "* Required: No" ++ nl ++ nl,
        VObj [("type", VStr "string"); ("description", VStr "The name.")]).
Proof.
  refine (propertyDetailsBody_plain (Plain.style Plain.initial) [] VUndef
            (VObj []) VUndef "###" "name"
            [("type", VStr "string"); ("description", VStr "The name.")]
            _ eq_refl eq_refl _).
  intros k Hk. simpl.
  destruct (String.eqb_spec k "type") as [-> | _];
    [exfalso; apply Hk; unfold plainKeys; simpl; tauto |].
  destruct (String.eqb_spec k "description") as [-> | _];
    [exfalso; apply Hk; unfold plainKeys; simpl; tauto | reflexivity].
Defined.

(* ------------------------------------------------------------------ *)
(** ** The order of the children *)

Lemma insertSorted_perm (s : string) (l : list string) :
  Permutation (s :: l) (insertSorted s l).
Proof.
  induction l as [| x l IH]; simpl; [apply Permutation_refl |].
  destruct (String.leb s x); [apply Permutation_refl |].
  apply (Permutation_trans (perm_swap x s l)). now apply perm_skip.
Qed.

Lemma insertSorted_hd (s a : string) (l : list string) :
  ascending a s -> HdRel ascending a l -> HdRel ascending a (insertSorted s l).
Proof.
  intros Has Hl. destruct l as [| x l]; simpl.
  - now constructor.
  - destruct (String.leb s x); constructor; [exact Has |].
    now inversion Hl.
Qed.

Lemma insertSorted_sorted (s : string) (l : list string) :
  Sorted ascending l -> Sorted ascending (insertSorted s l).
Proof.
  induction 1 as [| x l Hsorted IH Hhd]; simpl.
  - constructor; constructor.
  - destruct (String.leb s x) eqn:Hsx.
    + constructor; [now constructor | now constructor].
    + constructor; [exact IH |].
      apply insertSorted_hd; [| exact Hhd].
      destruct (String.leb_total s x) as [E | E]; [congruence | exact E].
Qed.

Lemma sortStrings_sorted_perm (l : list string) :
  Sorted ascending (sortStrings l) /\ Permutation l (sortStrings l).
Proof.
  unfold sortStrings. induction l as [| s l [IHs IHp]]; simpl.
  - split; constructor.
  - split; [now apply insertSorted_sorted |].
    apply (Permutation_trans (perm_skip s IHp)). apply insertSorted_perm.
Qed.

(** After lines 57-59 the children of every entry are in ascending order
    and are the titles they were; the titles of the graph, their order, the
    schemas, the file names and the parents are untouched. *)
Theorem sortChildren_sorts :
  forall (g : TypeGraph),
    Forall2
      (fun kv kv' =>
         fst kv' = fst kv /\
         schema (snd kv') = schema (snd kv) /\
         fileName (snd kv') = fileName (snd kv) /\
         parents (snd kv') = parents (snd kv) /\
         Sorted ascending (children (snd kv')) /\
         Permutation (children (snd kv)) (children (snd kv')))
      g (sortChildren g).
Proof.
  induction g as [| kv g IH]; simpl; constructor; [| exact IH].
  simpl. destruct (sortStrings_sorted_perm (children (snd kv))) as [Hs Hp].
  repeat split; assumption.
Qed.

(* ------------------------------------------------------------------ *)
(** ** Graphs on which the table of contents is not produced *)

Lemma recursiveTOCLoop_ok (style : Style)
  (recur : string -> Z -> result string) (g : TypeGraph) (p : string) (d : Z) :
  forall titles s,
    recursiveTOCLoop style recur g p d titles = Ok s ->
    forall c, In c titles ->
      exists e, lookupType c g = Ok e /\
                (List.length (parents e) = 1%nat ->
                 exists sub, recur c (d + 1) = Ok sub).
Proof.
  induction titles as [| t r IH]; intros s H c Hin; [destruct Hin |].
  simpl in H. inv_bind H. rename a into e.
  destruct (Nat.eqb_spec (List.length (parents e)) 1) as [Hone | Hne].
  - inv_bind H. inv_bind H. rename a0 into sub. inv_bind H.
    destruct Hin as [<- | Hin].
    + exists e. split; [exact Ha | intros _; now exists sub].
    + exact (IH _ Ha2 c Hin).
  - destruct Hin as [<- | Hin].
    + exists e. split; [exact Ha | intros Hone; contradiction].
    + exact (IH _ H c Hin).
Qed.

(** [getRecursiveTOC] returns only if every child of the type is a type of
    the graph, and the call on each child that has exactly one parent
    returns. *)
Lemma getRecursiveTOC_ok (style : Style) (g : TypeGraph) (fuel : nat)
  (p : string) (d : Z) (s : string) :
  getRecursiveTOC style fuel g p d = Ok s ->
  exists fuel' ep,
    fuel = S fuel' /\ lookupType p g = Ok ep /\
    forall c, In c (children ep) ->
      exists e, lookupType c g = Ok e /\
                (List.length (parents e) = 1%nat ->
                 exists sub, getRecursiveTOC style fuel' g c (d + 1) = Ok sub).
Proof.
  destruct fuel as [| fuel']; simpl; intros H; [discriminate H |].
  inv_bind H. rename a into ep. exists fuel', ep.
  split; [reflexivity | split; [exact Ha |]].
  exact (recursiveTOCLoop_ok style _ g p d _ _ H).
Qed.

Lemma tocLoop_ok (style : Style) (fuel : nat) (schema : value) (g : TypeGraph) :
  forall titles s,
    tocLoop style fuel schema g titles = Ok s ->
    forall t, In t titles ->
      exists e st,
        lookupType t g = Ok e /\ get schema "title" = Ok st /\
        (listedAtTop st t e = true -> isString t st = false ->
         exists sub, getRecursiveTOC style fuel g t 1 = Ok sub).
Proof.
  induction titles as [| t0 r IH]; intros s H t Hin; [destruct Hin |].
  simpl in H. inv_bind H. rename a into e. inv_bind H. rename a into st.
  inv_bind H. inv_bind H.
  destruct Hin as [<- | Hin]; [| exact (IH _ Ha2 t Hin)].
  exists e, st. split; [exact Ha | split; [exact Ha0 |]].
  intros Hl Hroot. unfold listedAtTop in Hl. rewrite Hl in Ha1.
  inv_bind Ha1. inv_bind Ha1. rewrite Hroot in *. simpl in *.
  match goal with
  | Hr : getRecursiveTOC style fuel g t0 1 = Ok ?sub |- _ => now exists sub
  end.
Qed.

(** The table of contents is produced only if every child of a listed
    type other than the root is a type of the graph: a child title that is
    not a key of the graph makes the call throw. *)
Theorem toc_needs_the_children :
  forall (style : Style) (fuel : nat) (schema : value) (g : TypeGraph)
         (headerLevel : Z) (md : string) (t : string),
    getTableOfContentsMarkdown style fuel schema g headerLevel = Ok md ->
    In t (map fst g) ->
    exists e st,
      lookupType t g = Ok e /\ get schema "title" = Ok st /\
      (listedAtTop st t e = true -> isString t st = false ->
       forall c, In c (children e) -> exists ec, lookupType c g = Ok ec).
Proof.
  intros style fuel schema g headerLevel md t H Hin.
  unfold getTableOfContentsMarkdown in H. inv_bind H.
  destruct (tocLoop_ok style fuel schema g _ _ Ha t Hin) as [e [st [He [Hst Hsub]]]].
  exists e, st. split; [exact He | split; [exact Hst |]].
  intros Hl Hroot c Hc. destruct (Hsub Hl Hroot) as [sub Hrec].
  destruct (getRecursiveTOC_ok _ _ _ _ _ _ Hrec) as [fuel' [ep [_ [Hep Hch]]]].
  rewrite He in Hep. injection Hep as <-.
  destruct (Hch c Hc) as [ec [Hec _]]. now exists ec.
Qed.

Lemma toc_needs_the_children_witness :
  exists md,
    getTableOfContentsMarkdown (Plain.style Plain.initial) 3 RootChild.root
      RootChild.deeper 1 = Ok md /\
    exists ec, lookupType "Root Child Leaf" RootChild.deeper = Ok ec.
Proof.
  eexists. split; [vm_compute; reflexivity |].
  destruct (toc_needs_the_children (Plain.style Plain.initial) 3 RootChild.root
              RootChild.deeper 1 _ "Root Child" eq_refl)
    as [e [st [He [Hst Hc]]]]; [simpl; tauto |].
  vm_compute in He. injection He as <-.
  vm_compute in Hst. injection Hst as <-.
  apply (Hc eq_refl eq_refl). simpl. tauto.
Defined.

Lemma getRecursiveTOC_stuck (style : Style) (g : TypeGraph)
  (stuck : string -> Prop) :
  nestsForever g stuck ->
  forall fuel p d s, stuck p -> getRecursiveTOC style fuel g p d <> Ok s.
Proof.
  intros Hforever.
  induction fuel as [| fuel IH]; intros p d s Hp H; [discriminate H |].
  destruct (getRecursiveTOC_ok _ _ _ _ _ _ H) as [fuel' [ep [Hf [Hep Hch]]]].
  injection Hf as <-.
  destruct (Hforever p ep Hp Hep) as [c [e [Hin [He [Hone Hc]]]]].
  destruct (Hch c Hin) as [e' [He' Hsub]].
  rewrite He in He'. injection He' as <-.
  destruct (Hsub Hone) as [sub Hrec].
  exact (IH c (d + 1) sub Hc Hrec).
Qed.

(** The recursion of [getRecursiveTOC] has no guard against a cycle: when
    a listed type other than the root starts a chain of children with
    exactly one parent that comes back on itself, the table of contents is
    produced for no amount of fuel. *)
Theorem toc_not_produced_on_a_cycle :
  forall (style : Style) (schema : value) (g : TypeGraph)
         (stuck : string -> Prop) (t : string) (e : TypeEntry) (st : value),
    nestsForever g stuck ->
    stuck t ->
    In t (map fst g) ->
    lookupType t g = Ok e ->
    get schema "title" = Ok st ->
    listedAtTop st t e = true ->
    isString t st = false ->
    forall fuel headerLevel md,
      getTableOfContentsMarkdown style fuel schema g headerLevel <> Ok md.
Proof.
  intros style schema g stuck t e st Hforever Hstuck Hin He Hst Hl Hroot
         fuel headerLevel md H.
  unfold getTableOfContentsMarkdown in H. inv_bind H.
  destruct (tocLoop_ok style fuel schema g _ _ Ha t Hin)
    as [e' [st' [He' [Hst' Hsub]]]].
  rewrite He in He'. injection He' as <-.
  rewrite Hst in Hst'. injection Hst' as <-.
  destruct (Hsub Hl Hroot) as [sub Hrec].
  exact (getRecursiveTOC_stuck style g stuck Hforever fuel t 1 sub Hstuck Hrec).
Qed.

Lemma toc_not_produced_on_a_cycle_witness :
  getTableOfContentsMarkdown (Plain.style Plain.initial) 50 RootChild.root
    [ ("Mesh", RootChild.entryOf "Mesh" ["Root"] ["Part"]);
      ("Part", RootChild.entryOf "Part" ["Mesh"] ["Root"]);
      ("Root", RootChild.entryOf "Root" ["Part"] ["Mesh"]) ] 1
  = Throw OutOfFuel.
Proof.
  destruct (getTableOfContentsMarkdown (Plain.style Plain.initial) 50
              RootChild.root
              [ ("Mesh", RootChild.entryOf "Mesh" ["Root"] ["Part"]);
                ("Part", RootChild.entryOf "Part" ["Mesh"] ["Root"]);
                ("Root", RootChild.entryOf "Root" ["Part"] ["Mesh"]) ] 1) eqn:E.
  - exfalso.
    refine (toc_not_produced_on_a_cycle (Plain.style Plain.initial)
              RootChild.root
              [ ("Mesh", RootChild.entryOf "Mesh" ["Root"] ["Part"]);
                ("Part", RootChild.entryOf "Part" ["Mesh"] ["Root"]);
                ("Root", RootChild.entryOf "Root" ["Part"] ["Mesh"]) ]
              (fun p => p = "Mesh" \/ p = "Part" \/ p = "Root") "Mesh" _
              (VStr "Root")
              _ (or_introl eq_refl) _ eq_refl eq_refl eq_refl eq_refl
              50%nat 1 a E).
    + intros p ep [-> | [-> | ->]] Hep; vm_compute in Hep; injection Hep as <-.
      * exists "Part". eexists.
        split; [simpl; tauto | split; [reflexivity | split; [reflexivity | tauto]]].
      * exists "Root". eexists.
        split; [simpl; tauto | split; [reflexivity | split; [reflexivity | tauto]]].
      * exists "Mesh". eexists.
        split; [simpl; tauto | split; [reflexivity | split; [reflexivity | tauto]]].
    + simpl. tauto.
  - vm_compute in E. injection E as <-. reflexivity.
Defined.

(* ------------------------------------------------------------------ *)
(** ** The labels of the nested entries *)

Lemma prefix_append (p rest : string) : String.prefix p (p ++ rest) = true.
Proof.
  induction p as [| a p IH]; simpl; [destruct rest; reflexivity |].
  destruct (ascii_dec a a) as [_ | Hne]; [exact IH | now elim Hne].
Qed.

Lemma dropN_append (p rest : string) : dropN (String.length p) (p ++ rest) = rest.
Proof. induction p as [| a p IH]; simpl; [reflexivity | exact IH]. Qed.

Lemma replaceFirst_prefix (p by_ rest : string) :
  replaceFirst p by_ (p ++ rest) = by_ ++ rest.
Proof.
  destruct p as [| a p].
  - simpl. destruct rest; reflexivity.
  - change (replaceFirst (String a p) by_ (String a p ++ rest))
      with (if String.prefix (String a p) (String a p ++ rest)
            then by_ ++ dropN (String.length (String a p)) (String a p ++ rest)
            else String a (replaceFirst (String a p) by_ (p ++ rest))).
    rewrite prefix_append. now rewrite dropN_append.
Qed.

Lemma replaceFirst_absent (pat by_ s : string) :
  includes pat s = false -> replaceFirst pat by_ s = s.
Proof.
  induction s as [| c s IH]; cbn [includes replaceFirst].
  - destruct (String.prefix pat ""); [intros E; discriminate E | reflexivity].
  - destruct (String.prefix pat (String c s)); [intros E; discriminate E |].
    intros H. now rewrite IH.
Qed.

Lemma recursiveItemsLoop_labels
  (recur : string -> Z -> result (list TocItem)) (g : TypeGraph) (p : string)
  (d : Z) (P : TocItem -> Prop) :
  (forall t d' items, recur t d' = Ok items -> Forall P items) ->
  (forall c tn, P {| item_title := c; item_parent := Some p;
                     item_label := replaceFirst (p ++ " ") "" c;
                     item_typeName := tn; item_depth := Some d;
                     item_root := false |}) ->
  forall titles items,
    recursiveItemsLoop recur g p d titles = Ok items -> Forall P items.
Proof.
  intros Hrecur Hitem.
  induction titles as [| c r IH]; intros items H; simpl in H.
  - injection H as <-. constructor.
  - inv_bind H. destruct (Nat.eqb (List.length (parents a)) 1).
    + inv_bind H. inv_bind H. inv_bind H. injection H as <-.
      constructor; [apply Hitem |].
      apply Forall_app. split; [exact (Hrecur _ _ _ Ha1) | exact (IH _ Ha2)].
    + exact (IH _ H).
Qed.

Lemma recursiveItems_labels (g : TypeGraph) :
  forall fuel p d items,
    recursiveItems fuel g p d = Ok items ->
    Forall (fun it => exists q,
                item_parent it = Some q /\
                item_label it = replaceFirst (q ++ " ") "" (item_title it))
           items.
Proof.
  induction fuel as [| fuel IH]; intros p d items H; simpl in H;
    [discriminate H |].
  inv_bind H.
  apply (recursiveItemsLoop_labels (recursiveItems fuel g) g p d _
           (fun t d' its Hr => IH t d' its Hr)) with (titles := children a);
    [| exact H].
  intros c tn. exists p. split; reflexivity.
Qed.

(** The label of an entry nested under [q] is its title without the first
    occurrence of the title of [q] followed by a space, wherever that
    occurrence is: a title that starts with it loses this prefix, a title
    that does not hold it is the label as it is. *)
Theorem nested_labels :
  forall (style : Style) (fuel : nat) (g : TypeGraph) (p : string) (d : Z)
         (md : string),
    getRecursiveTOC style fuel g p d = Ok md ->
    exists items,
      recursiveItems fuel g p d = Ok items /\
      md = renderItems style items /\
      forall it, In it items ->
        exists q,
          item_parent it = Some q /\
          item_label it = replaceFirst (q ++ " ") "" (item_title it) /\
          (forall rest, item_title it = q ++ " " ++ rest -> item_label it = rest) /\
          (includes (q ++ " ") (item_title it) = false ->
           item_label it = item_title it).
Proof.
  intros style fuel g p d md H.
  rewrite getRecursiveTOC_items in H. inv_bind H. injection H as <-.
  exists a. split; [exact Ha | split; [reflexivity |]].
  intros it Hin.
  pose proof (recursiveItems_labels g fuel p d a Ha) as Hall.
  rewrite Forall_forall in Hall. destruct (Hall it Hin) as [q [Hq Hl]].
  exists q. split; [exact Hq | split; [exact Hl | split]].
  - intros rest Ht. rewrite Hl, Ht, <- append_assoc.
    now rewrite replaceFirst_prefix.
  - intros Habsent. rewrite Hl. now apply replaceFirst_absent.
Qed.

Lemma nested_labels_witness :
  exists items,
    recursiveItems 2
      [ ("Node", RootChild.entryOf "Node" ["Root"]
                   ["Node Mesh"; "Scene Node List"; "Camera"]);
        ("Node Mesh", RootChild.entryOf "Node Mesh" ["Node"] []);
        ("Scene Node List", RootChild.entryOf "Scene Node List" ["Node"] []);
        ("Camera", RootChild.entryOf "Camera" ["Node"] []) ] "Node" 1
    = Ok items /\
    map item_label items = ["Mesh"; "Scene List"; "Camera"].
Proof.
  destruct (nested_labels (Plain.style Plain.initial) 2
              [ ("Node", RootChild.entryOf "Node" ["Root"]
                           ["Node Mesh"; "Scene Node List"; "Camera"]);
                ("Node Mesh", RootChild.entryOf "Node Mesh" ["Node"] []);
                ("Scene Node List",
                 RootChild.entryOf "Scene Node List" ["Node"] []);
                ("Camera", RootChild.entryOf "Camera" ["Node"] []) ]
              "Node" 1 _ eq_refl) as [items [Hitems _]].
  exists items. split; [exact Hitems |].
  vm_compute in Hitems. injection Hitems as <-. reflexivity.
Defined.

(* ------------------------------------------------------------------ *)
(** ** Rendering a type again *)

Lemma assocSet_assocSet (k : string) (v w : value) (fs : list (string * value)) :
  assocSet k v (assocSet k w fs) = assocSet k v fs.
Proof.
  induction fs as [| [k' v'] fs IH]; simpl.
  - now rewrite String.eqb_refl.
  - destruct (String.eqb k k') eqn:E; simpl; rewrite E; [reflexivity |].
    now rewrite IH.
Qed.

Lemma downgraded_fixed (ex bd : string) (fs : list (string * value)) :
  (forall n, assoc ex fs <> VNum n) ->
  downgraded ex bd (VObj fs) = VObj fs.
Proof.
  intros H. unfold downgraded.
  destruct (assoc ex fs) eqn:E; try reflexivity. now elim (H n).
Qed.

Lemma downgraded_object (ex bd : string) (fs : list (string * value)) :
  ex <> bd ->
  exists fs',
    downgraded ex bd (VObj fs) = VObj fs' /\
    (forall n, assoc ex fs' <> VNum n) /\
    (forall k, k <> ex -> k <> bd -> assoc k fs' = assoc k fs).
Proof.
  intros Hne. unfold downgraded.
  destruct (assoc ex fs) eqn:E;
    try (exists fs; split; [reflexivity | split; [| reflexivity]];
         intros m Hm; rewrite E in Hm; discriminate Hm).
  exists (assocSet ex (VBool true) (assocSet bd (VNum n) fs)).
  split; [reflexivity | split].
  - intros m. rewrite assoc_assocSet, String.eqb_refl. discriminate.
  - intros k Hk1 Hk2. rewrite !assoc_assocSet.
    destruct (String.eqb_spec k ex); [contradiction |].
    destruct (String.eqb_spec k bd); [contradiction | reflexivity].
Qed.

Lemma downgradedItems_idempotent (items : value) :
  downgradedItems (downgradedItems items) = downgradedItems items.
Proof.
  unfold downgradedItems.
  destruct items as [| | b | n | s | l | fs]; try reflexivity.
  destruct (downgraded_object "exclusiveMinimum" "minimum" fs ltac:(discriminate))
    as [fs1 [-> [Hmin _]]].
  destruct (downgraded_object "exclusiveMaximum" "maximum" fs1 ltac:(discriminate))
    as [fs2 [-> [Hmax Hkeep]]].
  rewrite (downgraded_fixed "exclusiveMinimum" "minimum" fs2).
  - now apply downgraded_fixed.
  - intros n. rewrite Hkeep by discriminate. apply Hmin.
Qed.

Lemma downgradedItems_defined (items : value) :
  defined (downgradedItems items) = defined items.
Proof.
  unfold downgradedItems.
  destruct items as [| | b | n | s | l | fs]; try reflexivity.
  destruct (downgraded_object "exclusiveMinimum" "minimum" fs ltac:(discriminate))
    as [fs1 [-> _]].
  destruct (downgraded_object "exclusiveMaximum" "maximum" fs1 ltac:(discriminate))
    as [fs2 [-> _]].
  reflexivity.
Qed.

Lemma downgradedProperty_idempotent (property : value) :
  downgradedProperty (downgradedProperty property) = downgradedProperty property.
Proof.
  unfold downgradedProperty.
  destruct property as [| | b | n | s | l | fs]; try reflexivity.
  destruct (defined (assoc "items" fs)) eqn:Hd.
  - rewrite assoc_assocSet, String.eqb_refl.
    rewrite downgradedItems_defined, Hd.
    now rewrite downgradedItems_idempotent, assocSet_assocSet.
  - now rewrite Hd.
Qed.

Lemma downgradedProperties_idempotent (properties : value) :
  downgradedProperties (downgradedProperties properties)
  = downgradedProperties properties.
Proof.
  destruct properties as [| | b | n | s | l | fs]; try reflexivity; simpl.
  - f_equal. rewrite map_map. apply map_ext. intros p.
    apply downgradedProperty_idempotent.
  - f_equal. rewrite map_map. apply map_ext. intros [k p]. simpl.
    now rewrite downgradedProperty_idempotent.
Qed.

Lemma downgradedSchema_idempotent (schema : value) :
  downgradedSchema (downgradedSchema schema) = downgradedSchema schema.
Proof.
  unfold downgradedSchema.
  destruct schema as [| | b | n | s | l | fs]; try reflexivity.
  destruct (assoc "properties" fs) as [| | b | n | s | l | ps] eqn:E;
    try (rewrite E; reflexivity).
  - rewrite assoc_assocSet, String.eqb_refl.
    change (downgradedProperties (VArr l)) with (VArr (map downgradedProperty l)).
    change (VArr (map downgradedProperty l)) with (downgradedProperties (VArr l)).
    rewrite downgradedProperties_idempotent.
    simpl. now rewrite assocSet_assocSet.
  - rewrite assoc_assocSet, String.eqb_refl.
    change (downgradedProperties (VObj ps))
      with (VObj (map (fun kv => (fst kv, downgradedProperty (snd kv))) ps)).
    change (VObj (map (fun kv => (fst kv, downgradedProperty (snd kv))) ps))
      with (downgradedProperties (VObj ps)).
    rewrite downgradedProperties_idempotent.
    simpl. now rewrite assocSet_assocSet.
Qed.

Section Again.

Variable style : Style.
Variable knownTypes : list string.
Variable autoLink : value.

Lemma downgrade_object (ex bd : string) (fs : list (string * value)) :
  downgrade ex bd (VObj fs) = Ok (downgraded ex bd (VObj fs)).
Proof.
  unfold downgrade, downgraded. simpl.
  destruct (assoc ex fs); reflexivity.
Qed.

Lemma downgradedItems_agrees (items : value) :
  agreeExcept boundKeys (downgradedItems items) items.
Proof.
  unfold downgradedItems.
  destruct items as [| | b | n | s | l | fs]; try (intros k _; reflexivity).
  destruct (downgraded_object "exclusiveMinimum" "minimum" fs ltac:(discriminate))
    as [fs1 [-> [_ Hkeep1]]].
  destruct (downgraded_object "exclusiveMaximum" "maximum" fs1 ltac:(discriminate))
    as [fs2 [-> [_ Hkeep2]]].
  intros k Hk. simpl.
  rewrite Hkeep2, Hkeep1; try reflexivity;
    intros ->; apply Hk; simpl; tauto.
Qed.

Lemma itemsDetails_again (items type : value) :
  itemsDetails style (downgradedItems items) type = itemsDetails style items type.
Proof.
  destruct items as [| | b | n | s | l | fs]; try reflexivity.
  unfold downgradedItems.
  destruct (downgraded_object "exclusiveMinimum" "minimum" fs ltac:(discriminate))
    as [fs1 [E1 [Hmin _]]].
  destruct (downgraded_object "exclusiveMaximum" "maximum" fs1 ltac:(discriminate))
    as [fs2 [E2 [Hmax Hkeep]]].
  rewrite E1, E2. unfold itemsDetails. cbn [defined negb].
  rewrite (downgrade_object "exclusiveMinimum" "minimum" fs2).
  rewrite (downgrade_object "exclusiveMinimum" "minimum" fs).
  cbn [bind]. rewrite E1.
  rewrite (downgraded_fixed "exclusiveMinimum" "minimum" fs2)
    by (intros n; rewrite Hkeep by discriminate; apply Hmin).
  rewrite (downgrade_object "exclusiveMaximum" "maximum" fs2).
  rewrite (downgrade_object "exclusiveMaximum" "maximum" fs1).
  cbn [bind]. rewrite E2.
  now rewrite (downgraded_fixed "exclusiveMaximum" "maximum" fs2) by exact Hmax.
Qed.

Lemma getPropertySummary_again (property : value) :
  getPropertySummary style knownTypes autoLink (downgradedProperty property)
  = getPropertySummary style knownTypes autoLink property.
Proof.
  destruct property as [| | b | n | s | l | fs]; try reflexivity.
  unfold downgradedProperty.
  destruct (defined (assoc "items" fs)) eqn:Hd; [| reflexivity].
  assert (Hother : forall k, k <> "items" ->
            get (VObj (assocSet "items" (downgradedItems (assoc "items" fs)) fs)) k
            = get (VObj fs) k)
    by (intros k Hk; exact (get_setProp_other "items" k _ (VObj fs) Hk)).
  assert (Hitems :
            get (VObj (assocSet "items" (downgradedItems (assoc "items" fs)) fs))
              "items" = Ok (downgradedItems (assoc "items" fs)))
    by exact (get_setProp_same "items" _ fs).
  assert (Hitems0 : get (VObj fs) "items" = Ok (assoc "items" fs)) by reflexivity.
  set (p2 := VObj (assocSet "items" (downgradedItems (assoc "items" fs)) fs)) in *.
  set (p := VObj fs) in *.
  clearbody p2 p.
  unfold getPropertySummary, arrayInfo, requiredString.
  unfold getPropertyType at 1 3.
  repeat match goal with
         | |- context [get p2 ?k] =>
             first [ rewrite Hitems | rewrite (Hother k) by discriminate ]
         end.
  rewrite Hitems0. cbn [bind].
  rewrite downgradedItems_defined, Hd. cbn [andb].
  rewrite (downgradedItems_agrees (assoc "items" fs) "type")
    by (unfold boundKeys; simpl; intuition discriminate).
  rewrite (getPropertyType_ext _ _ (downgradedItems_agrees (assoc "items" fs))).
  reflexivity.
Qed.

Lemma propertyDetailsBody_again (schema schema2 : value) (headerMd name : string)
  (property : value) :
  get schema2 "typeName" = get schema "typeName" ->
  propertyDetailsBody style knownTypes autoLink schema2 headerMd name
    (downgradedProperty property)
  = propertyDetailsBody style knownTypes autoLink schema headerMd name property.
Proof.
  intros Hs. unfold propertyDetailsBody at 1 2.
  rewrite getPropertySummary_again, Hs.
  destruct property as [| | b | n | s | l | fs]; try reflexivity.
  unfold downgradedProperty.
  destruct (defined (assoc "items" fs)) eqn:Hd; [| reflexivity].
  assert (Hother : forall k, k <> "items" ->
            get (VObj (assocSet "items" (downgradedItems (assoc "items" fs)) fs)) k
            = get (VObj fs) k)
    by (intros k Hk; exact (get_setProp_other "items" k _ (VObj fs) Hk)).
  assert (Hitems :
            get (VObj (assocSet "items" (downgradedItems (assoc "items" fs)) fs))
              "items" = Ok (downgradedItems (assoc "items" fs)))
    by exact (get_setProp_same "items" _ fs).
  assert (Hitems0 : get (VObj fs) "items" = Ok (assoc "items" fs)) by reflexivity.
  assert (Hset : forall v,
            setProp "items" v
              (VObj (assocSet "items" (downgradedItems (assoc "items" fs)) fs))
            = setProp "items" v (VObj fs))
    by (intros v; simpl; now rewrite assocSet_assocSet).
  set (p2 := VObj (assocSet "items" (downgradedItems (assoc "items" fs)) fs)) in *.
  set (p := VObj fs) in *.
  clearbody p2 p.
  repeat match goal with
         | |- context [get p2 ?k] =>
             first [ rewrite Hitems | rewrite (Hother k) by discriminate ]
         end.
  rewrite Hitems0.
  destruct (getPropertySummary style knownTypes autoLink p) as [summary |];
    [| reflexivity].
  cbn [bind].
  destruct (get schema "typeName"); [| reflexivity]. cbn [bind].
  destruct (get p "gltf_detailedDescription"); [| reflexivity]. cbn [bind].
  destruct (get p "uniqueItems"); [| reflexivity]. cbn [bind].
  rewrite itemsDetails_again, downgradedItems_defined, Hd.
  destruct (itemsDetails style (assoc "items" fs) (s_type summary))
    as [[itemsMd items'] |]; [| reflexivity].
  cbn [bind]. rewrite Hset. reflexivity.
Qed.

Lemma hasOwnProperty_again (properties : value) (name : string) :
  hasOwnProperty (downgradedProperties properties) name
  = hasOwnProperty properties name.
Proof.
  destruct properties as [| | b | n | s | l | fs]; try reflexivity. simpl.
  assert (H : forall k, assoc k (map (fun kv => (fst kv, downgradedProperty (snd kv))) fs)
                        = downgradedProperty (assoc k fs)).
  { intros k. induction fs as [| [k' v] fs IH]; simpl; [reflexivity |].
    destruct (String.eqb k k'); [reflexivity | exact IH]. }
  rewrite H.
  destruct (assoc "hasOwnProperty" fs) as [| | b | n | s | l | gs];
    try reflexivity.
  simpl. destruct (defined (assoc "items" gs)); reflexivity.
Qed.

Lemma hasOwnProperty_true (properties : value) (name : string) (b : bool) :
  hasOwnProperty properties name = Ok b -> b = true.
Proof.
  destruct properties as [| | b0 | n | s | l | fs]; simpl; intros H;
    try (now injection H as <-).
  destruct (assoc "hasOwnProperty" fs); try discriminate H.
  now injection H as <-.
Qed.

Lemma detailsLoop_again (schema schema2 properties : value) (headerMd : string) :
  get schema2 "typeName" = get schema "typeName" ->
  forall entries,
    detailsLoop style knownTypes autoLink schema2 (downgradedProperties properties)
      headerMd (map (fun kv => (fst kv, downgradedProperty (snd kv))) entries)
    = detailsLoop style knownTypes autoLink schema properties headerMd entries.
Proof.
  intros Hs. induction entries as [| [name property] r IH]; [reflexivity |].
  cbn [map detailsLoop fst snd].
  rewrite hasOwnProperty_again, IH.
  destruct (hasOwnProperty properties name) as [own |] eqn:Hown; [| reflexivity].
  rewrite (hasOwnProperty_true _ _ _ Hown). cbn [bind].
  now rewrite (propertyDetailsBody_again schema schema2 headerMd name property Hs).
Qed.

Lemma summaryLoop_again (properties : value) :
  forall entries,
    summaryLoop style knownTypes autoLink (downgradedProperties properties)
      (map (fun kv => (fst kv, downgradedProperty (snd kv))) entries)
    = summaryLoop style knownTypes autoLink properties entries.
Proof.
  induction entries as [| [name property] r IH]; [reflexivity |].
  cbn [map summaryLoop fst snd].
  now rewrite hasOwnProperty_again, IH, getPropertySummary_again.
Qed.

Lemma ownEntries_again (properties : value) :
  (exists fs, properties = VObj fs) \/ (exists l, properties = VArr l) ->
  ownEntries (downgradedProperties properties)
  = map (fun kv => (fst kv, downgradedProperty (snd kv))) (ownEntries properties).
Proof.
  intros [[fs ->] | [l ->]]; [reflexivity |].
  simpl. rewrite length_map.
  generalize (map natToString (seq 0 (List.length l))) as keys.
  induction l as [| x l IH]; intros [| k keys]; simpl; try reflexivity.
  now rewrite IH.
Qed.

Lemma get_object_set (k : string) (v : value) (fs : list (string * value)) :
  get (VObj (assocSet k v fs)) k = Ok v.
Proof. exact (get_setProp_same k v fs). Qed.

Lemma downgradedSchema_cases (schema : value) :
  downgradedSchema schema = schema \/
  exists fs, schema = VObj fs /\
    ((exists ps, assoc "properties" fs = VObj ps) \/
     (exists l, assoc "properties" fs = VArr l)) /\
    downgradedSchema schema
    = VObj (assocSet "properties" (downgradedProperties (assoc "properties" fs)) fs).
Proof.
  destruct schema as [| | b | n | s | l | fs]; try (now left).
  unfold downgradedSchema.
  destruct (assoc "properties" fs) as [| | b | n | s | l | ps] eqn:E;
    try (now left); right; exists fs; rewrite E; eauto.
Qed.

Lemma createPropertiesSummary_again (schema : value) :
  createPropertiesSummary style knownTypes autoLink (downgradedSchema schema)
  = createPropertiesSummary style knownTypes autoLink schema.
Proof.
  destruct (downgradedSchema_cases schema) as [-> | [fs [-> [Hp ->]]]];
    [reflexivity |].
  unfold createPropertiesSummary.
  rewrite (get_object_set "properties" _ fs).
  change (get (VObj fs) "properties") with (Ok (assoc "properties" fs)).
  cbn [bind].
  pose proof (ownEntries_again _ Hp) as Hown.
  pose proof (summaryLoop_again (assoc "properties" fs)
                (ownEntries (assoc "properties" fs))) as Hloop.
  rewrite <- Hown in Hloop.
  assert (Hlen : keysLength (downgradedProperties (assoc "properties" fs))
                 = keysLength (assoc "properties" fs)).
  { unfold keysLength. rewrite Hown, length_map.
    destruct Hp as [[ps E] | [l E]]; rewrite E; reflexivity. }
  rewrite Hlen, Hloop.
  destruct Hp as [[ps E] | [l E]]; rewrite E; reflexivity.
Qed.

Lemma createPropertiesDetails_again (schema title : value) (headerLevel : Z) :
  createPropertiesDetails style knownTypes autoLink (downgradedSchema schema)
    title headerLevel
  = createPropertiesDetails style knownTypes autoLink schema title headerLevel.
Proof.
  pose proof (downgradedSchema_get schema "typeName" ltac:(discriminate)) as Hs.
  destruct (downgradedSchema_cases schema) as [-> | [fs [-> [Hp E]]]];
    [reflexivity |].
  rewrite E in *. clear E.
  unfold createPropertiesDetails.
  rewrite (get_object_set "properties" _ fs).
  change (get (VObj fs) "properties") with (Ok (assoc "properties" fs)).
  cbn [bind].
  rewrite (ownEntries_again _ Hp).
  rewrite (detailsLoop_again (VObj fs) _ (assoc "properties" fs) _ Hs).
  destruct (detailsLoop style knownTypes autoLink (VObj fs)
              (assoc "properties" fs) (getHeaderMarkdown style headerLevel)
              (ownEntries (assoc "properties" fs))) as [[md entries'] |];
    [| reflexivity].
  cbn [bind].
  destruct Hp as [[ps Ep] | [l Ep]]; rewrite Ep; simpl;
    now rewrite assocSet_assocSet.
Qed.

Lemma getSchemaMarkdown_again
  (schema fileName : value) (headerLevel : Z) (suppressWarnings : bool)
  (base : option string) (embedMode : EmbedMode) (md : string) (schema' : value) :
  getSectionMarkdown style (downgradedSchema schema) headerLevel suppressWarnings
    embedMode
  = getSectionMarkdown style schema headerLevel suppressWarnings embedMode ->
  getSchemaEmbedLink style fileName (downgradedSchema schema)
  = getSchemaEmbedLink style fileName schema ->
  getSchemaMarkdown style knownTypes autoLink schema fileName headerLevel
    suppressWarnings base embedMode = Ok (md, schema') ->
  getSchemaMarkdown style knownTypes autoLink (downgradedSchema schema) fileName
    headerLevel suppressWarnings base embedMode
  = Ok (md, downgradedSchema schema').
Proof.
  intros Hsec Hlink H.
  destruct (downgradedSchema_cases schema) as [E | [fs [-> [Hp E]]]].
  - rewrite E.
    destruct (getSchemaMarkdown_schema _ _ _ _ _ _ _ _ _ _ _ H) as [-> | ->].
    + rewrite E. exact H.
    + rewrite !E. rewrite E in H. exact H.
  - pose proof (fun k => downgradedSchema_get (VObj fs) k) as Hother.
    pose proof (createPropertiesSummary_again (VObj fs)) as Hsum.
    pose proof (fun title hl => createPropertiesDetails_again (VObj fs) title hl)
      as Hdet.
    pose proof (downgradedSchema_idempotent (VObj fs)) as Hidem.
    pose proof (fun title hl md s' =>
                  createPropertiesDetails_downgraded style knownTypes autoLink
                    (VObj fs) title hl fs md s' eq_refl) as Hdown.
    unfold getSchemaMarkdown in H |- *.
    rewrite E at 1. cbv beta iota. cbv beta iota in H.
    clear E Hp.
    set (s := VObj fs) in *. clearbody s.
    remember (downgradedSchema s) as s2 eqn:Hs2.
    rewrite Hsec.
    destruct (EmbedMode_eqb embedMode writeIncludeStatements).
    { injection H as <- <-. now rewrite <- Hs2. }
    rewrite !Hother by discriminate.
    destruct (get s "description") as [description |]; [| discriminate H].
    cbn [bind] in H |- *.
    destruct (get s "gltf_sectionDescription") as [extended |]; [| discriminate H].
    cbn [bind] in H |- *.
    destruct (get s "type") as [schemaType |]; [| discriminate H].
    cbn [bind] in H |- *.
    destruct (get s "gltf_webgl") as [webgl |]; [| discriminate H].
    cbn [bind] in H |- *.
    destruct (strictEq schemaType (VStr "object")).
    2: { injection H as <- <-. now rewrite <- Hs2. }
    rewrite Hsum.
    destruct (createPropertiesSummary style knownTypes autoLink s) as [summary |];
      [| discriminate H].
    cbn [bind] in H |- *.
    destruct (get s "additionalProperties") as [additional |]; [| discriminate H].
    cbn [bind] in H |- *.
    rewrite Hlink.
    destruct (get s "title") as [schemaTitle |]; [| discriminate H].
    cbn [bind] in H |- *.
    rewrite Hdet.
    match type of H with
    | context [createPropertiesDetails ?a ?b ?c ?d ?e ?f] =>
        destruct (createPropertiesDetails a b c d e f) as [[details s''] |] eqn:Ed;
          [| discriminate H]
    end.
    cbn [bind] in H |- *.
    destruct (createExamples style s'' headerLevel) as [examples |];
      [| discriminate H].
    cbn [bind] in H |- *.
    injection H as <- <-.
    apply Hdown in Ed. subst s''. now rewrite Hidem.
Qed.

End Again.

(** Rendering a type a second time, from the schema the first render left,
    gives the same document and changes this schema no more, with a style
    whose section heading and embed link read nothing the downgrade of
    the [items] changes. *)
Theorem render_again_same_document :
  forall (style : Style) (knownTypes : list string) (autoLink : value)
         (schema fileName : value) (headerLevel : Z) (suppressWarnings : bool)
         (base : option string) (embedMode : EmbedMode)
         (md : string) (schema' : value),
    getSchemaMarkdown style knownTypes autoLink schema fileName headerLevel
      suppressWarnings base embedMode = Ok (md, schema') ->
    getSectionMarkdown style schema' headerLevel suppressWarnings embedMode
    = getSectionMarkdown style schema headerLevel suppressWarnings embedMode ->
    getSchemaEmbedLink style fileName schema'
    = getSchemaEmbedLink style fileName schema ->
    getSchemaMarkdown style knownTypes autoLink schema' fileName headerLevel
      suppressWarnings base embedMode = Ok (md, schema').
Proof.
  intros style knownTypes autoLink schema fileName headerLevel suppressWarnings
         base embedMode md schema' H Hsec Hlink.
  destruct (getSchemaMarkdown_schema _ _ _ _ _ _ _ _ _ _ _ H) as [E | E].
  - rewrite E. rewrite E in H. exact H.
  - rewrite E in Hsec, Hlink.
    pose proof (getSchemaMarkdown_again style knownTypes autoLink schema fileName
                  headerLevel suppressWarnings base embedMode md schema'
                  Hsec Hlink H) as H2.
    rewrite E in H2 |- *.
    now rewrite downgradedSchema_idempotent in H2.
Qed.

Lemma render_again_same_document_witness :
  exists md schema',
    getSchemaMarkdown (Plain.style Plain.initial) [] VUndef Examples.childSchema
      (VStr "child.schema.json") 2 false None fullExpansion = Ok (md, schema')
    /\ schema' <> Examples.childSchema
    /\ getSchemaMarkdown (Plain.style Plain.initial) [] VUndef schema'
         (VStr "child.schema.json") 2 false None fullExpansion = Ok (md, schema').
Proof.
  destruct (getSchemaMarkdown (Plain.style Plain.initial) [] VUndef
              Examples.childSchema (VStr "child.schema.json") 2 false None
              fullExpansion) as [[md schema'] |] eqn:E1;
    [| vm_compute in E1; discriminate E1].
  pose proof E1 as E. vm_compute in E. injection E as _ Hs.
  exists md, schema'. split; [reflexivity |].
  split; [rewrite <- Hs; intros D; discriminate D |].
  apply (render_again_same_document _ _ _ _ _ _ _ _ _ _ _ E1);
    rewrite <- Hs; reflexivity.
Defined.
